(** * Secure camera server: account, rate-limit, session and quota bookkeeping

    A shallow embedding of [secure_camera_server/server.py].  The SQLite
    tables are lists of rows, the upload folder is a three-level finite map
    (user folder, session folder, file name), and every function of the
    source that touches them is a computation in a small state monad over
    the [world].

    What the Python runtime and the operating system supply is collected in
    the class [Runtime]; the random values and I/O outcomes a call draws
    (fresh ids and salts, whether a write or a removal succeeds) are explicit
    arguments.  A request is served at one clock reading [now], in seconds:
    SQLite's CURRENT_TIMESTAMP (UTC) and Python's datetime.now() (the
    server's local time) are read off the same clock, as on a server that
    keeps UTC, and the time that passes between two statements of one
    handler is not modelled.  Names of users, sessions and files are opaque
    but for [dir_name], which says when two session ids name one folder.
    Database statements other than the ones the schema or the binding
    rejects do not fail. *)

From Stdlib Require Import ZArith QArith Qminmax String Ascii List Lia Bool.
From stdpp Require Import base option gmap strings list sorting pretty.

Local Open Scope string_scope.
Local Open Scope list_scope.
Local Open Scope Z_scope.

(** ** The runtime the server runs on *)

Class Runtime := {
  (** hashlib.pbkdf2_hmac('sha256', password, salt, 100000).hex() *)
  pbkdf2_hmac_sha256_hex : string -> string -> string;
  (** str.lower, str.strip, str.title and str.isdigit *)
  str_lower : string -> string;
  str_strip : string -> string;
  str_title : string -> string;
  str_isdigit : string -> bool;
  (** int(s); [None] is ValueError *)
  py_int : string -> option Z;
  (** datetime.strftime("%Y%m%d_%H%M%S") of a clock reading *)
  strftime : Z -> string;
  (** the directory a session_id names below a user folder once the
      operating system has resolved the joined path *)
  dir_name : string -> string;
}.

(** ** Data model *)

Definition bytes := list Byte.byte.

(** users (the AUTOINCREMENT id column is left out: nothing reads it) *)
Record user_row := mk_user {
  user_id : string;
  email : string;
  full_name : string;
  password_hash : string;
  salt : string;
  created_at : Z;
  last_login : option Z;
  subscription_tier : option string;
  storage_used : Z;
  subscription_expires_at : option string;
}.

(** recording_sessions: no UNIQUE constraint on (user_id, session_id).
    Every row carries a chunk_count: the rows upload_video inserts take the
    column's DEFAULT 0, and the archived rows are taken to hold a number
    (on a NULL, SQLite's MAX(chunk_count, ?) would stay NULL). *)
Record session_row := mk_session {
  s_user_id : string;
  s_session_id : string;
  s_created_at : Z;
  chunk_count : Z;
}.

(** login_attempts *)
Record attempt_row := mk_attempt {
  a_email : string;
  attempt_time : Z;
  success : Z;
  ip_address : string;
}.

(** users_old_pin_backup *)
Record old_user_row := mk_old_user {
  o_user_id : string;
  pin_hash : string;
  o_salt : string;
}.

(** The calls whose occurrence or order a property of the server speaks
    about, in the order they are made. *)
Inductive event :=
| EvSelectUser (email : string)
| EvPbkdf2 (password salt : string)
| EvInsertUser (user_id email : string)
| EvUpdateLastLogin (user_id : string)
| EvInsertAttempt (email : string) (success : Z)
| EvMakedirs (user_id : string) (session_id : option string)
| EvInsertSession (user_id session_id : string)
| EvSave (user_id session_id filename : string) (ok : bool)
| EvUpdateChunkCount (user_id session_id : string) (n : Z)
| EvRmtree (user_id session_id : string) (ok : bool)
| EvDeleteSession (user_id session_id : string)
| EvOpenRead (user_id session_id filename : string).

Record world := mk_world {
  users : list user_row;
  recording_sessions : list session_row;
  login_attempts : list attempt_row;
  users_old_pin_backup : option (list old_user_row);
  recording_sessions_old_backup : option (list session_row);
  (** UPLOAD_FOLDER: user folder, session folder, file *)
  upload_folder : gmap string (gmap string (gmap string bytes));
  trace : list event;
}.

Definition set_users (f : list user_row -> list user_row) (w : world) : world :=
  mk_world (f (users w)) (recording_sessions w) (login_attempts w)
    (users_old_pin_backup w) (recording_sessions_old_backup w)
    (upload_folder w) (trace w).

Definition set_sessions (f : list session_row -> list session_row) (w : world) : world :=
  mk_world (users w) (f (recording_sessions w)) (login_attempts w)
    (users_old_pin_backup w) (recording_sessions_old_backup w)
    (upload_folder w) (trace w).

Definition set_attempts (f : list attempt_row -> list attempt_row) (w : world) : world :=
  mk_world (users w) (recording_sessions w) (f (login_attempts w))
    (users_old_pin_backup w) (recording_sessions_old_backup w)
    (upload_folder w) (trace w).

Definition set_folder
    (f : gmap string (gmap string (gmap string bytes)) ->
         gmap string (gmap string (gmap string bytes))) (w : world) : world :=
  mk_world (users w) (recording_sessions w) (login_attempts w)
    (users_old_pin_backup w) (recording_sessions_old_backup w)
    (f (upload_folder w)) (trace w).

Definition log (e : event) (w : world) : world :=
  mk_world (users w) (recording_sessions w) (login_attempts w)
    (users_old_pin_backup w) (recording_sessions_old_backup w)
    (upload_folder w) (trace w ++ [e]).

(** ** The state monad of the handlers *)

Definition M (A : Type) : Type := world -> A * world.

Definition ret {A} (a : A) : M A := fun w => (a, w).

Definition bind {A B} (c : M A) (k : A -> M B) : M B :=
  fun w => let (a, w') := c w in k a w'.

Definition gets {A} (f : world -> A) : M A := fun w => (f w, w).

Definition modify (f : world -> world) : M unit := fun w => (tt, f w).

Definition emit (e : event) : M unit := modify (log e).

(** The world a computation leaves, and what it returns. *)
Definition run {A} (c : M A) (w : world) : world := snd (c w).

Definition result {A} (c : M A) (w : world) : A := fst (c w).

Declare Scope handler_scope.
Delimit Scope handler_scope with handler.
Notation "x <- c ;; k" := (bind c (fun x => k))
  (at level 100, c at next level, right associativity) : handler_scope.
Notation "c ;; k" := (bind c (fun _ => k))
  (at level 100, right associativity) : handler_scope.
Local Open Scope handler_scope.

(** ** JSON bodies and responses *)

#[local] Unset Elimination Schemes.
Inductive json :=
| JNull
| JBool (b : bool)
| JInt (z : Z)
| JNum (q : Q)
| JStr (s : string)
| JObj (fields : list (string * json))
| JArr (items : list json).
#[local] Set Elimination Schemes.

Inductive response :=
| Json (body : json) (status : Z)
| Text (body : string) (status : Z)
| Stream (body : bytes) (headers : list (string * string)).

Definition status_of (r : response) : Z :=
  match r with
  | Json _ s => s
  | Text _ s => s
  | Stream _ _ => 200
  end.

Definition error (msg : string) (status : Z) : response :=
  Json (JObj [("error", JStr msg)]) status.

(** A request body or form: a dict of string fields. *)
Definition dict_get (d : gmap string string) (k dflt : string) : string :=
  default dflt (d !! k).

Definition is_empty_dict (d : gmap string string) : bool :=
  bool_decide (d = ∅).

Definition str_nonempty (s : string) : bool :=
  match s with EmptyString => false | _ => true end.

(** ** String helpers *)

(** [sub in s] *)
Fixpoint str_contains (sub s : string) : bool :=
  String.prefix sub s ||
  match s with
  | EmptyString => false
  | String _ rest => str_contains sub rest
  end.

(** [s.endswith(suffix)] *)
Definition endswith (suffix s : string) : bool :=
  let n := String.length s in
  let k := String.length suffix in
  (k <=? n)%nat && String.eqb (String.substring (n - k) k s) suffix.

Fixpoint zeros (n : nat) : string :=
  match n with
  | O => EmptyString
  | S k => String "0" (zeros k)
  end.

(** [s.zfill(width)]: zeros go after a leading sign *)
Definition zfill (width : nat) (s : string) : string :=
  let pad := zeros (width - String.length s) in
  match s with
  | String c rest =>
      if Ascii.eqb c "+" || Ascii.eqb c "-"
      then String c (pad +:+ rest)
      else pad +:+ s
  | EmptyString => pad
  end.

(** [s.split('@')[0]] *)
Fixpoint before_at (s : string) : string :=
  match s with
  | EmptyString => EmptyString
  | String c rest => if Ascii.eqb c "@" then EmptyString else String c (before_at rest)
  end.

Definition in_range (lo hi : nat) (c : ascii) : bool :=
  let n := nat_of_ascii c in ((lo <=? n) && (n <=? hi))%nat.

Definition is_alpha (c : ascii) : bool := in_range 65 90 c || in_range 97 122 c.

Definition is_alnum (c : ascii) : bool := is_alpha c || in_range 48 57 c.

Definition one_of (set : string) (c : ascii) : bool :=
  existsb (Ascii.eqb c) (list_ascii_of_string set).

Definition is_local_char (c : ascii) : bool := is_alnum c || one_of "._%+-" c.

Definition is_domain_char (c : ascii) : bool := is_alnum c || one_of ".-" c.

(** The characters up to the first one that satisfies [p], and the rest
    after it; [None] when there is none. *)
Fixpoint split_at (p : ascii -> bool) (l : list ascii) : option (list ascii * list ascii) :=
  match l with
  | [] => None
  | c :: rest =>
      if p c then Some ([], rest)
      else match split_at p rest with
           | Some (a, b) => Some (c :: a, b)
           | None => None
           end
  end.

Definition nonempty_all (p : ascii -> bool) (l : list ascii) : bool :=
  match l with [] => false | _ => forallb p l end.

(** [ [a-zA-Z0-9.-]+\.[a-zA-Z]{2,} ] up to the end of the text: the top
    level label is what follows the last dot. *)
Definition match_domain (l : list ascii) : bool :=
  match split_at (Ascii.eqb ".") (rev l) with
  | Some (tld_rev, name_rev) =>
      forallb is_alpha tld_rev && (2 <=? length tld_rev)%nat &&
      nonempty_all is_domain_char name_rev
  | None => false
  end.

Definition match_email (l : list ascii) : bool :=
  match split_at (fun c => negb (is_local_char c)) l with
  | Some (local_part, rest) =>
      nonempty_all is_local_char local_part &&
      match drop (length local_part) l with
      | c :: _ => Ascii.eqb c "@" && match_domain rest
      | [] => false
      end
  | None => false
  end.

(** [re.match(r'^[a-zA-Z0-9._%+-]+@[a-zA-Z0-9.-]+\.[a-zA-Z]{2,}$', email)];
    [$] also matches before a newline that ends the text. *)
Definition is_valid_email (e : string) : bool :=
  let l := list_ascii_of_string e in
  match_email l ||
  match rev l with
  | c :: body_rev => Ascii.eqb c "010" && match_email (rev body_rev)
  | [] => false
  end.

(** ** Credential store *)

Section Server.
Context {rt : Runtime}.

(** [hash_password(password, salt=None)]; [fresh] is what
    secrets.token_hex(32) returns when the salt is drawn here. *)
Definition hash_password (fresh : string) (password : string) (salt : option string)
  : M (string * string) :=
  let salt := match salt with None => fresh | Some s => s end in
  emit (EvPbkdf2 password salt) ;;
  ret (pbkdf2_hmac_sha256_hex password salt, salt).

Definition verify_password (password password_hash salt : string) : M bool :=
  r <- hash_password "" password (Some salt) ;;
  ret (String.eqb (fst r) password_hash).

(** The dict [get_user_by_email_password] returns. *)
Record auth_user := mk_auth_user {
  au_user_id : string;
  au_email : string;
  au_full_name : string;
  au_created_at : Z;
}.

Definition select_user_by_email (e : string) : M (option user_row) :=
  emit (EvSelectUser e) ;;
  gets (fun w => find (fun u => String.eqb (email u) e) (users w)).

Definition get_user_by_email_password (e password : string) : M (option auth_user) :=
  user_data <- select_user_by_email e ;;
  match user_data with
  | None => ret None
  | Some u =>
      ok <- verify_password password (password_hash u) (salt u) ;;
      if ok
      then ret (Some (mk_auth_user (user_id u) (email u) (full_name u) (created_at u)))
      else ret None
  end.

Definition update_last_login (now : Z) (uid : string) : M unit :=
  emit (EvUpdateLastLogin uid) ;;
  modify (set_users (map (fun u =>
    if String.eqb (user_id u) uid
    then mk_user (user_id u) (email u) (full_name u) (password_hash u) (salt u)
           (created_at u) (Some now) (subscription_tier u) (storage_used u)
           (subscription_expires_at u)
    else u))).

(** ** Rate limiter *)

(** SELECT COUNT( * ) FROM login_attempts
    WHERE email = ? AND attempt_time > ? AND success = 0 *)
Definition count_failed_since (e : string) (since : Z) (l : list attempt_row) : Z :=
  Z.of_nat (length (List.filter
    (fun a => String.eqb (a_email a) e && (since <? attempt_time a) && (success a =? 0))
    l)).

Definition one_day : Z := 86400.

Definition check_rate_limit (now : Z) (e : string) : M bool :=
  let twenty_four_hours_ago := now - one_day in
  failed_attempts <- gets (fun w =>
    count_failed_since (str_lower e) twenty_four_hours_ago (login_attempts w)) ;;
  ret (failed_attempts <? 5).

Definition record_login_attempt (now : Z) (e : string) (ok : bool) (ip : string) : M unit :=
  let flag := if ok then 1 else 0 in
  emit (EvInsertAttempt (str_lower e) flag) ;;
  modify (set_attempts (fun l => l ++ [mk_attempt (str_lower e) now flag ip])).

Definition get_remaining_attempts (now : Z) (e : string) : M Z :=
  let twenty_four_hours_ago := now - one_day in
  failed_attempts <- gets (fun w =>
    count_failed_since (str_lower e) twenty_four_hours_ago (login_attempts w)) ;;
  ret (Z.max 0 (5 - failed_attempts)).

(** ** Accounts *)

(** INSERT INTO users: IntegrityError ([false]) when the user_id or the
    email is taken (both columns are UNIQUE). *)
Definition insert_user (row : user_row) : M bool :=
  emit (EvInsertUser (user_id row) (email row)) ;;
  taken <- gets (fun w => existsb
    (fun u => String.eqb (user_id u) (user_id row) || String.eqb (email u) (email row))
    (users w)) ;;
  if taken then ret false
  else modify (set_users (fun l => l ++ [row])) ;; ret true.

Definition new_user_row (now : Z) (uid e name digest slt : string) : user_row :=
  mk_user uid e name digest slt now None (Some "free") 0 None.

Definition email_registered (e : string) : M bool :=
  gets (fun w => existsb (fun u => String.eqb (email u) e) (users w)).

Definition is_some {A} (o : option A) : bool :=
  match o with Some _ => true | None => false end.

Definition six_digits (password : string) : bool :=
  (String.length password =? 6)%nat && str_isdigit password.

(** [create_user]: [inl user_id] is (user_id, None), [inr msg] is
    (None, msg); [fresh_id] and [fresh_salt] are the tokens drawn. *)
Definition create_user (now : Z) (fresh_id fresh_salt : string)
    (name e password : string) : M (string + string) :=
  if negb (is_valid_email e) then ret (inr "Invalid email format")
  else if negb (six_digits password) then ret (inr "Password must be exactly 6 digits")
  else
    dup <- email_registered e ;;
    if dup then ret (inr "Email already registered")
    else
      hp <- hash_password fresh_salt password None ;;
      ok <- insert_user (new_user_row now fresh_id e name (fst hp) (snd hp)) ;;
      if ok then
        has_folder <- gets (fun w => is_some (upload_folder w !! fresh_id)) ;;
        (if has_folder then ret tt
         else emit (EvMakedirs fresh_id None) ;;
              modify (set_folder (fun fs => <[fresh_id := ∅]> fs))) ;;
        ret (inl fresh_id)
      else ret (inr "Failed to create user account").

(** ** Storage limits *)

Definition limits : gmap string Z :=
  {[ "free" := 20 * 60; "premium" := 20 * 60 * 60; "pro" := 200 * 60 * 60 ]}.

Definition get_storage_limit_for_tier (tier : string) : Z :=
  default (default 0 (limits !! "free")) (limits !! tier).

(** ** The authentication gate *)

Definition no_data (data : option (gmap string string)) : bool :=
  match data with
  | None => true
  | Some d => is_empty_dict d
  end.

Definition field (data : option (gmap string string)) (k dflt : string) : string :=
  match data with
  | None => dflt
  | Some d => dict_get d k dflt
  end.

Definition require_auth (now : Z) (data : option (gmap string string))
    (f : auth_user -> M response) : M response :=
  if no_data data then ret (error "No data provided" 400)
  else
    let e := str_strip (field data "email" "") in
    let password := str_strip (field data "password" "") in
    if negb (str_nonempty e) || negb (str_nonempty password)
    then ret (error "Email and password required" 400)
    else if negb (six_digits password)
    then ret (error "Password must be exactly 6 digits" 400)
    else
      user <- get_user_by_email_password e password ;;
      match user with
      | None => ret (error "Invalid email or password" 401)
      | Some u => update_last_login now (au_user_id u) ;; f u
      end.

(** ** /register and /login *)

Definition register_user (now : Z) (fresh_id fresh_salt : string)
    (data : option (gmap string string)) : M response :=
  if no_data data then ret (error "No data provided" 400)
  else
    let name := str_strip (field data "full_name" "") in
    let e := str_lower (str_strip (field data "email" "")) in
    let password := str_strip (field data "password" "") in
    if negb (str_nonempty e) then ret (error "Email is required" 400)
    else if negb (str_nonempty password) then ret (error "Password is required" 400)
    else
      let name := if str_nonempty name then name else str_title (before_at e) in
      r <- create_user now fresh_id fresh_salt name e password ;;
      match r with
      | inr msg => ret (error msg 400)
      | inl uid =>
          ret (Json (JObj [("message", JStr "User registered successfully");
                           ("user_id", JStr uid)]) 201)
      end.

Definition too_many_attempts (remaining : Z) : response :=
  Json (JObj [
    ("error", JStr ("Too many failed attempts. You have " +:+ pretty remaining +:+
                    " attempts remaining today. Try again in 24 hours."));
    ("rate_limited", JBool true);
    ("remaining_attempts", JInt remaining)]) 429.

Definition login_failed (remaining : Z) : response :=
  if remaining =? 0 then
    Json (JObj [
      ("error", JStr "Invalid email or password. Account temporarily locked due to too many failed attempts.");
      ("rate_limited", JBool true);
      ("remaining_attempts", JInt 0)]) 401
  else
    Json (JObj [
      ("error", JStr ("Invalid email or password. " +:+ pretty remaining +:+
                      " attempts remaining today."));
      ("remaining_attempts", JInt remaining)]) 401.

Definition login_ok (u : auth_user) : response :=
  Json (JObj [
    ("message", JStr "Login successful");
    ("user", JObj [("id", JStr (au_user_id u));
                   ("email", JStr (au_email u));
                   ("full_name", JStr (au_full_name u));
                   ("created_at", JInt (au_created_at u))])]) 200.

(** [data.get('email', '').strip().lower()] and [data.get(k, '').strip()] *)
Definition canonical_email (data : option (gmap string string)) : string :=
  str_lower (str_strip (field data "email" "")).

Definition stripped (data : option (gmap string string)) (k : string) : string :=
  str_strip (field data k "").

Definition login_user (now : Z) (client_ip : string)
    (data : option (gmap string string)) : M response :=
  if no_data data then ret (error "No data provided" 400)
  else
    let e := canonical_email data in
    let password := stripped data "password" in
    if negb (str_nonempty e) || negb (str_nonempty password)
    then ret (error "Email and password required" 400)
    else
      allowed <- check_rate_limit now e ;;
      if negb allowed then
        remaining <- get_remaining_attempts now e ;;
        ret (too_many_attempts remaining)
      else
        user <- get_user_by_email_password e password ;;
        match user with
        | Some u =>
            record_login_attempt now e true client_ip ;;
            update_last_login now (au_user_id u) ;;
            ret (login_ok u)
        | None =>
            record_login_attempt now e false client_ip ;;
            remaining <- get_remaining_attempts now e ;;
            ret (login_failed remaining)
        end.

(** ** Session folders *)

(** The files of os.path.join(UPLOAD_FOLDER, user_id, session_id), when
    that folder exists. *)
Definition session_folder (w : world) (uid sid : string) : option (gmap string bytes) :=
  match upload_folder w !! uid with
  | Some sessions => sessions !! dir_name sid
  | None => None
  end.

(** os.makedirs(session_folder): the user folder is made on the way. *)
Definition makedirs (uid sid : string) : M unit :=
  emit (EvMakedirs uid (Some sid)) ;;
  modify (set_folder (fun fs =>
    <[uid := <[dir_name sid := ∅]> (default ∅ (fs !! uid))]> fs)).

Definition write_file (uid sid name : string) (content : bytes) : world -> world :=
  set_folder (fun fs =>
    let sessions := default ∅ (fs !! uid) in
    let files := default ∅ (sessions !! dir_name sid) in
    <[uid := <[dir_name sid := <[name := content]> files]> sessions]> fs).

(** What file.save(filepath) does: it writes the file, or raises, and then
    may leave a part of the file behind. *)
Inductive save_outcome :=
| Saved
| SaveFailed (left_behind : option bytes).

Definition save (uid sid name : string) (content : bytes) (o : save_outcome)
  : M (option Z) :=
  match o with
  | Saved =>
      emit (EvSave uid sid name true) ;;
      modify (write_file uid sid name content) ;;
      ret (Some (Z.of_nat (length content)))
  | SaveFailed part =>
      emit (EvSave uid sid name false) ;;
      match part with
      | Some b => modify (write_file uid sid name b)
      | None => ret tt
      end ;;
      ret None
  end.

(** What shutil.rmtree(session_path) does: it removes the folder, or
    raises with the files [removed] gone and the folder still there. *)
Inductive rm_outcome :=
| Removed
| RmFailed (removed : list string) (msg : string).

Definition rmtree (uid sid : string) (o : rm_outcome) : M (option string) :=
  match o with
  | Removed =>
      emit (EvRmtree uid sid true) ;;
      modify (set_folder (fun fs =>
        <[uid := delete (dir_name sid) (default ∅ (fs !! uid))]> fs)) ;;
      ret None
  | RmFailed removed msg =>
      emit (EvRmtree uid sid false) ;;
      modify (set_folder (fun fs =>
        let sessions := default ∅ (fs !! uid) in
        let files := default ∅ (sessions !! dir_name sid) in
        <[uid := <[dir_name sid := foldr delete files removed]> sessions]> fs)) ;;
      ret (Some msg)
  end.

(** ** /upload *)

(** An uploaded file of request.files: its name and content. *)
Record file_storage := mk_file {
  filename : string;
  content : bytes;
}.

(** INSERT OR IGNORE INTO recording_sessions (user_id, session_id): the
    table has no uniqueness constraint the row could violate, so the row is
    always added; chunk_count takes its default 0. *)
Definition insert_session (now : Z) (uid sid : string) : M unit :=
  emit (EvInsertSession uid sid) ;;
  modify (set_sessions (fun l => l ++ [mk_session uid sid now 0])).

Definition same_session (uid sid : string) (r : session_row) : bool :=
  String.eqb (s_user_id r) uid && String.eqb (s_session_id r) sid.

(** UPDATE recording_sessions SET chunk_count = MAX(chunk_count, ?)
    WHERE user_id = ? AND session_id = ? *)
Definition raise_chunk_count (n : Z) (uid sid : string) (r : session_row) : session_row :=
  if same_session uid sid r
  then mk_session (s_user_id r) (s_session_id r) (s_created_at r) (Z.max (chunk_count r) n)
  else r.

Definition update_chunk_count (n : Z) (uid sid : string) : M unit :=
  emit (EvUpdateChunkCount uid sid n) ;;
  modify (set_sessions (map (raise_chunk_count n uid sid))).

(** The integers sqlite3 binds to an INTEGER parameter: a Python int
    outside the signed 64-bit range raises OverflowError. *)
Definition sqlite_int (n : Z) : bool :=
  (- 2 ^ 63 <=? n) && (n <? 2 ^ 63).

(** The try block around the chunk_count update: int(chunk_number) or the
    binding may raise; the handler prints a warning and goes on. *)
Definition try_update_chunk_count (chunk_number uid sid : string) : M unit :=
  match py_int chunk_number with
  | Some n => if sqlite_int n then update_chunk_count n uid sid else ret tt
  | None => ret tt
  end.

Definition chunk_filename (now : Z) (chunk_number : string) : string :=
  "chunk_" +:+ zfill 3 chunk_number +:+ "_" +:+ strftime now +:+ ".mov".

(** [request.form.get('chunk_number', '0').strip()] *)
Definition chunk_number_of (form : gmap string string) : string :=
  str_strip (dict_get form "chunk_number" "0").

Definition upload_ok (name sid chunk_number : string) (file_size : Z) : response :=
  Json (JObj [("message", JStr "Upload successful");
              ("filename", JStr name);
              ("session_id", JStr sid);
              ("chunk_number", JStr chunk_number);
              ("file_size", JInt file_size)]) 200.

Definition upload_video (now : Z) (content_type : string)
    (form : gmap string string) (files : gmap string file_storage)
    (o : save_outcome) : M response :=
  if negb (str_contains "multipart/form-data" content_type)
  then ret (error "Invalid content type" 400)
  else
    let e := canonical_email (Some form) in
    let password := stripped (Some form) "password" in
    if negb (str_nonempty e) || negb (str_nonempty password)
    then ret (error "Email and password required" 400)
    else
      user <- get_user_by_email_password e password ;;
      match user with
      | None => ret (error "Invalid email or password" 401)
      | Some u =>
          let uid := au_user_id u in
          match files !! "video" with
          | None => ret (error "No video file" 400)
          | Some file =>
              if negb (str_nonempty (filename file)) then ret (error "Empty file" 400)
              else
                let sid := stripped (Some form) "session_id" in
                let chunk_number := chunk_number_of form in
                if negb (str_nonempty sid) then ret (error "Session ID required" 400)
                else
                  has_folder <- gets (fun w => is_some (session_folder w uid sid)) ;;
                  (if has_folder then ret tt
                   else makedirs uid sid ;; insert_session now uid sid) ;;
                  let name := chunk_filename now chunk_number in
                  saved <- save uid sid name (content file) o ;;
                  match saved with
                  | None => ret (error "Failed to save file" 500)
                  | Some file_size =>
                      try_update_chunk_count chunk_number uid sid ;;
                      update_last_login now uid ;;
                      ret (upload_ok name sid chunk_number file_size)
                  end
          end
      end.

(** ** /storage_info *)

(** len([f for f in os.listdir(session_path) if f.endswith('.mov')]) *)
Definition count_mov (files : gmap string bytes) : Z :=
  Z.of_nat (length (List.filter (fun kv => endswith ".mov" (fst kv)) (map_to_list files))).

Definition chunk_duration : Z := 15.

(** The loop over the user's session rows. *)
Fixpoint total_storage (w : world) (uid : string) (sessions : list string) : Z :=
  match sessions with
  | [] => 0
  | sid :: rest =>
      match session_folder w uid sid with
      | Some files => count_mov files * chunk_duration
      | None => 0
      end + total_storage w uid rest
  end.

(** SELECT session_id FROM recording_sessions WHERE user_id = ? *)
Definition sessions_of (uid : string) (l : list session_row) : list string :=
  map s_session_id (List.filter (fun r => String.eqb (s_user_id r) uid) l).

(** SELECT subscription_tier FROM users WHERE user_id = ?, then
    [result[0] if result and result[0] else 'free'] *)
Definition tier_of (uid : string) (l : list user_row) : string :=
  match find (fun u => String.eqb (user_id u) uid) l with
  | Some u =>
      match subscription_tier u with
      | Some t => if str_nonempty t then t else "free"
      | None => "free"
      end
  | None => "free"
  end.

Definition update_storage_used (n : Z) (uid : string) : M unit :=
  modify (set_users (map (fun u =>
    if String.eqb (user_id u) uid
    then mk_user (user_id u) (email u) (full_name u) (password_hash u) (salt u)
           (created_at u) (last_login u) (subscription_tier u) n
           (subscription_expires_at u)
    else u))).

(** min((used / limit) * 100, 100) if limit > 0 else 0, over the rationals *)
Definition storage_percentage (used limit : Z) : Q :=
  if 0 <? limit
  then Qmin ((inject_Z used / inject_Z limit) * inject_Z 100) (inject_Z 100)
  else inject_Z 0.

Definition get_storage_info (user : auth_user) : M response :=
  let uid := au_user_id user in
  has_folder <- gets (fun w => is_some (upload_folder w !! uid)) ;;
  sessions <- gets (fun w =>
    if has_folder then sessions_of uid (recording_sessions w) else []) ;;
  total_storage_seconds <- gets (fun w => total_storage w uid sessions) ;;
  tier <- gets (fun w => tier_of uid (users w)) ;;
  update_storage_used total_storage_seconds uid ;;
  let storage_limit := get_storage_limit_for_tier tier in
  ret (Json (JObj [
    ("storage_used", JInt total_storage_seconds);
    ("storage_limit", JInt storage_limit);
    ("storage_percentage", JNum (storage_percentage total_storage_seconds storage_limit));
    ("video_count", JInt (Z.of_nat (length sessions)));
    ("subscription_tier", JStr tier)]) 200).

(** ** /download_chunk and /delete *)

(** The file at os.path.join(UPLOAD_FOLDER, user_id, session_id, filename) *)
Definition stored_file (w : world) (uid sid name : string) : option bytes :=
  match session_folder w uid sid with
  | Some files => files !! name
  | None => None
  end.

Definition chunk_headers (name : string) (data : bytes) : list (string * string) :=
  [("Content-Disposition", "attachment; filename=" +:+ name);
   ("Content-Length", pretty (Z.of_nat (length data)));
   ("Content-Type", "video/quicktime");
   ("Cache-Control", "public, max-age=31536000")].

Definition download_chunk (uid sid name : string) : M response :=
  found <- gets (fun w => stored_file w uid sid name) ;;
  match found with
  | None => ret (Text "Chunk not found" 404)
  | Some data =>
      emit (EvOpenRead uid sid name) ;;
      ret (Stream data (chunk_headers name data))
  end.

(** DELETE FROM recording_sessions WHERE user_id = ? AND session_id = ? *)
Definition delete_session (uid sid : string) : M unit :=
  emit (EvDeleteSession uid sid) ;;
  modify (set_sessions (List.filter (fun r => negb (same_session uid sid r)))).

Definition delete_video (o : rm_outcome) (data : option (gmap string string))
    (user : auth_user) : M response :=
  match data with
  | None => ret (error "'NoneType' object has no attribute 'get'" 500)
  | Some d =>
      let sid := dict_get d "session_id" "" in
      if negb (str_nonempty sid) then ret (error "Session ID required" 400)
      else
        let uid := au_user_id user in
        has_folder <- gets (fun w => is_some (session_folder w uid sid)) ;;
        if has_folder then
          failure <- rmtree uid sid o ;;
          match failure with
          | Some msg => ret (error msg 500)
          | None =>
              delete_session uid sid ;;
              ret (Json (JObj [("message", JStr "Video deleted successfully")]) 200)
          end
        else ret (error "Video not found" 404)
  end.

(** ** /migrate_pin_to_email *)

(** The loop over the archived accounts: the first one whose digest of
    [pin] under its own salt is its pin_hash. *)
Fixpoint find_pin (pin : string) (old_users : list old_user_row) : M (option string) :=
  match old_users with
  | [] => ret None
  | o :: rest =>
      emit (EvPbkdf2 pin (o_salt o)) ;;
      if String.eqb (pbkdf2_hmac_sha256_hex pin (o_salt o)) (pin_hash o)
      then ret (Some (o_user_id o))
      else find_pin pin rest
  end.

(** INSERT INTO recording_sessions SELECT ... FROM
    recording_sessions_old_backup WHERE user_id = ? *)
Definition copy_old_sessions (uid : string) : M unit :=
  modify (fun w =>
    match recording_sessions_old_backup w with
    | Some old =>
        set_sessions (fun l =>
          l ++ List.filter (fun r => String.eqb (s_user_id r) uid) old) w
    | None => w
    end).

Definition migrated_ok (uid : string) : response :=
  Json (JObj [
    ("message", JStr "Account migrated successfully! Your videos are now accessible.");
    ("user_id", JStr uid);
    ("migrated_sessions", JStr "Previous recordings restored")]) 201.

Definition migrate_pin_user (now : Z) (fresh_salt : string)
    (data : option (gmap string string)) : M response :=
  if no_data data then ret (error "No data provided" 400)
  else
    let pin := stripped data "pin" in
    let e := canonical_email data in
    let password := stripped data "password" in
    let name := stripped data "full_name" in
    if negb (forallb str_nonempty [pin; e; password; name])
    then ret (error "PIN, email, password, and full name required" 400)
    else
      backup <- gets users_old_pin_backup ;;
      match backup with
      | None => ret (error "No PIN-based accounts found to migrate" 404)
      | Some old_users =>
          found <- find_pin pin old_users ;;
          match found with
          | None => ret (error "PIN not found in system" 404)
          | Some migrated_user_id =>
              if negb (str_nonempty migrated_user_id)
              then ret (error "PIN not found in system" 404)
              else
                dup <- email_registered e ;;
                if dup then ret (error "Email already registered" 400)
                else
                  hp <- hash_password fresh_salt password None ;;
                  ok <- insert_user
                          (new_user_row now migrated_user_id e name (fst hp) (snd hp)) ;;
                  if ok then
                    copy_old_sessions migrated_user_id ;;
                    ret (migrated_ok migrated_user_id)
                  else ret (error "Migration failed" 500)
          end
      end.

(** ** The server as a transition system *)

(** /storage_info and /delete behind the authentication gate. *)
Definition storage_info_endpoint (now : Z) (data : option (gmap string string)) : M response :=
  require_auth now data get_storage_info.

Definition delete_endpoint (now : Z) (data : option (gmap string string)) (o : rm_outcome)
  : M response :=
  require_auth now data (delete_video o data).

(** The requests that change the state, each with what it draws from its
    environment.  [CreateUser] is the call of create_user the demo
    endpoints make, and [Accounts] stands for the endpoints that rewrite
    rows of users and nothing else (update_subscription, the tier switches
    of the demo endpoints). *)
Inductive request :=
| Register (now : Z) (fresh_id fresh_salt : string) (data : option (gmap string string))
| CreateUser (now : Z) (fresh_id fresh_salt name e password : string)
| Login (now : Z) (client_ip : string) (data : option (gmap string string))
| Upload (now : Z) (content_type : string) (form : gmap string string)
    (files : gmap string file_storage) (o : save_outcome)
| StorageInfo (now : Z) (data : option (gmap string string))
| DownloadChunk (uid sid name : string)
| Delete (now : Z) (data : option (gmap string string)) (o : rm_outcome)
| Migrate (now : Z) (fresh_salt : string) (data : option (gmap string string))
| Accounts (f : list user_row -> list user_row).

Definition step (r : request) (w : world) : world :=
  match r with
  | Register now fresh_id fresh_salt data => run (register_user now fresh_id fresh_salt data) w
  | CreateUser now fresh_id fresh_salt name e password =>
      run (create_user now fresh_id fresh_salt name e password) w
  | Login now client_ip data => run (login_user now client_ip data) w
  | Upload now content_type form files o => run (upload_video now content_type form files o) w
  | StorageInfo now data => run (storage_info_endpoint now data) w
  | DownloadChunk uid sid name => run (download_chunk uid sid name) w
  | Delete now data o => run (delete_endpoint now data o) w
  | Migrate now fresh_salt data => run (migrate_pin_user now fresh_salt data) w
  | Accounts f => set_users f w
  end.

(** The state after a sequence of requests. *)
Definition after (rs : list request) (w : world) : world :=
  fold_left (fun w r => step r w) rs w.


(** A state [w'] that differs from [w] in nothing the session bookkeeping
    reads: same session rows, same session folders, same archive. *)
Definition same_sessions (w w' : world) : Prop :=
  recording_sessions w' = recording_sessions w /\
  (forall uid sid, session_folder w' uid sid = session_folder w uid sid) /\
  users_old_pin_backup w' = users_old_pin_backup w.

(** ** Reading a handler's run *)

(** What [get_user_by_email_password] answers, read off the users table. *)
Definition auth_result (w : world) (e p : string) : option auth_user :=
  match find (fun u => String.eqb (email u) e) (users w) with
  | Some u =>
      if String.eqb (pbkdf2_hmac_sha256_hex p (salt u)) (password_hash u)
      then Some (mk_auth_user (user_id u) (email u) (full_name u) (created_at u))
      else None
  | None => None
  end.

(** The calls it makes on the way. *)
Definition auth_events (w : world) (e p : string) : list event :=
  EvSelectUser e ::
  match find (fun u => String.eqb (email u) e) (users w) with
  | Some u => [EvPbkdf2 p (salt u)]
  | None => []
  end.

Definition logs (es : list event) (w : world) : world :=
  fold_left (fun w e => log e w) es w.

(** A login request: a body that carries an email and a passcode. *)
Definition login_request (data : option (gmap string string)) : Prop :=
  no_data data = false /\
  str_nonempty (canonical_email data) = true /\
  str_nonempty (stripped data "password") = true.

(** The stored chunk files of one session, and of all the sessions
    recorded for a user. *)
Definition chunk_files (w : world) (uid sid : string) : Z :=
  match session_folder w uid sid with
  | Some files => count_mov files
  | None => 0
  end.


(** The archived account the scan of [find_pin] stops at, and the digests
    it computes up to there. *)
Definition pin_matches (pin : string) (o : old_user_row) : bool :=
  String.eqb (pbkdf2_hmac_sha256_hex pin (o_salt o)) (pin_hash o).

Definition first_match (pin : string) (old_users : list old_user_row) : option old_user_row :=
  find (pin_matches pin) old_users.

Fixpoint pin_events (pin : string) (old_users : list old_user_row) : list event :=
  match old_users with
  | [] => []
  | o :: rest =>
      EvPbkdf2 pin (o_salt o) :: (if pin_matches pin o then [] else pin_events pin rest)
  end.

(** A migration request: a body that carries the four fields. *)
Definition migrate_request (data : option (gmap string string)) : Prop :=
  no_data data = false /\
  forallb str_nonempty
    [stripped data "pin"; canonical_email data; stripped data "password";
     stripped data "full_name"] = true.

Definition registered (w : world) (e : string) : bool :=
  existsb (fun u => String.eqb (email u) e) (users w).

Definition user_id_taken (w : world) (uid : string) : bool :=
  existsb (fun u => String.eqb (user_id u) uid) (users w).

(** The rows recorded for a session. *)
Definition session_rows (w : world) (uid sid : string) : list session_row :=
  List.filter (same_session uid sid) (recording_sessions w).


(** No session folder of [w] is missing in [w']. *)
Definition folders_kept (w w' : world) : Prop :=
  forall uid sid,
    is_some (session_folder w uid sid) = true -> is_some (session_folder w' uid sid) = true.

(** An upload the handler lets through to the write of the file: a
    multipart request with the credentials of [u], a named video file and a
    session id. *)
Definition upload_ready (w : world) (content_type : string)
    (form : gmap string string) (files : gmap string file_storage)
    (u : auth_user) (file : file_storage) : Prop :=
  str_contains "multipart/form-data" content_type = true /\
  str_nonempty (canonical_email (Some form)) = true /\
  str_nonempty (stripped (Some form) "password") = true /\
  auth_result w (canonical_email (Some form)) (stripped (Some form) "password") = Some u /\
  files !! "video" = Some file /\
  str_nonempty (filename file) = true /\
  str_nonempty (stripped (Some form) "session_id") = true.

(** The row an upload adds before it writes the file: one when the
    session folder is not there yet. *)
Definition new_session_rows (w : world) (now : Z) (uid sid : string) : list session_row :=
  if is_some (session_folder w uid sid) then [] else [mk_session uid sid now 0].

(** The sentence about chunkCount as the specification words it, for one
    upload by [u]: if the upload succeeds and its index is i, the rows of
    the session end with chunk_count = max(previous, i). *)
Definition chunk_count_becomes_max (now : Z) (content_type : string)
    (form : gmap string string) (files : gmap string file_storage)
    (o : save_outcome) (u : auth_user) (w : world) : Prop :=
  status_of (result (upload_video now content_type form files o) w) = 200 ->
  forall i, py_int (chunk_number_of form) = Some i ->
    recording_sessions (run (upload_video now content_type form files o) w) =
    map (raise_chunk_count i (au_user_id u) (stripped (Some form) "session_id"))
      (recording_sessions w ++
       new_session_rows w now (au_user_id u) (stripped (Some form) "session_id")).

(** The two ways authentication fails. *)
Definition unknown_account (w : world) (e : string) : Prop :=
  find (fun u => String.eqb (email u) e) (users w) = None.

Definition wrong_passcode (w : world) (e p : string) : Prop :=
  exists u, find (fun u => String.eqb (email u) e) (users w) = Some u /\
            pbkdf2_hmac_sha256_hex p (salt u) <> password_hash u.

(** ** The other endpoints *)

(** *** login_attempts: housekeeping and /check_attempts *)




(** *** Subscriptions *)

(** [s.split(sep)] for a separator of one character *)
Fixpoint split_on (sep : ascii) (s : string) : list string :=
  match s with
  | EmptyString => [EmptyString]
  | String c rest =>
      if Ascii.eqb c sep then EmptyString :: split_on sep rest
      else
        match split_on sep rest with
        | part :: parts => String c part :: parts
        | [] => [String c EmptyString]
        end
  end.

Definition verify_app_store_receipt (transaction_jws : string) : bool * string :=
  if negb (str_nonempty transaction_jws) || (String.length transaction_jws <? 10)%nat
  then (false, "Invalid transaction data")
  else
    let parts := split_on "." transaction_jws in
    if negb (length parts =? 3)%nat then (false, "Invalid JWS format")
    else (true, "Valid").

(** UPDATE users SET ... WHERE user_id = ? *)
Definition update_users_where (uid : string) (f : user_row -> user_row) : M unit :=
  modify (set_users (map (fun u => if String.eqb (user_id u) uid then f u else u))).

(** SET subscription_tier = ?, subscription_expires_at = ? *)
Definition with_subscription (tier : string) (expires_at : option string) (u : user_row)
  : user_row :=
  mk_user (user_id u) (email u) (full_name u) (password_hash u) (salt u)
    (created_at u) (last_login u) (Some tier) (storage_used u) expires_at.

Definition valid_tiers : list string := ["free"; "premium"; "pro"].

Definition subscription_updated (tier : string) (storage_limit : json) (expires_at : string)
  : response :=
  Json (JObj [("message", JStr "Subscription updated successfully");
              ("tier", JStr tier);
              ("storage_limit", storage_limit);
              ("expires_at", JStr expires_at)]) 200.

(** /update_subscription; the storage_limit of the body is echoed, 1200
    standing in when the body has none. *)
Definition update_subscription (data : option (gmap string string)) (user : auth_user)
  : M response :=
  if no_data data then ret (error "No data provided" 400)
  else
    let uid := au_user_id user in
    let subscription_tier := field data "subscription_tier" "free" in
    let storage_limit :=
      match data ≫= (fun d => d !! "storage_limit") with
      | Some s => JStr s
      | None => JInt 1200
      end in
    let transaction_jws := field data "transaction_jws" "" in
    let expires_at := field data "expires_at" "" in
    if str_nonempty transaction_jws && negb (fst (verify_app_store_receipt transaction_jws))
    then ret (error "Invalid subscription receipt" 400)
    else
      let valid := existsb (String.eqb subscription_tier) valid_tiers in
      let subscription_tier := if valid then subscription_tier else "free" in
      let storage_limit := if valid then storage_limit else JInt 1200 in
      update_users_where uid
        (with_subscription subscription_tier
           (if str_nonempty expires_at then Some expires_at else None)) ;;
      ret (subscription_updated subscription_tier storage_limit expires_at).

Definition update_subscription_endpoint (now : Z) (data : option (gmap string string))
  : M response :=
  require_auth now data (update_subscription data).

(** *** /download/<session_id> *)

(** [f for f in os.listdir(session_path) if f.endswith('.mov')], sorted *)
Definition mov_files (files : gmap string bytes) : list string :=
  merge_sort String.le (List.filter (endswith ".mov") (map fst (map_to_list files))).

Definition chunk_entry (base_url uid sid : string) (i : nat) (f : string) : json :=
  JObj [("filename", JStr f);
        ("download_url",
         JStr (base_url +:+ "/download_chunk/" +:+ uid +:+ "/" +:+ sid +:+ "/" +:+ f));
        ("order", JInt (Z.of_nat i + 1))].

(** [base_url] is scheme://host of the request. *)
Definition download_video (base_url sid : string) (user : auth_user) : M response :=
  let uid := au_user_id user in
  folder <- gets (fun w => session_folder w uid sid) ;;
  match folder with
  | None => ret (error "Video not found" 404)
  | Some files =>
      let video_files := mov_files files in
      match video_files with
      | [] => ret (error "No video files found" 404)
      | _ =>
          ret (Json (JObj [
            ("chunks", JArr (imap (chunk_entry base_url uid sid) video_files));
            ("total_chunks", JInt (Z.of_nat (length video_files)));
            ("session_id", JStr sid)]) 200)
      end
  end.

(** *** /stats and /check_migration_available *)




Definition check_migration_available : M response :=
  backup <- gets users_old_pin_backup ;;
  let backup_exists := is_some backup in
  let old_user_count :=
    match backup with
    | Some old_users => Z.of_nat (length old_users)
    | None => 0
    end in
  ret (Json (JObj [
    ("migration_available", JBool (backup_exists && (0 <? old_user_count)));
    ("old_users_count", JInt old_user_count);
    ("message", JStr (if backup_exists
                      then "PIN users can migrate to email/password accounts"
                      else "No PIN accounts found"))]) 200).

(** *** /videos and the demo endpoints

    What these take from the database and the clock library: the order in
    which SELECT ... ORDER BY created_at DESC returns rows,
    datetime.fromisoformat(created_at).strftime("%Y-%m-%d %H:%M") (or
    "Unknown date"), and datetime.isoformat(). *)

Section Formats.
Variable order_by_created_desc : list session_row -> list session_row.
Variable format_created : Z -> string.
Variable isoformat : Z -> string.

(** One round of the loop of list_videos: a session whose folder is gone
    is left out. *)
Definition video_entry (w : world) (uid : string) (r : session_row) : option json :=
  match session_folder w uid (s_session_id r) with
  | Some files =>
      let formatted_date := format_created (s_created_at r) in
      Some (JObj [("session_id", JStr (s_session_id r));
                  ("session_name", JStr ("Recording " +:+ formatted_date));
                  ("chunk_count", JInt (count_mov files));
                  ("date", JStr formatted_date)])
  | None => None
  end.

Definition list_videos (user : auth_user) : M response :=
  let uid := au_user_id user in
  has_folder <- gets (fun w => is_some (upload_folder w !! uid)) ;;
  if negb has_folder then ret (Json (JObj [("videos", JArr [])]) 200)
  else
    sessions <- gets (fun w => order_by_created_desc
      (List.filter (fun r => String.eqb (s_user_id r) uid) (recording_sessions w))) ;;
    videos <- gets (fun w => omap (video_entry w uid) sessions) ;;
    ret (Json (JObj [("videos", JArr videos)]) 200).

Definition demo_email : string := "reviewer@righttorecord.com".
Definition demo_password : string := "123456".
Definition demo_name : string := "Apple Reviewer".

Definition create_demo_account (now : Z) (fresh_id fresh_salt : string) : M response :=
  existing_user <- get_user_by_email_password demo_email demo_password ;;
  match existing_user with
  | Some u =>
      let future_date := isoformat (now + 30 * one_day) in
      update_users_where (au_user_id u) (fun r =>
        mk_user (user_id r) (email r) (full_name r) (password_hash r) (salt r)
          (created_at r) (last_login r) (Some "premium") 0 (Some future_date)) ;;
      ret (Json (JObj [("message", JStr "Demo account updated to premium");
                       ("email", JStr demo_email);
                       ("password", JStr demo_password);
                       ("subscription_tier", JStr "premium");
                       ("expires_at", JStr future_date)]) 200)
  | None =>
      r <- create_user now fresh_id fresh_salt demo_name demo_email demo_password ;;
      match r with
      | inr msg => ret (error msg 400)
      | inl uid =>
          let future_date := isoformat (now + 30 * one_day) in
          update_users_where uid (with_subscription "premium" (Some future_date)) ;;
          ret (Json (JObj [("message", JStr "Demo account created with premium subscription");
                           ("email", JStr demo_email);
                           ("password", JStr demo_password);
                           ("user_id", JStr uid);
                           ("subscription_tier", JStr "premium");
                           ("expires_at", JStr future_date)]) 201)
      end
  end.

Definition reviewer_emails : list string :=
  ["reviewer-free@righttorecord.com"; "reviewer-premium@righttorecord.com";
   "reviewer-pro@righttorecord.com"; "reviewer@righttorecord.com"].

(** The first reviewer account that authenticates with the demo passcode. *)
Fixpoint first_reviewer (emails : list string) : M (option string) :=
  match emails with
  | [] => ret None
  | e :: rest =>
      user <- get_user_by_email_password e demo_password ;;
      if is_some user then ret (Some e) else first_reviewer rest
  end.

(** get_user_by_email_password(None, password): WHERE email = NULL selects
    no row. *)
Definition get_user_by_optional_email (e : option string) (password : string)
  : M (option auth_user) :=
  match e with
  | Some e => get_user_by_email_password e password
  | None => ret None
  end.

(** SET subscription_tier = 'free', subscription_expires_at = NULL, or the
    tier with an expiry a year from [now]. *)
Definition set_demo_tier (now : Z) (tier uid : string) : M unit :=
  if String.eqb tier "free"
  then update_users_where uid (with_subscription "free" None)
  else
    let future_date := isoformat (now + 365 * one_day) in
    update_users_where uid (with_subscription tier (Some future_date)).

Definition demo_switch_tier (now : Z) (data : option (gmap string string)) : M response :=
  let given := data ≫= (fun d => d !! "email") in
  demo_email <-
    (if is_some given && str_nonempty (default "" given) then ret given
     else
       found <- first_reviewer reviewer_emails ;;
       ret (match found with Some e => Some e | None => given end)) ;;
  user <- get_user_by_optional_email demo_email demo_password ;;
  match user with
  | None => ret (error "Demo account not found" 404)
  | Some u =>
      let tier := field data "tier" "premium" in
      let tier := if existsb (String.eqb tier) valid_tiers then tier else "premium" in
      set_demo_tier now tier (au_user_id u) ;;
      ret (Json (JObj [
        ("message", JStr ("Demo account switched to " +:+ tier +:+ " tier"));
        ("email", match demo_email with Some e => JStr e | None => JNull end);
        ("tier", JStr tier);
        ("note", JStr "Log out and log back in to see changes in the app")]) 200)
  end.

(** *** /create_all_demo_accounts *)

Record demo_account := mk_demo_account {
  da_email : string;
  da_password : string;
  da_name : string;
  da_tier : string;
}.

Definition demo_accounts : list demo_account :=
  [mk_demo_account "reviewer-free@righttorecord.com" "123456" "Apple Reviewer Free" "free";
   mk_demo_account "reviewer-premium@righttorecord.com" "123456" "Apple Reviewer Premium"
     "premium";
   mk_demo_account "reviewer-pro@righttorecord.com" "123456" "Apple Reviewer Pro" "pro"].

Definition demo_ready (account : demo_account) : json :=
  JObj [("email", JStr (da_email account));
        ("tier", JStr (da_tier account));
        ("status", JStr "ready")].

(** One round of the loop.  [fresh] is the user id and the salt drawn if
    the account is created; [None] is the [continue] after a creation
    that failed. *)
Definition ensure_demo_account (now : Z) (fresh : string * string) (account : demo_account)
  : M (option json) :=
  existing_user <- get_user_by_email_password (da_email account) (da_password account) ;;
  created <-
    match existing_user with
    | Some u => ret (inl (au_user_id u))
    | None =>
        create_user now (fst fresh) (snd fresh) (da_name account) (da_email account)
          (da_password account)
    end ;;
  match created with
  | inr _ => ret None
  | inl uid =>
      set_demo_tier now (da_tier account) uid ;;
      ret (Some (demo_ready account))
  end.

(** The loop; [fresh i] is what round [i] draws. *)
Fixpoint ensure_demo_accounts (now : Z) (fresh : nat -> string * string)
    (accounts : list demo_account) : M (list json) :=
  match accounts with
  | [] => ret []
  | account :: rest =>
      r <- ensure_demo_account now (fresh O) account ;;
      results <- ensure_demo_accounts now (fun i => fresh (S i)) rest ;;
      ret (match r with Some j => j :: results | None => results end)
  end.

Definition create_all_demo_accounts (now : Z) (fresh : nat -> string * string) : M response :=
  results <- ensure_demo_accounts now fresh demo_accounts ;;
  ret (Json (JObj [("message", JStr "All demo accounts created successfully");
                   ("accounts", JArr results)]) 201).

End Formats.

(** ** Reading a JSON body *)

Definition json_field (k : string) (j : json) : option json :=
  match j with
  | JObj fields => snd <$> find (fun kv => String.eqb (fst kv) k) fields
  | _ => None
  end.

Definition body_field (k : string) (r : response) : option json :=
  match r with
  | Json body _ => json_field k body
  | _ => None
  end.

(** The items of the array under [k]. *)
Definition body_items (k : string) (r : response) : list json :=
  match body_field k r with
  | Some (JArr items) => items
  | _ => []
  end.

Definition json_int (k : string) (j : json) : option Z :=
  match json_field k j with
  | Some (JInt n) => Some n
  | _ => None
  end.

Definition json_str (k : string) (j : json) : option string :=
  match json_field k j with
  | Some (JStr s) => Some s
  | _ => None
  end.

(** The occurrences of [c] in [s]. *)
Fixpoint count_char (c : ascii) (s : string) : nat :=
  match s with
  | EmptyString => 0
  | String a rest => (if Ascii.eqb a c then 1 else 0) + count_char c rest
  end.


(** The tier /update_subscription stores for a body. *)
Definition accepted_tier (data : option (gmap string string)) : string :=
  if existsb (String.eqb (field data "subscription_tier" "free")) valid_tiers
  then field data "subscription_tier" "free"
  else "free".

(** The rows of the accounts other than [uid]. *)
Definition other_users (uid : string) (l : list user_row) : list user_row :=
  List.filter (fun u => negb (String.eqb (user_id u) uid)) l.

(** The tier /demo_switch_tier sets for a body. *)
Definition demo_tier (data : option (gmap string string)) : string :=
  if existsb (String.eqb (field data "tier" "premium")) valid_tiers
  then field data "tier" "premium"
  else "premium".

End Server.

(** ** A runtime for ASCII text

    The closed examples below run the handlers on this instance: Python's
    string functions restricted to ASCII text, POSIX resolution of a
    trailing slash in a directory name, and a transparent stand-in for
    PBKDF2 (no example depends on how digests look, only on equal inputs
    giving equal digests). *)

Definition lower_char (c : ascii) : ascii :=
  if in_range 65 90 c then ascii_of_nat (nat_of_ascii c + 32) else c.

Definition upper_char (c : ascii) : ascii :=
  if in_range 97 122 c then ascii_of_nat (nat_of_ascii c - 32) else c.

Definition ascii_lower (s : string) : string :=
  string_of_list_ascii (map lower_char (list_ascii_of_string s)).

Definition is_space (c : ascii) : bool := in_range 9 13 c || in_range 28 32 c.

Fixpoint lstrip (l : list ascii) : list ascii :=
  match l with
  | c :: rest => if is_space c then lstrip rest else l
  | [] => []
  end.

Definition ascii_strip (s : string) : string :=
  string_of_list_ascii (rev (lstrip (rev (lstrip (list_ascii_of_string s))))).

Fixpoint title_from (in_word : bool) (l : list ascii) : list ascii :=
  match l with
  | c :: rest =>
      (if is_alpha c then (if in_word then lower_char c else upper_char c) else c)
      :: title_from (is_alpha c) rest
  | [] => []
  end.

Definition ascii_title (s : string) : string :=
  string_of_list_ascii (title_from false (list_ascii_of_string s)).

Definition is_digit (c : ascii) : bool := in_range 48 57 c.

Definition ascii_isdigit (s : string) : bool :=
  nonempty_all is_digit (list_ascii_of_string s).

(** Decimal digits, single underscores allowed between two of them. *)
Fixpoint parse_digits (acc : Z) (after_digit : bool) (l : list ascii) : option Z :=
  match l with
  | [] => if after_digit then Some acc else None
  | c :: rest =>
      if is_digit c
      then parse_digits (10 * acc + (Z.of_nat (nat_of_ascii c) - 48)) true rest
      else if Ascii.eqb c "_" && after_digit
      then match rest with
           | [] => None
           | _ => parse_digits acc false rest
           end
      else None
  end.

Definition ascii_int (s : string) : option Z :=
  match list_ascii_of_string (ascii_strip s) with
  | c :: rest =>
      if Ascii.eqb c "-" then Z.opp <$> parse_digits 0 false rest
      else if Ascii.eqb c "+" then parse_digits 0 false rest
      else parse_digits 0 false (c :: rest)
  | [] => None
  end.

Definition two_digits (n : Z) : string := zfill 2 (pretty n).

(** The civil date of a count of seconds since 1970-01-01 00:00:00. *)
Definition ascii_strftime (now : Z) : string :=
  let days := now / 86400 in
  let secs := now mod 86400 in
  let z := days + 719468 in
  let era := z / 146097 in
  let doe := z - era * 146097 in
  let yoe := (doe - doe / 1460 + doe / 36524 - doe / 146096) / 365 in
  let doy := doe - (365 * yoe + yoe / 4 - yoe / 100) in
  let mp := (5 * doy + 2) / 153 in
  let d := doy - (153 * mp + 2) / 5 + 1 in
  let m := if mp <? 10 then mp + 3 else mp - 9 in
  let y := yoe + era * 400 + (if m <=? 2 then 1 else 0) in
  zfill 4 (pretty y) +:+ two_digits m +:+ two_digits d +:+ "_" +:+
  two_digits (secs / 3600) +:+ two_digits (secs mod 3600 / 60) +:+
  two_digits (secs mod 60).

Fixpoint drop_slashes (l : list ascii) : list ascii :=
  match l with
  | c :: rest => if Ascii.eqb c "/" then drop_slashes rest else l
  | [] => []
  end.

(** A directory name with slashes after it names the same directory. *)
Definition posix_dir_name (s : string) : string :=
  string_of_list_ascii (rev (drop_slashes (rev (list_ascii_of_string s)))).

Definition stand_in_kdf (password salt : string) : string :=
  "pbkdf2(" +:+ password +:+ "," +:+ salt +:+ ")".

Definition ascii_runtime : Runtime := {|
  pbkdf2_hmac_sha256_hex := stand_in_kdf;
  str_lower := ascii_lower;
  str_strip := ascii_strip;
  str_title := ascii_title;
  str_isdigit := ascii_isdigit;
  py_int := ascii_int;
  strftime := ascii_strftime;
  dir_name := posix_dir_name;
|}.


(** The state init_database() leaves on a new installation. *)
Definition fresh_world : world := mk_world [] [] [] None None ∅ [].

(** A dict from its items. *)
Definition dict (items : list (string * string)) : gmap string string :=
  list_to_map items.

(** The database and clock functions of /videos and the demo endpoints:
    rows by created_at, newest first, and the two date formats, cut out of
    the digits [ascii_strftime] gives (years of four digits). *)
Definition created_desc (r1 r2 : session_row) : Prop :=
  s_created_at r2 <= s_created_at r1.

#[global] Instance created_desc_dec : RelDecision created_desc :=
  fun r1 r2 => decide (s_created_at r2 <= s_created_at r1).

Definition newest_first : list session_row -> list session_row :=
  merge_sort created_desc.

Definition ascii_format_created (t : Z) : string :=
  let s := ascii_strftime t in
  substring 0 4 s +:+ "-" +:+ substring 4 2 s +:+ "-" +:+ substring 6 2 s +:+ " " +:+
  substring 9 2 s +:+ ":" +:+ substring 11 2 s.

Definition ascii_isoformat (t : Z) : string :=
  let s := ascii_strftime t in
  substring 0 4 s +:+ "-" +:+ substring 4 2 s +:+ "-" +:+ substring 6 2 s +:+ "T" +:+
  substring 9 2 s +:+ ":" +:+ substring 11 2 s +:+ ":" +:+ substring 13 2 s.

(** ** Requests and worlds of the examples *)

Section Scenario.
#[local] Existing Instance ascii_runtime.

Definition ann : list (string * string) :=
  [("email", "ann@example.com"); ("password", "123456")].

(** Ann registers on a new installation at time 1000. *)
Definition registered_world : world :=
  run (register_user 1000 "U1" "5a17" (Some (dict ann))) fresh_world.

Definition ann_user : auth_user := mk_auth_user "U1" "ann@example.com" "Ann" 1000.

Definition wrong_guess : option (gmap string string) :=
  Some (dict [("email", "ann@example.com"); ("password", "000000")]).

Definition stranger_guess : option (gmap string string) :=
  Some (dict [("email", "bob@example.com"); ("password", "000000")]).


Definition clip : file_storage := mk_file "clip.mov" [Byte.x00; Byte.x01; Byte.x02].

(** Ann uploads [clip] as chunk [chunk_number] of session [sid]. *)
Definition chunk_form (sid chunk_number : string) : gmap string string :=
  dict (ann ++ [("session_id", sid); ("chunk_number", chunk_number)]).

Definition chunk_upload (now : Z) (sid chunk_number : string) (o : save_outcome)
  : M response :=
  upload_video now "multipart/form-data; boundary=x" (chunk_form sid chunk_number)
    {[ "video" := clip ]} o.

Definition one_chunk_world : world :=
  run (chunk_upload 3000 "S1" "0" Saved) registered_world.

(** Ann asks to delete session [sid]. *)
Definition delete_request (sid : string) : gmap string string :=
  dict (ann ++ [("session_id", sid)]).

(** Register, upload to S1, delete "S1/", upload to S1 again. *)
Definition aliased_delete : list request :=
  [Register 1000 "U1" "5a17" (Some (dict ann));
   Upload 3000 "multipart/form-data; boundary=x" (chunk_form "S1" "0")
     {[ "video" := clip ]} Saved;
   Delete 4000 (Some (delete_request "S1/")) Removed;
   Upload 5000 "multipart/form-data; boundary=x" (chunk_form "S1" "0")
     {[ "video" := clip ]} Saved].

(** Sessions with 4, 2 and 0 chunk files: the one write to S3 fails. *)
Definition three_sessions_world : world :=
  fold_left (fun w c => run c w)
    [chunk_upload 3000 "S1" "0" Saved; chunk_upload 3001 "S1" "1" Saved;
     chunk_upload 3002 "S1" "2" Saved; chunk_upload 3003 "S1" "3" Saved;
     chunk_upload 3004 "S2" "0" Saved; chunk_upload 3005 "S2" "1" Saved;
     chunk_upload 3006 "S3" "0" (SaveFailed None)]
    registered_world.


(** An installation that archived one PIN account with one session. *)
Definition legacy_account : old_user_row :=
  mk_old_user "7" (stand_in_kdf "4321" "01d") "01d".

Definition legacy_world : world :=
  mk_world [] [] []
    (Some [legacy_account])
    (Some [mk_session "7" "L1" 10 3])
    {[ "7" := {[ "L1" := {[ "chunk_003_20200101_000000.mov" := [Byte.x07] ]} ]} ]}
    [].

Definition migration (pin e : string) : option (gmap string string) :=
  Some (dict [("pin", pin); ("email", e); ("password", "654321"); ("full_name", "Cat")]).

(** Ann asks for the premium tier. *)
Definition premium_request : option (gmap string string) :=
  Some (dict (ann ++ [("subscription_tier", "premium")])).

(** An upload to Ann's session S1 under a wrong passcode. *)
Definition forged_form : gmap string string :=
  dict [("email", "ann@example.com"); ("password", "000000");
        ("session_id", "S1"); ("chunk_number", "0")].

(** The legacy account migrated to cat@example.com. *)
Definition migrated_world : world :=
  run (migrate_pin_user 50 "c0de" (migration "4321" "cat@example.com")) legacy_world.

(** The tokens round [i] of /create_all_demo_accounts draws. *)
Definition demo_tokens (i : nat) : string * string :=
  ("D" +:+ pretty (Z.of_nat i), "5a1" +:+ pretty (Z.of_nat i)).

End Scenario.

(** ** The rate limiter in the words of its specification *)

(** An attempt recorded at time [t] lies in the trailing 24 hours of [now]
    when less than a day has passed since. *)
Definition in_trailing_day (now t : Z) : Prop := now - t < 24 * 60 * 60.

#[global] Instance in_trailing_day_dec now t : Decision (in_trailing_day now t) :=
  Z_lt_dec (now - t) (24 * 60 * 60).

(** failedCountInWindow: the failed attempts recorded for [e] in the
    trailing 24 hours of [now]. *)
Fixpoint failedCountInWindow (now : Z) (e : string) (l : list attempt_row) : Z :=
  match l with
  | [] => 0
  | a :: rest =>
      (if bool_decide (a_email a = e /\ success a = 0 /\ in_trailing_day now (attempt_time a))
       then 1 else 0) + failedCountInWindow now e rest
  end.

(** * Properties *)

Section Properties.
Context {rt : Runtime}.

Ltac run_handler :=
  cbv [bind ret gets modify emit result run] in *; cbn [fst snd] in *.

Lemma count_failed_since_app e since l1 l2 :
  count_failed_since e since (l1 ++ l2) =
  count_failed_since e since l1 + count_failed_since e since l2.
Proof.
  unfold count_failed_since.
  rewrite List.filter_app, length_app. lia.
Qed.

(** The SQL count is the count of the specification. *)
Lemma count_failed_since_spec now e l :
  count_failed_since e (now - one_day) l = failedCountInWindow now e l.
Proof.
  induction l as [|a l IH]; [reflexivity|].
  change (a :: l) with ([a] ++ l).
  rewrite count_failed_since_app, IH. cbn [app failedCountInWindow]. f_equal.
  unfold count_failed_since, in_trailing_day, one_day. cbn [List.filter].
  case_bool_decide as H.
  - destruct H as (-> & -> & Ht).
    rewrite String.eqb_refl. cbn [andb].
    replace (now - 86400 <? attempt_time a) with true by (symmetry; apply Z.ltb_lt; lia).
    reflexivity.
  - destruct (String.eqb_spec (a_email a) e) as [He|He]; cbn [andb]; [|reflexivity].
    destruct (Z.ltb_spec (now - 86400) (attempt_time a)); cbn [andb]; [|reflexivity].
    destruct (Z.eqb_spec (success a) 0); [|reflexivity].
    exfalso. apply H. repeat split; [assumption..|lia].
Qed.

(** ** Credentials *)

Lemma verify_password_run p h s w :
  verify_password p h s w =
  (String.eqb (pbkdf2_hmac_sha256_hex p s) h, log (EvPbkdf2 p s) w).
Proof. reflexivity. Qed.

Lemma get_user_run e p w :
  get_user_by_email_password e p w = (auth_result w e p, logs (auth_events w e p) w).
Proof.
  unfold get_user_by_email_password, select_user_by_email, auth_result, auth_events.
  run_handler. cbn [users log].
  destruct (find _ (users w)) as [u|]; [|reflexivity].
  rewrite verify_password_run.
  destruct (String.eqb _ _); reflexivity.
Qed.

Lemma logs_fields es w :
  users (logs es w) = users w /\
  recording_sessions (logs es w) = recording_sessions w /\
  login_attempts (logs es w) = login_attempts w /\
  users_old_pin_backup (logs es w) = users_old_pin_backup w /\
  recording_sessions_old_backup (logs es w) = recording_sessions_old_backup w /\
  upload_folder (logs es w) = upload_folder w /\
  trace (logs es w) = trace w ++ es.
Proof.
  unfold logs. revert w. induction es as [|ev es IH]; intros w; cbn [fold_left].
  - rewrite app_nil_r. repeat split.
  - destruct (IH (log ev w)) as (-> & -> & -> & -> & -> & -> & ->).
    cbn [log users recording_sessions login_attempts users_old_pin_backup
         recording_sessions_old_backup upload_folder trace].
    rewrite <- app_assoc. repeat split.
Qed.

Lemma hash_password_drawn fresh p so w :
  hash_password fresh p so w =
  ((pbkdf2_hmac_sha256_hex p (default fresh so), default fresh so),
   log (EvPbkdf2 p (default fresh so)) w).
Proof. destruct so; reflexivity. Qed.

(** C9: for every passcode p, verifying p against the digest that
    hash_password produced for it, with the salt hash_password returned
    (the one given, or the one it drew), succeeds; verification against any
    other digest (a tampered one) fails, and so does verification against
    the digest of p under another salt, whenever PBKDF2 gives that salt
    another digest. *)
Theorem verify_password_iff_digest (fresh p : string) (so : option string) (w w' : world) :
  result (verify_password p
            (fst (result (hash_password fresh p so) w))
            (snd (result (hash_password fresh p so) w))) w' = true
  /\ (forall h', h' <> fst (result (hash_password fresh p so) w) ->
        result (verify_password p h' (snd (result (hash_password fresh p so) w))) w' = false)
  /\ (forall s',
        fst (result (hash_password fresh p (Some s')) w) <>
        fst (result (hash_password fresh p so) w) ->
        result (verify_password p (fst (result (hash_password fresh p (Some s')) w))
                  (snd (result (hash_password fresh p so) w))) w' = false).
Proof.
  unfold result. rewrite !hash_password_drawn. cbn [fst snd default].
  split; [|split].
  - rewrite verify_password_run. cbn [fst]. apply String.eqb_refl.
  - intros h' Hne. rewrite verify_password_run. cbn [fst].
    apply String.eqb_neq. congruence.
  - intros s' Hne. rewrite verify_password_run. cbn [fst].
    apply String.eqb_neq. congruence.
Qed.

(** ** Rate limiter *)

Lemma get_remaining_attempts_run now e w :
  get_remaining_attempts now e w =
  (Z.max 0 (5 - failedCountInWindow now (str_lower e) (login_attempts w)), w).
Proof.
  unfold get_remaining_attempts. run_handler.
  now rewrite count_failed_since_spec.
Qed.

Lemma check_rate_limit_run now e w :
  check_rate_limit now e w =
  (failedCountInWindow now (str_lower e) (login_attempts w) <? 5, w).
Proof.
  unfold check_rate_limit. run_handler.
  now rewrite count_failed_since_spec.
Qed.

Lemma failedCountInWindow_app now e l1 l2 :
  failedCountInWindow now e (l1 ++ l2) =
  failedCountInWindow now e l1 + failedCountInWindow now e l2.
Proof.
  induction l1 as [|a l1 IH]; cbn [app failedCountInWindow]; [reflexivity|].
  rewrite IH. lia.
Qed.

Lemma record_login_attempt_run t e ok ip w :
  record_login_attempt t e ok ip w =
  (tt, set_attempts (fun l => l ++ [mk_attempt (str_lower e) t (if ok then 1 else 0) ip])
         (log (EvInsertAttempt (str_lower e) (if ok then 1 else 0)) w)).
Proof. reflexivity. Qed.


(** A failed attempt inside the window adds one to the tally of its email. *)
Lemma failedCount_after_failure now e e' ip w :
  failedCountInWindow now e (login_attempts (run (record_login_attempt now e' false ip) w)) =
  failedCountInWindow now e (login_attempts w) +
  (if bool_decide (str_lower e' = e) then 1 else 0).
Proof.
  unfold run. rewrite record_login_attempt_run. cbn [snd set_attempts login_attempts log].
  rewrite failedCountInWindow_app. cbn [failedCountInWindow success a_email attempt_time].
  f_equal. unfold in_trailing_day.
  repeat case_bool_decide; try lia; exfalso; intuition lia.
Qed.

(** ** Login *)

Lemma login_user_run now ip data w :
  login_request data ->
  login_user now ip data w =
  if failedCountInWindow now (str_lower (canonical_email data)) (login_attempts w) <? 5
  then
    match auth_result w (canonical_email data) (stripped data "password") with
    | Some u =>
        (login_ok u,
         run (update_last_login now (au_user_id u))
           (run (record_login_attempt now (canonical_email data) true ip)
              (logs (auth_events w (canonical_email data) (stripped data "password")) w)))
    | None =>
        (login_failed
           (Z.max 0 (5 - (failedCountInWindow now (str_lower (canonical_email data))
                            (login_attempts w) + 1))),
         run (record_login_attempt now (canonical_email data) false ip)
           (logs (auth_events w (canonical_email data) (stripped data "password")) w))
    end
  else
    (too_many_attempts
       (Z.max 0 (5 - failedCountInWindow now (str_lower (canonical_email data))
                       (login_attempts w))), w).
Proof.
  intros (Hd & He & Hp). unfold login_user. rewrite Hd, He, Hp. cbn [negb orb].
  unfold bind at 1. rewrite check_rate_limit_run.
  destruct (_ <? 5); cbn [negb].
  - unfold bind at 1. rewrite get_user_run.
    destruct (auth_result _ _ _) as [u|].
    + reflexivity.
    + unfold bind at 1. rewrite record_login_attempt_run.
      unfold bind at 1. rewrite get_remaining_attempts_run. unfold ret.
      f_equal. f_equal. f_equal. f_equal.
      pose proof (failedCount_after_failure now (str_lower (canonical_email data))
                    (canonical_email data) ip
                    (logs (auth_events w (canonical_email data) (stripped data "password")) w))
        as H.
      unfold run in H. rewrite record_login_attempt_run in H. cbn [snd] in H.
      rewrite H. rewrite bool_decide_eq_true_2 by reflexivity.
      destruct (logs_fields (auth_events w (canonical_email data) (stripped data "password")) w)
        as (_ & _ & -> & _). reflexivity.
  - unfold bind at 1. rewrite get_remaining_attempts_run. reflexivity.
Qed.





(** ** No account-existence leak *)

Lemma auth_result_unknown w e p : unknown_account w e -> auth_result w e p = None.
Proof. unfold unknown_account, auth_result. now intros ->. Qed.

Lemma auth_result_wrong w e p : wrong_passcode w e p -> auth_result w e p = None.
Proof.
  unfold auth_result. intros (u & -> & Hne).
  now apply String.eqb_neq in Hne as ->.
Qed.

(** A failed login is answered from the failure tally alone. *)
Lemma login_user_failure now ip data w :
  login_request data ->
  auth_result w (canonical_email data) (stripped data "password") = None ->
  result (login_user now ip data) w =
  if failedCountInWindow now (str_lower (canonical_email data)) (login_attempts w) <? 5
  then login_failed (Z.max 0 (5 - (failedCountInWindow now
         (str_lower (canonical_email data)) (login_attempts w) + 1)))
  else too_many_attempts (Z.max 0 (5 - failedCountInWindow now
         (str_lower (canonical_email data)) (login_attempts w))).
Proof.
  intros Hreq Hnone. unfold result. rewrite login_user_run by assumption.
  rewrite Hnone. now destruct (_ <? 5).
Qed.

(** C2: take a request for an email that is not in the user store and a
    request for a known email with a wrong passcode.  Authentication gives
    both the same answer (None), and the login responses are identical
    whenever the two emails have the same failure tally: the response tells
    nothing but the remaining attempts, so it does not tell an unknown
    account from a wrong passcode. *)
Theorem login_failure_hides_account now ip1 ip2 d1 d2 w1 w2 :
  login_request d1 -> login_request d2 ->
  unknown_account w1 (canonical_email d1) ->
  wrong_passcode w2 (canonical_email d2) (stripped d2 "password") ->
  result (get_user_by_email_password (canonical_email d1) (stripped d1 "password")) w1 =
  result (get_user_by_email_password (canonical_email d2) (stripped d2 "password")) w2
  /\ (failedCountInWindow now (str_lower (canonical_email d1)) (login_attempts w1) =
      failedCountInWindow now (str_lower (canonical_email d2)) (login_attempts w2) ->
      result (login_user now ip1 d1) w1 = result (login_user now ip2 d2) w2).
Proof.
  intros Hr1 Hr2 Hu Hw.
  pose proof (auth_result_unknown _ _ (stripped d1 "password") Hu) as H1.
  pose proof (auth_result_wrong _ _ _ Hw) as H2.
  split.
  - unfold result. rewrite !get_user_run. cbn [fst]. congruence.
  - intros Hn. rewrite !login_user_failure by assumption. now rewrite Hn.
Qed.

(** ** Storage quota *)




(** The loop adds up 15 seconds for every chunk file of every session. *)
Lemma total_storage_sum w uid sessions :
  total_storage w uid sessions =
  15 * fold_right Z.add 0 (map (chunk_files w uid) sessions).
Proof.
  induction sessions as [|sid rest IH]; cbn [total_storage map fold_right]; [reflexivity|].
  rewrite IH. unfold chunk_files, chunk_duration.
  destruct (session_folder w uid sid); lia.
Qed.




(** ** Chunk download *)

(** C10: download_chunk takes no credential and checks none: for every
    (user_id, session_id, filename) that names a stored file it answers with
    the file's content, whatever the users table holds, and the only call
    it makes is the read of that file (the users table is not read and no
    digest is computed). *)
Theorem download_chunk_unauthenticated uid sid name data w :
  stored_file w uid sid name = Some data ->
  download_chunk uid sid name w =
    (Stream data (chunk_headers name data), log (EvOpenRead uid sid name) w)
  /\ forall accounts,
       result (download_chunk uid sid name) (set_users (fun _ => accounts) w) =
       Stream data (chunk_headers name data).
Proof.
  intros Hf. split.
  - unfold download_chunk. run_handler. now rewrite Hf.
  - intros accounts. unfold download_chunk. run_handler.
    change (stored_file (set_users (fun _ => accounts) w) uid sid name)
      with (stored_file w uid sid name).
    now rewrite Hf.
Qed.

(** ** Session deletion *)

Lemma session_folder_after_rmtree uid sid w :
  session_folder (run (rmtree uid sid Removed) w) uid sid = None.
Proof.
  unfold run, rmtree, session_folder. run_handler.
  cbn [set_folder upload_folder log].
  rewrite lookup_insert_eq. apply lookup_delete_eq.
Qed.

Lemma session_folder_after_failed_rmtree uid sid removed msg w :
  is_some (session_folder (run (rmtree uid sid (RmFailed removed msg)) w) uid sid) = true.
Proof.
  unfold run, rmtree, session_folder. run_handler.
  cbn [set_folder upload_folder log].
  now rewrite !lookup_insert_eq.
Qed.

Lemma session_rows_after_delete uid sid w :
  session_rows (run (delete_session uid sid) w) uid sid = [].
Proof.
  unfold run, delete_session, session_rows. run_handler.
  cbn [set_sessions recording_sessions log].
  induction (recording_sessions w) as [|r l IH]; [reflexivity|].
  cbn [List.filter]. destruct (same_session uid sid r) eqn:Hr; cbn [negb List.filter].
  - exact IH.
  - now rewrite Hr.
Qed.

(** C6: deleting a session whose folder exists first removes the folder
    with its chunk files and then the session's rows (the two calls are
    made in this order, and afterwards neither the folder nor a row of the
    session is left); when the removal of the files fails, the request
    fails before the DELETE is issued, so the rows are all still there, and
    so is the folder, and the deletion can be asked again; and after a
    deletion that succeeded, the same request is answered NotFound (404). *)
Theorem delete_video_files_then_row (d : gmap string string) (user : auth_user) (w : world) :
  str_nonempty (dict_get d "session_id" "") = true ->
  is_some (session_folder w (au_user_id user) (dict_get d "session_id" "")) = true ->
  (status_of (result (delete_video Removed (Some d) user) w) = 200
   /\ trace (run (delete_video Removed (Some d) user) w) =
      trace w ++ [EvRmtree (au_user_id user) (dict_get d "session_id" "") true;
                  EvDeleteSession (au_user_id user) (dict_get d "session_id" "")]
   /\ session_folder (run (delete_video Removed (Some d) user) w)
        (au_user_id user) (dict_get d "session_id" "") = None
   /\ session_rows (run (delete_video Removed (Some d) user) w)
        (au_user_id user) (dict_get d "session_id" "") = []
   /\ forall o,
        result (delete_video o (Some d) user) (run (delete_video Removed (Some d) user) w)
        = error "Video not found" 404)
  /\
  (forall removed msg,
     status_of (result (delete_video (RmFailed removed msg) (Some d) user) w) = 500
     /\ trace (run (delete_video (RmFailed removed msg) (Some d) user) w) =
        trace w ++ [EvRmtree (au_user_id user) (dict_get d "session_id" "") false]
     /\ recording_sessions (run (delete_video (RmFailed removed msg) (Some d) user) w) =
        recording_sessions w
     /\ is_some (session_folder (run (delete_video (RmFailed removed msg) (Some d) user) w)
                   (au_user_id user) (dict_get d "session_id" "")) = true).
Proof.
  intros Hsid Hdir.
  set (uid := au_user_id user) in *. set (sid := dict_get d "session_id" "") in *.
  assert (Hok : delete_video Removed (Some d) user w =
                (Json (JObj [("message", JStr "Video deleted successfully")]) 200,
                 run (delete_session uid sid) (run (rmtree uid sid Removed) w))).
  { unfold delete_video. fold sid uid. rewrite Hsid. cbn [negb].
    unfold bind at 1, gets. rewrite Hdir. reflexivity. }
  assert (Hgone : session_folder (run (delete_session uid sid) (run (rmtree uid sid Removed) w))
                    uid sid = None).
  { change (session_folder (run (delete_session uid sid) ?w0) uid sid)
      with (session_folder w0 uid sid).
    apply session_folder_after_rmtree. }
  split.
  - unfold result, run at 1 2 3 4. rewrite Hok. cbn [fst snd status_of].
    split; [reflexivity|].
    split; [unfold run, delete_session, rmtree; run_handler;
            cbn [trace log set_sessions set_folder]; now rewrite <- app_assoc|].
    split; [exact Hgone|].
    split; [apply session_rows_after_delete|].
    intros o. unfold delete_video. fold sid uid. rewrite Hsid. cbn [negb].
    unfold bind at 1, gets. now rewrite Hgone.
  - intros removed msg.
    assert (Hfail : delete_video (RmFailed removed msg) (Some d) user w =
                    (error msg 500, run (rmtree uid sid (RmFailed removed msg)) w)).
    { unfold delete_video. fold sid uid. rewrite Hsid. cbn [negb].
      unfold bind at 1, gets. rewrite Hdir. reflexivity. }
    unfold result, run at 1 2 3. rewrite Hfail. cbn [fst snd].
    split; [reflexivity|]. split; [reflexivity|]. split; [reflexivity|].
    apply session_folder_after_failed_rmtree.
Qed.

(** ** Legacy migration *)

Lemma find_pin_run pin old w :
  find_pin pin old w = (o_user_id <$> first_match pin old, logs (pin_events pin old) w).
Proof.
  revert w. induction old as [|o old IH]; intros w; [reflexivity|].
  cbn [find_pin first_match find pin_events]. unfold bind at 1, emit, modify.
  fold (pin_matches pin o). destruct (pin_matches pin o); [reflexivity|].
  rewrite IH. reflexivity.
Qed.

Lemma email_registered_logs e es w :
  email_registered e (logs es w) = (registered w e, logs es w).
Proof.
  unfold email_registered, gets, registered.
  now destruct (logs_fields es w) as (-> & _).
Qed.

Lemma insert_user_run row w :
  insert_user row w =
  if existsb (fun u => String.eqb (user_id u) (user_id row) || String.eqb (email u) (email row))
       (users w)
  then (false, log (EvInsertUser (user_id row) (email row)) w)
  else (true, set_users (fun l => l ++ [row]) (log (EvInsertUser (user_id row) (email row)) w)).
Proof.
  unfold insert_user. run_handler. cbn [users log].
  now destruct (existsb _ (users w)).
Qed.

Lemma taken_when_email_free w uid e :
  registered w e = false ->
  existsb (fun u => String.eqb (user_id u) uid || String.eqb (email u) e) (users w) =
  user_id_taken w uid.
Proof.
  unfold user_id_taken, registered.
  induction (users w) as [|u l IH]; cbn [existsb]; [reflexivity|].
  intros [-> H]%orb_false_elim. rewrite orb_false_r. now rewrite IH.
Qed.

Lemma migrate_pin_user_run now fresh data w :
  migrate_request data ->
  migrate_pin_user now fresh data w =
  match users_old_pin_backup w with
  | None => (error "No PIN-based accounts found to migrate" 404, w)
  | Some old =>
      match first_match (stripped data "pin") old with
      | None =>
          (error "PIN not found in system" 404, logs (pin_events (stripped data "pin") old) w)
      | Some o =>
          if negb (str_nonempty (o_user_id o))
          then (error "PIN not found in system" 404,
                logs (pin_events (stripped data "pin") old) w)
          else if registered w (canonical_email data)
          then (error "Email already registered" 400,
                logs (pin_events (stripped data "pin") old) w)
          else if user_id_taken w (o_user_id o)
          then (error "Migration failed" 500,
                logs (pin_events (stripped data "pin") old ++
                      [EvPbkdf2 (stripped data "password") fresh;
                       EvInsertUser (o_user_id o) (canonical_email data)]) w)
          else (migrated_ok (o_user_id o),
                run (copy_old_sessions (o_user_id o))
                  (set_users (fun l => l ++
                     [new_user_row now (o_user_id o) (canonical_email data)
                        (stripped data "full_name")
                        (pbkdf2_hmac_sha256_hex (stripped data "password") fresh) fresh])
                     (logs (pin_events (stripped data "pin") old ++
                            [EvPbkdf2 (stripped data "password") fresh;
                             EvInsertUser (o_user_id o) (canonical_email data)]) w)))
      end
  end.
Proof.
  intros (Hd & Hf). unfold migrate_pin_user. rewrite Hd, Hf. cbn [negb].
  unfold bind at 1, gets.
  destruct (users_old_pin_backup w) as [old|]; [|reflexivity].
  unfold bind at 1. rewrite find_pin_run.
  destruct (first_match (stripped data "pin") old) as [o|];
    cbn [fmap option_fmap option_map]; [|reflexivity].
  destruct (str_nonempty (o_user_id o)); cbn [negb]; [|reflexivity].
  unfold bind at 1. rewrite email_registered_logs.
  destruct (registered w (canonical_email data)) eqn:Hreg; [reflexivity|].
  unfold bind at 1. unfold hash_password at 1. run_handler.
  rewrite insert_user_run. cbn [users log new_user_row user_id email].
  destruct (logs_fields (pin_events (stripped data "pin") old) w) as (Hu & _).
  rewrite Hu, (taken_when_email_free _ _ _ Hreg).
  unfold logs. rewrite !fold_left_app. cbn [fold_left].
  destruct (user_id_taken w (o_user_id o)); reflexivity.
Qed.

(** C7: a migration request whose pin matches no archived account is
    answered NotFound (404) and adds no account; one whose pin matches an
    archived account while the target email is already registered is
    answered Conflict (400, 'Email already registered') and leaves the
    users table, the session table and both archived tables as they were;
    and one that goes through (email free, identifier not yet in use) is
    answered 201, adds the credential record with the archived account's
    identifier as its user_id, and appends that identifier's archived
    session rows to the session table. *)
Theorem migrate_pin_user_outcomes now fresh data w :
  migrate_request data ->
  ((forall old, users_old_pin_backup w = Some old ->
                first_match (stripped data "pin") old = None) ->
   status_of (result (migrate_pin_user now fresh data) w) = 404
   /\ users (run (migrate_pin_user now fresh data) w) = users w
   /\ recording_sessions (run (migrate_pin_user now fresh data) w) = recording_sessions w)
  /\
  (forall old o,
     users_old_pin_backup w = Some old ->
     first_match (stripped data "pin") old = Some o ->
     str_nonempty (o_user_id o) = true ->
     (registered w (canonical_email data) = true ->
      result (migrate_pin_user now fresh data) w = error "Email already registered" 400
      /\ users (run (migrate_pin_user now fresh data) w) = users w
      /\ recording_sessions (run (migrate_pin_user now fresh data) w) = recording_sessions w
      /\ users_old_pin_backup (run (migrate_pin_user now fresh data) w) = Some old
      /\ recording_sessions_old_backup (run (migrate_pin_user now fresh data) w) =
         recording_sessions_old_backup w)
     /\
     (registered w (canonical_email data) = false ->
      user_id_taken w (o_user_id o) = false ->
      status_of (result (migrate_pin_user now fresh data) w) = 201
      /\ users (run (migrate_pin_user now fresh data) w) =
         users w ++ [new_user_row now (o_user_id o) (canonical_email data)
                       (stripped data "full_name")
                       (pbkdf2_hmac_sha256_hex (stripped data "password") fresh) fresh]
      /\ recording_sessions (run (migrate_pin_user now fresh data) w) =
         recording_sessions w ++
         List.filter (fun r => String.eqb (s_user_id r) (o_user_id o))
           (default [] (recording_sessions_old_backup w))
      /\ users_old_pin_backup (run (migrate_pin_user now fresh data) w) = Some old
      /\ recording_sessions_old_backup (run (migrate_pin_user now fresh data) w) =
         recording_sessions_old_backup w)).
Proof.
  intros Hreq. pose proof (migrate_pin_user_run now fresh data w Hreq) as Hrun.
  unfold result, run. rewrite Hrun. clear Hrun.
  split.
  - intros Hnone.
    destruct (users_old_pin_backup w) as [old|] eqn:Hb; [|repeat split].
    rewrite (Hnone old eq_refl). cbn [fst snd].
    destruct (logs_fields (pin_events (stripped data "pin") old) w) as (-> & -> & _).
    repeat split.
  - intros old o Hb Hm Hid. rewrite Hb, Hm, Hid. cbn [negb].
    split.
    + intros ->. cbn [fst snd].
      destruct (logs_fields (pin_events (stripped data "pin") old) w)
        as (-> & -> & _ & -> & -> & _).
      repeat split. exact Hb.
    + intros -> ->. cbn [fst snd status_of migrated_ok].
      unfold copy_old_sessions, modify, run. cbn [snd].
      cbn [recording_sessions_old_backup set_users].
      destruct (logs_fields (pin_events (stripped data "pin") old ++
                [EvPbkdf2 (stripped data "password") fresh;
                 EvInsertUser (o_user_id o) (canonical_email data)]) w)
        as (Hu & Hs & _ & Hob & Hos & _).
      rewrite Hos.
      destruct (recording_sessions_old_backup w) as [olds|] eqn:Ho;
        cbn [set_sessions set_users users recording_sessions
             users_old_pin_backup recording_sessions_old_backup default];
        rewrite ?Hu, ?Hs, ?Hob, ?Hos, ?Hb, ?Ho, ?app_nil_r; repeat split.
Qed.

(** ** Chunk upload *)

Lemma session_folder_logs es w uid sid :
  session_folder (logs es w) uid sid = session_folder w uid sid.
Proof.
  unfold session_folder.
  now destruct (logs_fields es w) as (_ & _ & _ & _ & _ & -> & _).
Qed.

Lemma sessions_after_save uid sid name data o w :
  recording_sessions (run (save uid sid name data o) w) = recording_sessions w.
Proof. destruct o as [|[part|]]; reflexivity. Qed.

Lemma sessions_after_try_update c uid sid w :
  recording_sessions (run (try_update_chunk_count c uid sid) w) =
  match py_int c with
  | Some n =>
      if sqlite_int n
      then map (raise_chunk_count n uid sid) (recording_sessions w)
      else recording_sessions w
  | None => recording_sessions w
  end.
Proof.
  unfold try_update_chunk_count.
  destruct (py_int c) as [n|]; [|reflexivity].
  destruct (sqlite_int n); reflexivity.
Qed.

(** The world an upload reaches before it writes the file. *)
Lemma sessions_before_save now uid sid es w :
  recording_sessions
    (run (has_folder <- gets (fun w => is_some (session_folder w uid sid)) ;;
          if has_folder then ret tt
          else makedirs uid sid ;; insert_session now uid sid) (logs es w)) =
  recording_sessions w ++ new_session_rows w now uid sid.
Proof.
  unfold run, new_session_rows. unfold bind at 1, gets.
  rewrite session_folder_logs.
  destruct (logs_fields es w) as (_ & Hs & _).
  destruct (is_some (session_folder w uid sid)); cbn [snd ret].
  - now rewrite app_nil_r.
  - unfold makedirs, insert_session. run_handler.
    cbn [set_sessions recording_sessions log set_folder]. now rewrite Hs.
Qed.

Lemma upload_video_run now ct form files o u file w :
  upload_ready w ct form files u file ->
  upload_video now ct form files o w =
  (saved <- save (au_user_id u) (stripped (Some form) "session_id")
              (chunk_filename now (chunk_number_of form)) (content file) o ;;
   match saved with
   | None => ret (error "Failed to save file" 500)
   | Some file_size =>
       try_update_chunk_count (chunk_number_of form) (au_user_id u)
         (stripped (Some form) "session_id") ;;
       update_last_login now (au_user_id u) ;;
       ret (upload_ok (chunk_filename now (chunk_number_of form))
              (stripped (Some form) "session_id") (chunk_number_of form) file_size)
   end)
    (run (has_folder <- gets (fun w =>
             is_some (session_folder w (au_user_id u) (stripped (Some form) "session_id"))) ;;
          if has_folder then ret tt
          else makedirs (au_user_id u) (stripped (Some form) "session_id") ;;
               insert_session now (au_user_id u) (stripped (Some form) "session_id"))
       (logs (auth_events w (canonical_email (Some form)) (stripped (Some form) "password")) w)).
Proof.
  intros (Hct & He & Hp & Hauth & Hfile & Hname & Hsid).
  unfold upload_video. rewrite Hct, He, Hp. cbn [negb orb].
  unfold bind at 1. rewrite get_user_run, Hauth, Hfile, Hname, Hsid. cbn [negb].
  unfold run. cbv [bind gets ret]. cbn [fst snd].
  destruct (is_some (session_folder _ _ _)); [reflexivity|].
  destruct (makedirs _ _ _) as [[] w3]. now destruct (insert_session _ _ _ _) as [[] w4].
Qed.

Lemma upload_video_world now ct form files o u file w :
  upload_ready w ct form files u file ->
  run (upload_video now ct form files o) w =
  match o with
  | Saved =>
      run (update_last_login now (au_user_id u))
        (run (try_update_chunk_count (chunk_number_of form) (au_user_id u)
                (stripped (Some form) "session_id"))
           (run (save (au_user_id u) (stripped (Some form) "session_id")
                   (chunk_filename now (chunk_number_of form)) (content file) Saved)
              (run (has_folder <- gets (fun w => is_some (session_folder w (au_user_id u)
                                          (stripped (Some form) "session_id"))) ;;
                    if has_folder then ret tt
                    else makedirs (au_user_id u) (stripped (Some form) "session_id") ;;
                         insert_session now (au_user_id u)
                           (stripped (Some form) "session_id"))
                 (logs (auth_events w (canonical_email (Some form))
                          (stripped (Some form) "password")) w))))
  | SaveFailed part =>
      run (save (au_user_id u) (stripped (Some form) "session_id")
             (chunk_filename now (chunk_number_of form)) (content file) (SaveFailed part))
        (run (has_folder <- gets (fun w => is_some (session_folder w (au_user_id u)
                                    (stripped (Some form) "session_id"))) ;;
              if has_folder then ret tt
              else makedirs (au_user_id u) (stripped (Some form) "session_id") ;;
                   insert_session now (au_user_id u) (stripped (Some form) "session_id"))
           (logs (auth_events w (canonical_email (Some form))
                    (stripped (Some form) "password")) w))
  end.
Proof.
  intros Hready. unfold run at 1. rewrite (upload_video_run _ _ _ _ _ _ _ _ Hready).
  set (w2 := run _ (logs _ w)).
  destruct o as [|[part|]]; [|reflexivity..].
  unfold run, save, update_last_login. run_handler.
  now destruct (try_update_chunk_count _ _ _ _) as [[] w4].
Qed.

(** A response 200 comes from an upload that was let through and whose
    file was written. *)
Lemma upload_success_was_ready now ct form files o w :
  status_of (result (upload_video now ct form files o) w) = 200 ->
  o = Saved /\ exists u file, upload_ready w ct form files u file.
Proof.
  intros H.
  assert (exists u file, upload_ready w ct form files u file) as (u & file & Hready).
  { revert H. unfold result, upload_video.
    destruct (str_contains _ ct) eqn:Hct; cbn [negb]; [|discriminate].
    destruct (str_nonempty (canonical_email (Some form))) eqn:He; cbn [negb orb];
      [|discriminate].
    destruct (str_nonempty (stripped (Some form) "password")) eqn:Hp; cbn [negb];
      [|discriminate].
    unfold bind at 1. rewrite get_user_run.
    destruct (auth_result _ _ _) as [u|] eqn:Hauth; [|discriminate].
    destruct (files !! "video") as [file|] eqn:Hfile; [|discriminate].
    destruct (str_nonempty (filename file)) eqn:Hname; cbn [negb]; [|discriminate].
    destruct (str_nonempty (stripped (Some form) "session_id")) eqn:Hsid; cbn [negb];
      [|discriminate].
    intros _. exists u, file. repeat split; assumption. }
  split; [|eauto].
  destruct o as [|part]; [reflexivity|exfalso].
  revert H. unfold result. rewrite (upload_video_run _ _ _ _ _ _ _ _ Hready).
  destruct part; discriminate.
Qed.

(** C4 (amended): take an upload that the handler lets through to the
    write.  When the file is written the upload succeeds (200), and then:
    if its chunk number is an integer i of SQLite's signed 64-bit range,
    every row of the session ends with chunk_count = max(previous, i), the
    previous value of a row this upload created being 0, and no row of the
    table has its chunk_count lowered (the index may come in any order,
    with gaps); if its chunk number is no such integer, the upload is
    accepted all the same and no chunk_count changes.  When the write of
    the file fails, the request fails (500) and no chunk_count changes. *)
Theorem upload_chunk_count_is_max now ct form files u file w :
  upload_ready w ct form files u file ->
  (status_of (result (upload_video now ct form files Saved) w) = 200
   /\ (forall i,
         py_int (chunk_number_of form) = Some i -> sqlite_int i = true ->
         recording_sessions (run (upload_video now ct form files Saved) w) =
         map (fun r =>
                if same_session (au_user_id u) (stripped (Some form) "session_id") r
                then mk_session (s_user_id r) (s_session_id r) (s_created_at r)
                       (Z.max (chunk_count r) i)
                else r)
           (recording_sessions w ++
            new_session_rows w now (au_user_id u) (stripped (Some form) "session_id"))
         /\ Forall2 (fun r r' => chunk_count r <= chunk_count r')
              (recording_sessions w ++
               new_session_rows w now (au_user_id u) (stripped (Some form) "session_id"))
              (recording_sessions (run (upload_video now ct form files Saved) w)))
   /\ ((py_int (chunk_number_of form) = None \/
        exists i, py_int (chunk_number_of form) = Some i /\ sqlite_int i = false) ->
       recording_sessions (run (upload_video now ct form files Saved) w) =
       recording_sessions w ++
       new_session_rows w now (au_user_id u) (stripped (Some form) "session_id")))
  /\
  (forall part,
     result (upload_video now ct form files (SaveFailed part)) w =
     error "Failed to save file" 500
     /\ recording_sessions (run (upload_video now ct form files (SaveFailed part)) w) =
        recording_sessions w ++
        new_session_rows w now (au_user_id u) (stripped (Some form) "session_id")).
Proof.
  intros Hready.
  pose proof (upload_video_world now ct form files Saved u file w Hready) as Hsaved.
  pose proof (sessions_before_save now (au_user_id u) (stripped (Some form) "session_id")
    (auth_events w (canonical_email (Some form)) (stripped (Some form) "password")) w) as Hrows.
  cbv iota in Hsaved. split; [split; [|split]|].
  - unfold result. rewrite (upload_video_run _ _ _ _ _ _ _ _ Hready).
    unfold save, update_last_login. run_handler.
    now destruct (try_update_chunk_count _ _ _ _) as [[] w3].
  - intros i Hi Hrange. rewrite Hsaved.
    change (recording_sessions (run (update_last_login ?t ?x) ?w0))
      with (recording_sessions w0).
    rewrite sessions_after_try_update, Hi, Hrange, sessions_after_save, Hrows.
    split; [reflexivity|].
    apply Forall2_fmap_r, Forall_Forall2_diag, Forall_forall.
    intros r _. cbv [compose raise_chunk_count].
    destruct (same_session _ _ r); cbn [chunk_count]; lia.
  - intros Hno. rewrite Hsaved.
    change (recording_sessions (run (update_last_login ?t ?x) ?w0))
      with (recording_sessions w0).
    rewrite sessions_after_try_update, sessions_after_save, Hrows.
    destruct Hno as [->|(i & -> & ->)]; reflexivity.
  - intros part. split.
    + unfold result. rewrite (upload_video_run _ _ _ _ _ _ _ _ Hready).
      destruct part; reflexivity.
    + rewrite (upload_video_world _ _ _ _ _ _ _ _ Hready), sessions_after_save.
      exact Hrows.
Qed.

(** ** Session rows and session folders *)

Lemma session_folder_after_write uid sid name data w :
  is_some (session_folder (write_file uid sid name data w) uid sid) = true.
Proof.
  unfold session_folder, write_file. cbn [set_folder upload_folder].
  now rewrite !lookup_insert_eq.
Qed.

Lemma session_folder_before_save now uid sid es w :
  is_some (session_folder
    (run (has_folder <- gets (fun w => is_some (session_folder w uid sid)) ;;
          if has_folder then ret tt
          else makedirs uid sid ;; insert_session now uid sid) (logs es w)) uid sid) = true.
Proof.
  unfold run. unfold bind at 1, gets. rewrite session_folder_logs.
  destruct (is_some (session_folder w uid sid)) eqn:Hdir; cbn [snd ret].
  - now rewrite session_folder_logs.
  - unfold makedirs, insert_session, session_folder. run_handler.
    cbn [set_sessions set_folder upload_folder log].
    now rewrite !lookup_insert_eq.
Qed.

Lemma session_folder_after_save uid sid name data o w :
  is_some (session_folder w uid sid) = true ->
  is_some (session_folder (run (save uid sid name data o) w) uid sid) = true.
Proof.
  intros Hdir. destruct o as [|[part|]]; unfold run, save; run_handler.
  - apply (session_folder_after_write uid sid name data (log _ w)).
  - apply (session_folder_after_write uid sid name part (log _ w)).
  - exact Hdir.
Qed.

Lemma session_folder_after_try_update c uid sid w uid' sid' :
  session_folder (run (try_update_chunk_count c uid sid) w) uid' sid' =
  session_folder w uid' sid'.
Proof.
  unfold try_update_chunk_count.
  destruct (py_int c) as [n|]; [|reflexivity].
  destruct (sqlite_int n); reflexivity.
Qed.

Lemma new_session_rows_same w now uid sid :
  List.filter (same_session uid sid) (new_session_rows w now uid sid) =
  new_session_rows w now uid sid.
Proof.
  unfold new_session_rows.
  destruct (is_some (session_folder w uid sid)); [reflexivity|].
  cbn [List.filter]. unfold same_session. cbn [s_user_id s_session_id].
  now rewrite !String.eqb_refl.
Qed.

(** An upload that reaches the write leaves the session folder in place,
    whatever becomes of the write. *)
Lemma upload_leaves_folder now ct form files u file o w :
  upload_ready w ct form files u file ->
  is_some (session_folder (run (upload_video now ct form files o) w)
             (au_user_id u) (stripped (Some form) "session_id")) = true.
Proof.
  intros Hready. rewrite (upload_video_world _ _ _ _ _ _ _ _ Hready).
  set (uid := au_user_id u). set (sid := stripped (Some form) "session_id").
  set (name := chunk_filename now (chunk_number_of form)).
  pose proof (session_folder_before_save now uid sid
    (auth_events w (canonical_email (Some form)) (stripped (Some form) "password")) w) as Hdir.
  set (w2 := run _ (logs _ w)) in *.
  pose proof (session_folder_after_save uid sid name (content file) o w2 Hdir) as Hdir'.
  destruct o as [|part]; [|exact Hdir'].
  change (session_folder (run (update_last_login now uid) ?w0) uid sid)
    with (session_folder w0 uid sid).
  now rewrite session_folder_after_try_update.
Qed.

(** ** Registration, then authentication *)

Lemma create_user_run now fresh_id fresh_salt name e p w :
  is_valid_email e = true -> six_digits p = true ->
  registered w e = false -> user_id_taken w fresh_id = false ->
  create_user now fresh_id fresh_salt name e p w =
  (inl fresh_id,
   (if is_some (upload_folder w !! fresh_id) then fun w' => w'
    else fun w' => set_folder (fun fs => <[fresh_id := ∅]> fs)
                     (log (EvMakedirs fresh_id None) w'))
     (set_users (fun l => l ++ [new_user_row now fresh_id e name
                                  (pbkdf2_hmac_sha256_hex p fresh_salt) fresh_salt])
        (logs [EvPbkdf2 p fresh_salt; EvInsertUser fresh_id e] w))).
Proof.
  intros Hv Hd Hreg Hid. unfold create_user. rewrite Hv, Hd. cbn [negb].
  unfold bind at 1. unfold email_registered, gets. fold (registered w e). rewrite Hreg.
  unfold bind at 1. rewrite hash_password_drawn. cbn [fst snd default].
  unfold bind at 1. rewrite insert_user_run.
  cbn [users log new_user_row user_id email].
  rewrite (taken_when_email_free _ _ _ Hreg), Hid.
  run_handler. cbn [upload_folder set_users log logs fold_left].
  now destruct (is_some (upload_folder w !! fresh_id)).
Qed.

Lemma users_after_create_user now fresh_id fresh_salt name e p w :
  is_valid_email e = true -> six_digits p = true ->
  registered w e = false -> user_id_taken w fresh_id = false ->
  users (run (create_user now fresh_id fresh_salt name e p) w) =
  users w ++ [new_user_row now fresh_id e name
                (pbkdf2_hmac_sha256_hex p fresh_salt) fresh_salt].
Proof.
  intros Hv Hd Hreg Hid. unfold run.
  rewrite (create_user_run _ _ _ _ _ _ _ Hv Hd Hreg Hid). cbn [snd].
  now destruct (is_some (upload_folder w !! fresh_id)).
Qed.

Lemma find_email_new w e row :
  registered w e = false -> email row = e ->
  find (fun u => String.eqb (email u) e) (users w ++ [row]) = Some row.
Proof.
  unfold registered. intros Hreg He.
  induction (users w) as [|u l IH]; cbn [app find existsb] in *.
  - now rewrite He, String.eqb_refl.
  - apply orb_false_elim in Hreg as [-> Hl]. now apply IH.
Qed.

(** A user that create_user has just stored authenticates with the
    passcode it was created with, and with no passcode that PBKDF2 tells
    apart from it under the stored salt. *)
Lemma created_user_authenticates now fresh_id fresh_salt name e p w :
  is_valid_email e = true -> six_digits p = true ->
  registered w e = false -> user_id_taken w fresh_id = false ->
  result (get_user_by_email_password e p)
    (run (create_user now fresh_id fresh_salt name e p) w) =
    Some (mk_auth_user fresh_id e name now)
  /\ forall p',
       pbkdf2_hmac_sha256_hex p' fresh_salt <> pbkdf2_hmac_sha256_hex p fresh_salt ->
       result (get_user_by_email_password e p')
         (run (create_user now fresh_id fresh_salt name e p) w) = None.
Proof.
  intros Hv Hd Hreg Hid.
  pose proof (users_after_create_user now fresh_id fresh_salt name e p w Hv Hd Hreg Hid) as Hu.
  unfold result. split; [|intros p' Hne]; rewrite get_user_run; cbn [fst];
    unfold auth_result;
    rewrite Hu, (find_email_new w e (new_user_row now fresh_id e name
                   (pbkdf2_hmac_sha256_hex p fresh_salt) fresh_salt) Hreg eq_refl);
    cbn [new_user_row salt password_hash user_id email full_name created_at].
  - now rewrite String.eqb_refl.
  - now apply String.eqb_neq in Hne as ->.
Qed.

(** ** Requests that leave the session bookkeeping alone *)



Lemma same_sessions_logs es w : same_sessions w (logs es w).
Proof.
  destruct (logs_fields es w) as (_ & Hr & _ & Hb & _ & Hf & _).
  repeat split; try assumption.
  intros uid sid. unfold session_folder. now rewrite Hf.
Qed.

Lemma same_sessions_log e w : same_sessions w (log e w).
Proof. apply (same_sessions_logs [e]). Qed.











(** What the authentication gate does before it hands over to [f]. *)
Lemma require_auth_run now data f w :
  require_auth now data f w =
  if no_data data then (error "No data provided" 400, w)
  else if negb (str_nonempty (str_strip (field data "email" ""))) ||
          negb (str_nonempty (str_strip (field data "password" "")))
  then (error "Email and password required" 400, w)
  else if negb (six_digits (str_strip (field data "password" "")))
  then (error "Password must be exactly 6 digits" 400, w)
  else
    match auth_result w (str_strip (field data "email" ""))
            (str_strip (field data "password" "")) with
    | None =>
        (error "Invalid email or password" 401,
         logs (auth_events w (str_strip (field data "email" ""))
                 (str_strip (field data "password" ""))) w)
    | Some u =>
        f u (run (update_last_login now (au_user_id u))
               (logs (auth_events w (str_strip (field data "email" ""))
                        (str_strip (field data "password" ""))) w))
    end.
Proof.
  unfold require_auth.
  destruct (no_data data); [reflexivity|].
  destruct (_ || _); [reflexivity|].
  destruct (six_digits _); cbn [negb]; [|reflexivity].
  unfold bind at 1. rewrite get_user_run.
  now destruct (auth_result _ _ _).
Qed.


(** ** Session folders under makedirs, save and rmtree *)

Lemma session_folder_put uid d (files : gmap string bytes) w uid' sid' :
  session_folder
    (set_folder (fun fs => <[uid := <[d := files]> (default ∅ (fs !! uid))]> fs) w) uid' sid' =
  if decide (uid' = uid /\ dir_name sid' = d) then Some files else session_folder w uid' sid'.
Proof.
  unfold session_folder. cbn [set_folder upload_folder].
  destruct (decide (uid' = uid)) as [->|Hu].
  - rewrite lookup_insert_eq.
    destruct (decide (dir_name sid' = d)) as [->|Hd].
    + rewrite lookup_insert_eq. now rewrite decide_True.
    + rewrite lookup_insert_ne by congruence.
      rewrite decide_False by tauto.
      destruct (upload_folder w !! uid); [reflexivity|apply lookup_empty].
  - rewrite lookup_insert_ne by congruence. now rewrite decide_False by tauto.
Qed.

Lemma session_folder_remove uid d w uid' sid' :
  session_folder
    (set_folder (fun fs => <[uid := delete d (default ∅ (fs !! uid))]> fs) w) uid' sid' =
  if decide (uid' = uid /\ dir_name sid' = d) then None else session_folder w uid' sid'.
Proof.
  unfold session_folder. cbn [set_folder upload_folder].
  destruct (decide (uid' = uid)) as [->|Hu].
  - rewrite lookup_insert_eq.
    destruct (decide (dir_name sid' = d)) as [->|Hd].
    + rewrite lookup_delete_eq. now rewrite decide_True.
    + rewrite lookup_delete_ne by congruence.
      rewrite decide_False by tauto.
      destruct (upload_folder w !! uid); [reflexivity|apply lookup_empty].
  - rewrite lookup_insert_ne by congruence. now rewrite decide_False by tauto.
Qed.

Lemma folders_kept_trans w1 w2 w3 :
  folders_kept w1 w2 -> folders_kept w2 w3 -> folders_kept w1 w3.
Proof. intros H12 H23 uid sid H. now apply H23, H12. Qed.

Lemma folders_kept_same w w' : same_sessions w w' -> folders_kept w w'.
Proof. intros (_ & Hf & _) uid sid. now rewrite Hf. Qed.

Lemma folders_kept_put uid d files w :
  folders_kept w
    (set_folder (fun fs => <[uid := <[d := files]> (default ∅ (fs !! uid))]> fs) w).
Proof.
  intros uid' sid' H. rewrite session_folder_put. now destruct (decide _).
Qed.

Lemma folders_kept_save uid sid name data o w :
  folders_kept w (run (save uid sid name data o) w).
Proof.
  destruct o as [|[part|]]; unfold run, save; run_handler.
  - eapply folders_kept_trans; [apply folders_kept_same, same_sessions_log|].
    apply folders_kept_put.
  - eapply folders_kept_trans; [apply folders_kept_same, same_sessions_log|].
    apply folders_kept_put.
  - apply folders_kept_same, same_sessions_log.
Qed.

Lemma folders_kept_before_save now uid sid es w :
  folders_kept w
    (run (has_folder <- gets (fun w => is_some (session_folder w uid sid)) ;;
          if has_folder then ret tt
          else makedirs uid sid ;; insert_session now uid sid) (logs es w)).
Proof.
  unfold run. unfold bind at 1, gets.
  destruct (is_some (session_folder (logs es w) uid sid)); cbn [snd ret].
  - apply folders_kept_same, same_sessions_logs.
  - unfold makedirs, insert_session. run_handler.
    eapply folders_kept_trans; [apply folders_kept_same, same_sessions_logs|].
    eapply folders_kept_trans; [apply folders_kept_same, same_sessions_log|].
    eapply folders_kept_trans; [apply folders_kept_put|].
    intros uid' sid' H. exact H.
Qed.


(** ** Session rows under the statements that touch them *)


Lemma session_rows_raise n uid sid uid' sid' l :
  length (List.filter (same_session uid' sid') (map (raise_chunk_count n uid sid) l)) =
  length (List.filter (same_session uid' sid') l).
Proof.
  induction l as [|r l IH]; [reflexivity|]. cbn [map List.filter].
  assert (same_session uid' sid' (raise_chunk_count n uid sid r) = same_session uid' sid' r)
    as ->.
  { unfold raise_chunk_count. now destruct (same_session uid sid r). }
  destruct (same_session uid' sid' r); cbn [length]; now rewrite IH.
Qed.




(** ** The bookkeeping invariant *)




(** What an upload that reaches the write does to the rows and folders
    of every session. *)
Lemma upload_effect now ct form files o u file w :
  upload_ready w ct form files u file ->
  (forall uid' sid',
     length (session_rows (run (upload_video now ct form files o) w) uid' sid') =
     (length (session_rows w uid' sid') +
      length (List.filter (same_session uid' sid')
                (new_session_rows w now (au_user_id u)
                   (stripped (Some form) "session_id"))))%nat)
  /\ folders_kept w (run (upload_video now ct form files o) w)
  /\ is_some (session_folder (run (upload_video now ct form files o) w)
                (au_user_id u) (stripped (Some form) "session_id")) = true.
Proof.
  intros Hready.
  pose proof (upload_leaves_folder now ct form files u file o w Hready) as Hdir.
  rewrite (upload_video_world _ _ _ _ _ _ _ _ Hready) in *.
  set (uid := au_user_id u) in *. set (sid := stripped (Some form) "session_id") in *.
  set (name := chunk_filename now (chunk_number_of form)) in *.
  pose proof (sessions_before_save now uid sid
    (auth_events w (canonical_email (Some form)) (stripped (Some form) "password")) w) as Hrows.
  pose proof (folders_kept_before_save now uid sid
    (auth_events w (canonical_email (Some form)) (stripped (Some form) "password")) w) as Hkept.
  set (w2 := run _ (logs _ w)) in *.
  pose proof (folders_kept_save uid sid name (content file) o w2) as Hkept'.
  pose proof (sessions_after_save uid sid name (content file) o w2) as Hrows'.
  split; [|split].
  - intros uid' sid'.
    assert (Hcount : length (List.filter (same_session uid' sid') (recording_sessions w2)) =
              (length (session_rows w uid' sid') +
               length (List.filter (same_session uid' sid')
                         (new_session_rows w now uid sid)))%nat).
    { unfold session_rows. now rewrite Hrows, List.filter_app, length_app. }
    destruct o as [|part].
    + unfold session_rows at 1.
      change (recording_sessions (run (update_last_login now uid) ?w0))
        with (recording_sessions w0).
      rewrite sessions_after_try_update, Hrows', <- Hcount.
      destruct (py_int _) as [n|]; [destruct (sqlite_int n)|]; try reflexivity.
      apply session_rows_raise.
    + unfold session_rows at 1. now rewrite Hrows', <- Hcount.
  - destruct o as [|part].
    + intros uid' sid' H.
      change (session_folder (run (update_last_login now uid) ?w0) uid' sid')
        with (session_folder w0 uid' sid').
      rewrite session_folder_after_try_update. now apply Hkept', Hkept.
    + eapply folders_kept_trans; eassumption.
  - exact Hdir.
Qed.

(** An upload that reaches the write adds a row for its session exactly
    when the session folder is not there yet, and leaves the folder in
    place whatever becomes of the write: the same upload asked again adds
    no row. *)
Lemma upload_adds_row_with_folder now now' ct form files u file o w :
  upload_ready w ct form files u file ->
  length (session_rows (run (upload_video now ct form files o) w)
            (au_user_id u) (stripped (Some form) "session_id")) =
  (length (session_rows w (au_user_id u) (stripped (Some form) "session_id")) +
   length (new_session_rows w now (au_user_id u) (stripped (Some form) "session_id")))%nat
  /\ new_session_rows (run (upload_video now ct form files o) w) now'
       (au_user_id u) (stripped (Some form) "session_id") = [].
Proof.
  intros Hready.
  destruct (upload_effect now ct form files o u file w Hready) as (Hlen & _ & Hdir).
  split.
  - now rewrite Hlen, new_session_rows_same.
  - unfold new_session_rows. now rewrite Hdir.
Qed.


Lemma delete_video_world o d user w :
  str_nonempty (dict_get d "session_id" "") = true ->
  is_some (session_folder w (au_user_id user) (dict_get d "session_id" "")) = true ->
  run (delete_video o (Some d) user) w =
  match o with
  | Removed =>
      run (delete_session (au_user_id user) (dict_get d "session_id" ""))
        (run (rmtree (au_user_id user) (dict_get d "session_id" "") Removed) w)
  | RmFailed removed msg =>
      run (rmtree (au_user_id user) (dict_get d "session_id" "") (RmFailed removed msg)) w
  end.
Proof.
  intros Hsid Hdir. unfold run at 1. unfold delete_video. rewrite Hsid. cbn [negb].
  unfold bind at 1, gets. rewrite Hdir. now destruct o.
Qed.

Lemma session_folder_rmtree uid sid w uid' sid' :
  session_folder (run (rmtree uid sid Removed) w) uid' sid' =
  if decide (uid' = uid /\ dir_name sid' = dir_name sid) then None
  else session_folder w uid' sid'.
Proof.
  unfold run, rmtree. run_handler.
  apply (session_folder_remove uid (dir_name sid) (log (EvRmtree uid sid true) w)).
Qed.




(** ** Housekeeping of login_attempts *)





(** ** Registration, then login *)

Lemma create_user_inl now fresh_id fresh_salt name e p w uid :
  result (create_user now fresh_id fresh_salt name e p) w = inl uid ->
  uid = fresh_id /\ is_valid_email e = true /\ six_digits p = true /\
  registered w e = false /\ user_id_taken w fresh_id = false.
Proof.
  unfold result, create_user.
  destruct (is_valid_email e); cbn [negb]; [|discriminate].
  destruct (six_digits p); cbn [negb]; [|discriminate].
  unfold bind at 1. unfold email_registered, gets. fold (registered w e).
  destruct (registered w e) eqn:Hreg; [discriminate|].
  unfold bind at 1. rewrite hash_password_drawn. cbn [fst snd default].
  unfold bind at 1. rewrite insert_user_run.
  cbn [users log new_user_row user_id email].
  rewrite (taken_when_email_free _ _ _ Hreg).
  destruct (user_id_taken w fresh_id); [discriminate|].
  run_handler. destruct (is_some _); cbn [fst]; intros [= <-]; repeat split.
Qed.






(** ** The authentication gate *)

Lemma six_digits_nonempty p : six_digits p = true -> str_nonempty p = true.
Proof.
  unfold six_digits. intros [Hlen _]%andb_prop. now destruct p.
Qed.

(** The gate answers by the credentials alone.  When the body is missing,
    the passcode is not six digits or no stored digest matches, the
    wrapped handler is not run (the answer is the same whatever the
    handler), the answer is a 400 or a 401, and no table or folder
    changes: in particular the failure is not recorded as a login attempt.
    When the credentials match, the handler runs for the matching
    account, whatever the failures on record for the email, on a state
    with the same attempts, session rows and folders. *)
Theorem require_auth_guards now data (f : auth_user -> M response) w :
  ((no_data data = true \/ six_digits (stripped data "password") = false \/
    auth_result w (stripped data "email") (stripped data "password") = None) ->
   (forall g : auth_user -> M response,
      require_auth now data g w = require_auth now data f w)
   /\ (status_of (result (require_auth now data f) w) = 400 \/
       status_of (result (require_auth now data f) w) = 401)
   /\ users (run (require_auth now data f) w) = users w
   /\ login_attempts (run (require_auth now data f) w) = login_attempts w
   /\ recording_sessions (run (require_auth now data f) w) = recording_sessions w
   /\ upload_folder (run (require_auth now data f) w) = upload_folder w)
  /\
  (forall u,
     no_data data = false -> str_nonempty (stripped data "email") = true ->
     six_digits (stripped data "password") = true ->
     auth_result w (stripped data "email") (stripped data "password") = Some u ->
     exists w0,
       require_auth now data f w = f u w0
       /\ login_attempts w0 = login_attempts w
       /\ recording_sessions w0 = recording_sessions w
       /\ upload_folder w0 = upload_folder w).
Proof.
  split.
  - intros Hfail.
    assert (Hrun : forall g : auth_user -> M response,
      require_auth now data g w =
      if no_data data then (error "No data provided" 400, w)
      else if negb (str_nonempty (stripped data "email")) ||
              negb (str_nonempty (stripped data "password"))
      then (error "Email and password required" 400, w)
      else if negb (six_digits (stripped data "password"))
      then (error "Password must be exactly 6 digits" 400, w)
      else (error "Invalid email or password" 401,
            logs (auth_events w (stripped data "email") (stripped data "password")) w)).
    { intros g. rewrite require_auth_run. fold (stripped data "email").
      fold (stripped data "password").
      destruct (no_data data); [reflexivity|].
      destruct (_ || _); [reflexivity|].
      destruct (six_digits _); cbn [negb]; [|reflexivity].
      destruct Hfail as [Hf|[Hf|Hf]]; [discriminate..|]. now rewrite Hf. }
    split; [intros g; now rewrite !Hrun|].
    unfold result, run. rewrite Hrun.
    destruct (no_data data); [cbn; tauto|].
    destruct (_ || _); [cbn; tauto|].
    destruct (negb _); [cbn; tauto|]. cbn [fst snd error status_of].
    destruct (logs_fields (auth_events w (stripped data "email") (stripped data "password")) w)
      as (-> & -> & -> & _ & _ & -> & _).
    tauto.
  - intros u Hd He Hs Hauth. rewrite require_auth_run.
    fold (stripped data "email"). fold (stripped data "password").
    rewrite Hd, He, (six_digits_nonempty _ Hs), Hs, Hauth. cbn [negb orb].
    eexists. split; [reflexivity|].
    change (login_attempts (run (update_last_login now (au_user_id u)) ?w0))
      with (login_attempts w0).
    change (recording_sessions (run (update_last_login now (au_user_id u)) ?w0))
      with (recording_sessions w0).
    change (upload_folder (run (update_last_login now (au_user_id u)) ?w0))
      with (upload_folder w0).
    destruct (logs_fields (auth_events w (stripped data "email") (stripped data "password")) w)
      as (_ & -> & -> & _ & _ & -> & _).
    repeat split.
Qed.

(** ** Subscriptions *)

Lemma length_split_on sep s : length (split_on sep s) = S (count_char sep s).
Proof.
  induction s as [|a s IH]; [reflexivity|].
  cbn [split_on count_char]. rewrite Ascii.eqb_sym.
  destruct (Ascii.eqb sep a); cbn [length].
  - now rewrite IH.
  - destruct (split_on sep s); [discriminate IH|]. cbn [length] in *. lia.
Qed.

(** verify_app_store_receipt accepts exactly the texts of ten characters
    or more that hold two dots: three dot-separated parts, none of which
    is looked at. *)
Theorem receipt_accepted_iff transaction_jws :
  fst (verify_app_store_receipt transaction_jws) = true <->
  (10 <= String.length transaction_jws)%nat /\ count_char "." transaction_jws = 2%nat.
Proof.
  unfold verify_app_store_receipt. rewrite length_split_on.
  destruct transaction_jws as [|a s]; [cbn; split; [discriminate|lia]|].
  cbn [str_nonempty negb orb].
  destruct (Nat.ltb_spec (String.length (String a s)) 10) as [Hlt|Hge].
  - cbn [fst]. split; [discriminate|lia].
  - destruct (Nat.eqb_spec (S (count_char "." (String a s))) 3) as [Heq|Hne]; cbn [negb fst].
    + split; [intros _; split; lia|reflexivity].
    + split; [discriminate|lia].
Qed.

Lemma tier_of_after_update uid (f : user_row -> user_row) t l :
  existsb (fun u => String.eqb (user_id u) uid) l = true ->
  (forall u, user_id (f u) = user_id u) ->
  (forall u, subscription_tier (f u) = Some t) ->
  str_nonempty t = true ->
  tier_of uid (map (fun u => if String.eqb (user_id u) uid then f u else u) l) = t.
Proof.
  intros Hin Hid Ht Hne. unfold tier_of.
  induction l as [|a l IH]; [discriminate|].
  cbn [map find existsb] in *.
  destruct (String.eqb (user_id a) uid) eqn:Ha.
  - rewrite Hid, Ha, Ht. now rewrite Hne.
  - rewrite Ha. cbn [orb] in Hin. now apply IH.
Qed.

Lemma other_users_after_update uid (f : user_row -> user_row) l :
  (forall u, user_id (f u) = user_id u) ->
  other_users uid (map (fun u => if String.eqb (user_id u) uid then f u else u) l) =
  other_users uid l.
Proof.
  intros Hid. unfold other_users.
  induction l as [|a l IH]; [reflexivity|].
  cbn [map List.filter].
  destruct (String.eqb (user_id a) uid) eqn:Ha.
  - rewrite Hid, Ha. cbn [negb]. exact IH.
  - rewrite Ha. cbn [negb]. now rewrite IH.
Qed.

Lemma storage_info_limit user w :
  body_field "storage_limit" (result (get_storage_info user) w) =
  Some (JInt (get_storage_limit_for_tier (tier_of (au_user_id user) (users w)))).
Proof. reflexivity. Qed.

Lemma accepted_tier_valid data :
  In (accepted_tier data) valid_tiers /\ str_nonempty (accepted_tier data) = true.
Proof.
  unfold accepted_tier.
  destruct (existsb _ valid_tiers) eqn:Hv; [|cbn; tauto].
  apply existsb_exists in Hv as (t & Hin & ->%String.eqb_eq).
  split; [exact Hin|].
  cbn in Hin. destruct Hin as [<-|[<-|[<-|[]]]]; reflexivity.
Qed.

(** /update_subscription stores one of free, premium and pro: the tier of
    the body when it is one of the three, free otherwise.  It rewrites the
    rows of the account only, and from then on /storage_info reports the
    limit of the stored tier.  A receipt that verify_app_store_receipt
    turns down leaves everything as it was (400). *)
Theorem update_subscription_stores_valid_tier data user w :
  no_data data = false ->
  ((str_nonempty (field data "transaction_jws" "") = true ->
    fst (verify_app_store_receipt (field data "transaction_jws" "")) = true) ->
   In (accepted_tier data) valid_tiers
   /\ status_of (result (update_subscription data user) w) = 200
   /\ body_field "tier" (result (update_subscription data user) w) =
      Some (JStr (accepted_tier data))
   /\ other_users (au_user_id user) (users (run (update_subscription data user) w)) =
      other_users (au_user_id user) (users w)
   /\ (user_id_taken w (au_user_id user) = true ->
       tier_of (au_user_id user) (users (run (update_subscription data user) w)) =
       accepted_tier data
       /\ body_field "storage_limit"
            (result (get_storage_info user) (run (update_subscription data user) w)) =
          Some (JInt (get_storage_limit_for_tier (accepted_tier data)))))
  /\
  (str_nonempty (field data "transaction_jws" "") = true ->
   fst (verify_app_store_receipt (field data "transaction_jws" "")) = false ->
   update_subscription data user w = (error "Invalid subscription receipt" 400, w)).
Proof.
  intros Hd. split.
  - intros Hreceipt.
    assert (Hrun : update_subscription data user w =
      (subscription_updated (accepted_tier data)
         (if existsb (String.eqb (field data "subscription_tier" "free")) valid_tiers
          then match data ≫= (fun d => d !! "storage_limit") with
               | Some s => JStr s
               | None => JInt 1200
               end
          else JInt 1200)
         (field data "expires_at" ""),
       set_users (map (fun u =>
         if String.eqb (user_id u) (au_user_id user)
         then with_subscription (accepted_tier data)
                (if str_nonempty (field data "expires_at" "")
                 then Some (field data "expires_at" "") else None) u
         else u)) w)).
    { unfold update_subscription. rewrite Hd.
      destruct (str_nonempty (field data "transaction_jws" "")) eqn:Hj; cbn [andb].
      - now rewrite (Hreceipt eq_refl).
      - reflexivity. }
    destruct (accepted_tier_valid data) as (Hin & Hne).
    pose proof (f_equal fst Hrun) as Hres. pose proof (f_equal snd Hrun) as Hw.
    cbn [fst snd] in Hres, Hw. fold (result (update_subscription data user) w) in Hres.
    fold (run (update_subscription data user) w) in Hw.
    rewrite Hres, Hw. cbn [set_users users].
    split; [exact Hin|]. split; [reflexivity|]. split; [reflexivity|].
    split; [now apply other_users_after_update|].
    intros Htaken.
    assert (Htier : tier_of (au_user_id user)
      (map (fun u =>
         if String.eqb (user_id u) (au_user_id user)
         then with_subscription (accepted_tier data)
                (if str_nonempty (field data "expires_at" "")
                 then Some (field data "expires_at" "") else None) u
         else u) (users w)) = accepted_tier data).
    { apply tier_of_after_update; [exact Htaken|reflexivity|reflexivity|exact Hne]. }
    split; [exact Htier|].
    rewrite storage_info_limit. do 3 f_equal. exact Htier.
  - intros Hj Hbad. unfold update_subscription. now rewrite Hd, Hj, Hbad.
Qed.

(** ** Stored chunks: upload, download, delete *)

Lemma string_length_app s t :
  String.length (s +:+ t) = (String.length s + String.length t)%nat.
Proof. induction s as [|a s IH]; simpl; [reflexivity|now f_equal]. Qed.

Lemma substring_skip s n k t :
  substring (String.length s + n) k (s +:+ t) = substring n k t.
Proof. induction s as [|a s IH]; [reflexivity|exact IH]. Qed.

Lemma endswith_app suffix s t :
  endswith suffix t = true -> endswith suffix (s +:+ t) = true.
Proof.
  unfold endswith. intros [Hle Heq]%andb_prop. apply Nat.leb_le in Hle.
  rewrite string_length_app. apply andb_true_intro. split; [apply Nat.leb_le; lia|].
  replace (String.length s + String.length t - String.length suffix)%nat
    with (String.length s + (String.length t - String.length suffix))%nat by lia.
  now rewrite substring_skip.
Qed.

Lemma chunk_filename_mov now chunk_number :
  endswith ".mov" (chunk_filename now chunk_number) = true.
Proof.
  unfold chunk_filename. do 3 apply endswith_app.
  apply (endswith_app ".mov" (strftime now) ".mov"). reflexivity.
Qed.

Lemma stored_file_after_write uid sid name data w :
  stored_file (write_file uid sid name data w) uid sid name = Some data.
Proof.
  unfold stored_file, session_folder, write_file. cbn [set_folder upload_folder].
  now rewrite !lookup_insert_eq.
Qed.

Lemma upload_video_saved now ct form files u file w :
  upload_ready w ct form files u file ->
  result (upload_video now ct form files Saved) w =
  upload_ok (chunk_filename now (chunk_number_of form)) (stripped (Some form) "session_id")
    (chunk_number_of form) (Z.of_nat (length (content file))).
Proof.
  intros Hready. unfold result. rewrite (upload_video_run _ _ _ _ _ _ _ _ Hready).
  unfold save, update_last_login. run_handler.
  now destruct (try_update_chunk_count _ _ _ _) as [[] w3].
Qed.

Lemma elem_of_mov_files (files : gmap string bytes) f :
  f ∈ mov_files files <-> endswith ".mov" f = true /\ is_Some (files !! f).
Proof.
  unfold mov_files. rewrite merge_sort_Permutation, list_elem_of_In, filter_In.
  rewrite <- list_elem_of_In, list_elem_of_fmap. split.
  - intros ((( k & v) & -> & Hkv%elem_of_map_to_list) & Hmov). cbn [fst] in *.
    split; [exact Hmov|]. now exists v.
  - intros (Hmov & v & Hv). split; [|exact Hmov].
    exists (f, v). split; [reflexivity|]. now apply elem_of_map_to_list.
Qed.

(** Upload and download round trip: a chunk that /upload has stored is
    served by /download_chunk under the file name the upload returned,
    byte for byte, and /download/<session_id> lists that name. *)
Theorem uploaded_chunk_downloads now ct form files u file w :
  upload_ready w ct form files u file ->
  body_field "filename" (result (upload_video now ct form files Saved) w) =
    Some (JStr (chunk_filename now (chunk_number_of form)))
  /\ result (download_chunk (au_user_id u) (stripped (Some form) "session_id")
               (chunk_filename now (chunk_number_of form)))
       (run (upload_video now ct form files Saved) w) =
     Stream (content file)
       (chunk_headers (chunk_filename now (chunk_number_of form)) (content file))
  /\ exists stored,
       session_folder (run (upload_video now ct form files Saved) w)
         (au_user_id u) (stripped (Some form) "session_id") = Some stored
       /\ chunk_filename now (chunk_number_of form) ∈ mov_files stored.
Proof.
  intros Hready.
  set (uid := au_user_id u). set (sid := stripped (Some form) "session_id").
  set (name := chunk_filename now (chunk_number_of form)).
  assert (Hfile : stored_file (run (upload_video now ct form files Saved) w) uid sid name =
                  Some (content file)).
  { rewrite (upload_video_world _ _ _ _ _ _ _ _ Hready).
    unfold stored_file.
    change (session_folder (run (update_last_login now (au_user_id u)) ?w0) uid sid)
      with (session_folder w0 uid sid).
    rewrite session_folder_after_try_update.
    apply (stored_file_after_write uid sid name (content file)). }
  split; [now rewrite (upload_video_saved _ _ _ _ _ _ _ Hready)|].
  split.
  - unfold result, download_chunk. run_handler. now rewrite Hfile.
  - unfold stored_file in Hfile.
    destruct (session_folder _ uid sid) as [stored|]; [|discriminate].
    exists stored. split; [reflexivity|].
    apply elem_of_mov_files. split; [apply chunk_filename_mov|]. now exists (content file).
Qed.

(** After /delete has removed a session, none of its chunks is served:
    /download_chunk answers 404 for every file name and /download answers
    404, under the session id of the request and under every other name of
    the same folder. *)
Theorem deleted_session_not_served (d : gmap string string) (user : auth_user) (w : world) :
  str_nonempty (dict_get d "session_id" "") = true ->
  is_some (session_folder w (au_user_id user) (dict_get d "session_id" "")) = true ->
  forall sid', dir_name sid' = dir_name (dict_get d "session_id" "") ->
    (forall name,
       result (download_chunk (au_user_id user) sid' name)
         (run (delete_video Removed (Some d) user) w) = Text "Chunk not found" 404)
    /\ (forall base_url,
          result (download_video base_url sid' user)
            (run (delete_video Removed (Some d) user) w) = error "Video not found" 404).
Proof.
  intros Hsid Hdir sid' Halias.
  assert (Hgone : session_folder (run (delete_video Removed (Some d) user) w)
                    (au_user_id user) sid' = None).
  { rewrite (delete_video_world Removed d user w Hsid Hdir).
    change (session_folder (run (delete_session ?a ?b) ?w0) ?x ?y)
      with (session_folder w0 x y).
    rewrite session_folder_rmtree. now rewrite decide_True. }
  split.
  - intros name. unfold result, download_chunk, stored_file. run_handler. now rewrite Hgone.
  - intros base_url. unfold result, download_video. run_handler. now rewrite Hgone.
Qed.

(** ** /download/<session_id> *)

Lemma filter_map_fst {A B} (p : A -> bool) (l : list (A * B)) :
  List.filter p (map fst l) = map fst (List.filter (fun kv => p (fst kv)) l).
Proof.
  induction l as [|kv l IH]; [reflexivity|].
  cbn [map List.filter]. destruct (p (fst kv)); cbn [map]; now rewrite IH.
Qed.

Lemma length_mov_files (files : gmap string bytes) :
  Z.of_nat (length (mov_files files)) = count_mov files.
Proof.
  unfold mov_files, count_mov.
  rewrite (Permutation_length (merge_sort_Permutation String.le _)).
  now rewrite filter_map_fst, length_map.
Qed.

Lemma NoDup_mov_files (files : gmap string bytes) : NoDup (mov_files files).
Proof.
  unfold mov_files. rewrite merge_sort_Permutation.
  apply NoDup_ListNoDup, List.NoDup_filter, NoDup_ListNoDup, NoDup_fst_map_to_list.
Qed.

(** /download/<session_id> for a session whose folder exists.  It lists
    the .mov files of the folder, each once, in ascending order of their
    names, and counts them in total_chunks; every file it lists is one
    /download_chunk serves with the stored content; and when the folder
    holds no .mov file the answer is 404. *)
Theorem download_video_lists_served_chunks base_url sid user w files :
  session_folder w (au_user_id user) sid = Some files ->
  (count_mov files = 0 ->
   result (download_video base_url sid user) w = error "No video files found" 404)
  /\ (count_mov files <> 0 ->
      result (download_video base_url sid user) w =
      Json (JObj [
        ("chunks", JArr (imap (chunk_entry base_url (au_user_id user) sid) (mov_files files)));
        ("total_chunks", JInt (count_mov files));
        ("session_id", JStr sid)]) 200)
  /\ StronglySorted String.le (mov_files files)
  /\ NoDup (mov_files files)
  /\ (forall f, f ∈ mov_files files <-> endswith ".mov" f = true /\ is_Some (files !! f))
  /\ (forall f, f ∈ mov_files files ->
        exists data,
          files !! f = Some data
          /\ result (download_chunk (au_user_id user) sid f) w =
             Stream data (chunk_headers f data)).
Proof.
  intros Hdir.
  assert (Hrun : result (download_video base_url sid user) w =
    match mov_files files with
    | [] => error "No video files found" 404
    | _ => Json (JObj [
        ("chunks", JArr (imap (chunk_entry base_url (au_user_id user) sid) (mov_files files)));
        ("total_chunks", JInt (Z.of_nat (length (mov_files files))));
        ("session_id", JStr sid)]) 200
    end).
  { unfold result, download_video. run_handler. rewrite Hdir.
    now destruct (mov_files files). }
  pose proof (length_mov_files files) as Hlen.
  split; [|split; [|split; [|split; [|split]]]].
  - intros H0. rewrite Hrun. destruct (mov_files files); [reflexivity|].
    cbn [length] in Hlen. lia.
  - intros Hn. rewrite Hrun, Hlen. destruct (mov_files files); [|reflexivity].
    cbn [length] in Hlen. lia.
  - apply StronglySorted_merge_sort; apply _.
  - apply NoDup_mov_files.
  - apply elem_of_mov_files.
  - intros f [_ [data Hf]]%elem_of_mov_files. exists data. split; [exact Hf|].
    unfold result, download_chunk, stored_file. run_handler. now rewrite Hdir, Hf.
Qed.

(** ** /videos *)

Lemma sum_permutation (l l' : list Z) :
  l ≡ₚ l' -> fold_right Z.add 0 l = fold_right Z.add 0 l'.
Proof.
  induction 1 as [|x l l' _ IH|x y l|l l' l'' _ IH1 _ IH2]; cbn [fold_right]; lia.
Qed.

Lemma length_omap_le {A B} (f : A -> option B) (l : list A) :
  (length (omap f l) <= length l)%nat.
Proof.
  induction l as [|a l IH]; [reflexivity|].
  cbn [omap list_omap]. destruct (f a); cbn [length]; lia.
Qed.

Lemma listed_chunk_counts fmt w uid (l : list session_row) :
  fold_right Z.add 0 (omap (json_int "chunk_count") (omap (video_entry fmt w uid) l)) =
  fold_right Z.add 0 (map (fun r => chunk_files w uid (s_session_id r)) l).
Proof.
  induction l as [|r l IH]; [reflexivity|].
  cbn [omap list_omap map fold_right]. unfold video_entry at 1, chunk_files at 1.
  destruct (session_folder w uid (s_session_id r)) as [files|]; [|exact IH].
  cbn [omap list_omap fold_right]. unfold json_int at 1. cbn [json_field find fst snd].
  rewrite <- IH. reflexivity.
Qed.

Lemma storage_info_used user w :
  body_field "storage_used" (result (get_storage_info user) w) =
  Some (JInt (total_storage w (au_user_id user)
    (if is_some (upload_folder w !! au_user_id user)
     then sessions_of (au_user_id user) (recording_sessions w) else [])))
  /\ body_field "video_count" (result (get_storage_info user) w) =
     Some (JInt (Z.of_nat (length
       (if is_some (upload_folder w !! au_user_id user)
        then sessions_of (au_user_id user) (recording_sessions w) else [])))).
Proof. split; reflexivity. Qed.

(** /videos and /storage_info agree, in whatever order the database
    returns the rows: /videos lists the sessions recorded for the user
    whose folder exists, each with the number of .mov files in the folder
    (not the chunk_count column), and the usage /storage_info reports is
    15 seconds for every chunk so listed; video_count of /storage_info
    counts the rows, and so is at least the number of videos listed. *)
Theorem videos_match_storage_info
    (order_by_created_desc : list session_row -> list session_row)
    (format_created : Z -> string) user w :
  (forall l, order_by_created_desc l ≡ₚ l) ->
  body_field "storage_used" (result (get_storage_info user) w) =
    Some (JInt (15 * fold_right Z.add 0
      (omap (json_int "chunk_count")
         (body_items "videos"
            (result (list_videos order_by_created_desc format_created user) w)))))
  /\ (exists n,
        body_field "video_count" (result (get_storage_info user) w) = Some (JInt n)
        /\ Z.of_nat (length (body_items "videos"
             (result (list_videos order_by_created_desc format_created user) w))) <= n)
  /\ (forall v,
        v ∈ body_items "videos"
              (result (list_videos order_by_created_desc format_created user) w) ->
        exists sid files,
          json_str "session_id" v = Some sid
          /\ session_rows w (au_user_id user) sid <> []
          /\ session_folder w (au_user_id user) sid = Some files
          /\ json_int "chunk_count" v = Some (count_mov files)).
Proof.
  intros Hperm.
  set (uid := au_user_id user).
  set (rows := List.filter (fun r => String.eqb (s_user_id r) uid) (recording_sessions w)).
  assert (Hlist : body_items "videos"
            (result (list_videos order_by_created_desc format_created user) w) =
          if is_some (upload_folder w !! uid)
          then omap (video_entry format_created w uid) (order_by_created_desc rows)
          else []).
  { unfold result, list_videos. run_handler. fold uid.
    now destruct (is_some (upload_folder w !! uid)). }
  rewrite Hlist.
  destruct (storage_info_used user w) as (-> & ->). fold uid.
  destruct (is_some (upload_folder w !! uid)) eqn:Hf.
  - split; [|split].
    + rewrite total_storage_sum, listed_chunk_counts.
      rewrite (sum_permutation _ _ (Permutation_map _ (Hperm rows))).
      unfold sessions_of. fold rows. now rewrite map_map.
    + eexists. split; [reflexivity|].
      unfold sessions_of. fold rows. rewrite length_map.
      pose proof (length_omap_le (video_entry format_created w uid)
                    (order_by_created_desc rows)) as Hle.
      rewrite (Permutation_length (Hperm rows)) in Hle. lia.
    + intros v (r & Hr & Hv)%list_elem_of_omap.
      rewrite (Hperm rows) in Hr.
      apply list_elem_of_In, filter_In in Hr as (Hin & Huid).
      unfold video_entry in Hv.
      destruct (session_folder w uid (s_session_id r)) as [files|] eqn:Hdir; [|discriminate].
      injection Hv as <-. exists (s_session_id r), files.
      split; [reflexivity|]. split; [|split; [exact Hdir|reflexivity]].
      intros Hnil.
      assert (Hrow : In r (session_rows w uid (s_session_id r))).
      { apply filter_In. split; [exact Hin|].
        unfold same_session. now rewrite Huid, String.eqb_refl. }
      rewrite Hnil in Hrow. destruct Hrow.
  - split; [reflexivity|]. split.
    + eexists. split; [reflexivity|]. cbn. lia.
    + intros v Hv. inversion Hv.
Qed.

(** ** Legacy accounts: availability and repetition *)

Lemma migrate_pin_user_bad_request now fresh data w :
  ~ migrate_request data ->
  status_of (result (migrate_pin_user now fresh data) w) = 400
  /\ run (migrate_pin_user now fresh data) w = w.
Proof.
  intros Hbad. unfold result, run, migrate_pin_user.
  destruct (no_data data) eqn:Hd; [split; reflexivity|].
  destruct (forallb _ _) eqn:Hf; cbn [negb]; [|split; reflexivity].
  destruct Hbad. now split.
Qed.

Lemma migrate_request_dec data : migrate_request data \/ ~ migrate_request data.
Proof.
  unfold migrate_request.
  destruct (no_data data); [right; now intros []|].
  destruct (forallb _ _); [left; now split|right; now intros []].
Qed.

Lemma archive_after_migrate now fresh data w :
  users_old_pin_backup (run (migrate_pin_user now fresh data) w) = users_old_pin_backup w.
Proof.
  destruct (migrate_request_dec data) as [Hreq|Hbad];
    [|now rewrite (proj2 (migrate_pin_user_bad_request now fresh data w Hbad))].
  unfold run. rewrite (migrate_pin_user_run now fresh data w Hreq).
  destruct (users_old_pin_backup w) as [old|] eqn:Hb; [|exact Hb].
  destruct (first_match _ old) as [o|]; cbn [snd];
    [|now destruct (logs_fields (pin_events (stripped data "pin") old) w)
            as (_ & _ & _ & -> & _)].
  destruct (negb _); cbn [snd];
    [now destruct (logs_fields (pin_events (stripped data "pin") old) w)
           as (_ & _ & _ & -> & _)|].
  destruct (registered w _); cbn [snd];
    [now destruct (logs_fields (pin_events (stripped data "pin") old) w)
           as (_ & _ & _ & -> & _)|].
  destruct (user_id_taken w _); cbn [snd].
  - now destruct (logs_fields (pin_events (stripped data "pin") old ++
            [EvPbkdf2 (stripped data "password") fresh;
             EvInsertUser (o_user_id o) (canonical_email data)]) w)
      as (_ & _ & _ & -> & _).
  - unfold run, copy_old_sessions, modify. cbn [snd].
    destruct (recording_sessions_old_backup _);
      cbn [set_sessions set_users users_old_pin_backup];
      now destruct (logs_fields (pin_events (stripped data "pin") old ++
            [EvPbkdf2 (stripped data "password") fresh;
             EvInsertUser (o_user_id o) (canonical_email data)]) w)
        as (_ & _ & _ & -> & _).
Qed.

Lemma check_migration_result w :
  result check_migration_available w =
  Json (JObj [
    ("migration_available",
     JBool (is_some (users_old_pin_backup w) &&
            (0 <? match users_old_pin_backup w with
                  | Some old_users => Z.of_nat (length old_users)
                  | None => 0
                  end)));
    ("old_users_count",
     JInt match users_old_pin_backup w with
          | Some old_users => Z.of_nat (length old_users)
          | None => 0
          end);
    ("message", JStr (if is_some (users_old_pin_backup w)
                      then "PIN users can migrate to email/password accounts"
                      else "No PIN accounts found"))]) 200.
Proof. reflexivity. Qed.

(** /check_migration_available and /migrate_pin_to_email agree: when the
    first says that no migration is available, the second refuses every
    request (400 or 404) and adds neither an account nor a session row;
    and no migration request, accepted or refused, changes what the first
    answers, for the archive is never consumed. *)
Theorem no_migration_when_unavailable now fresh data w :
  (body_field "migration_available" (result check_migration_available w) =
     Some (JBool false) ->
   (status_of (result (migrate_pin_user now fresh data) w) = 400 \/
    status_of (result (migrate_pin_user now fresh data) w) = 404)
   /\ users (run (migrate_pin_user now fresh data) w) = users w
   /\ recording_sessions (run (migrate_pin_user now fresh data) w) = recording_sessions w)
  /\ result check_migration_available (run (migrate_pin_user now fresh data) w) =
     result check_migration_available w.
Proof.
  split.
  - rewrite check_migration_result. cbn [body_field json_field find fst snd String.eqb].
    intros Hno.
    destruct (migrate_request_dec data) as [Hreq|Hbad].
    + unfold result, run. rewrite (migrate_pin_user_run now fresh data w Hreq).
      destruct (users_old_pin_backup w) as [[|o old]|] eqn:Hb.
      * cbn [first_match find fst snd pin_events logs fold_left error status_of]. tauto.
      * cbn in Hno. discriminate Hno.
      * cbn [fst snd error status_of]. tauto.
    + destruct (migrate_pin_user_bad_request now fresh data w Hbad) as (-> & ->). tauto.
  - rewrite !check_migration_result. now rewrite archive_after_migrate.
Qed.

Lemma users_after_copy_old_sessions uid w :
  users (run (copy_old_sessions uid) w) = users w /\
  users_old_pin_backup (run (copy_old_sessions uid) w) = users_old_pin_backup w.
Proof.
  unfold run, copy_old_sessions, modify. cbn [snd].
  now destruct (recording_sessions_old_backup w).
Qed.

Lemma user_id_taken_after_insert w w' row :
  users w' = users w ++ [row] -> user_id_taken w' (user_id row) = true.
Proof.
  intros Hu. unfold user_id_taken. rewrite Hu, existsb_app. cbn [existsb].
  rewrite String.eqb_refl. now rewrite orb_true_r.
Qed.

(** A legacy account migrates once.  After /migrate_pin_to_email has
    answered 201 for a pin, every later request with the same pin is
    refused, with 400 when its email is registered and with 500 otherwise
    (the user_id is taken), and adds neither an account nor a session
    row. *)
Theorem migration_happens_once now fresh data now' fresh' data' w :
  migrate_request data -> migrate_request data' ->
  stripped data' "pin" = stripped data "pin" ->
  status_of (result (migrate_pin_user now fresh data) w) = 201 ->
  (status_of (result (migrate_pin_user now' fresh' data')
                (run (migrate_pin_user now fresh data) w)) = 400 \/
   status_of (result (migrate_pin_user now' fresh' data')
                (run (migrate_pin_user now fresh data) w)) = 500)
  /\ users (run (migrate_pin_user now' fresh' data')
              (run (migrate_pin_user now fresh data) w)) =
     users (run (migrate_pin_user now fresh data) w)
  /\ recording_sessions (run (migrate_pin_user now' fresh' data')
                           (run (migrate_pin_user now fresh data) w)) =
     recording_sessions (run (migrate_pin_user now fresh data) w).
Proof.
  intros Hreq Hreq' Hpin H201.
  pose proof (archive_after_migrate now fresh data w) as Harch.
  assert (exists old o,
    users_old_pin_backup w = Some old /\
    first_match (stripped data "pin") old = Some o /\
    str_nonempty (o_user_id o) = true /\
    user_id_taken (run (migrate_pin_user now fresh data) w) (o_user_id o) = true)
    as (old & o & Hb & Hm & Hid & Htaken).
  { revert H201. unfold result, run.
    rewrite (migrate_pin_user_run now fresh data w Hreq).
    destruct (users_old_pin_backup w) as [old|]; [|discriminate].
    destruct (first_match _ old) as [o|] eqn:Hm; [|discriminate].
    destruct (str_nonempty (o_user_id o)) eqn:Hid; cbn [negb]; [|discriminate].
    destruct (registered w _); [discriminate|].
    destruct (user_id_taken w _); [discriminate|].
    intros _. exists old, o. split; [reflexivity|]. split; [exact Hm|].
    split; [exact Hid|]. cbn [snd].
    apply (user_id_taken_after_insert
      (logs (pin_events (stripped data "pin") old ++
             [EvPbkdf2 (stripped data "password") fresh;
              EvInsertUser (o_user_id o) (canonical_email data)]) w) _
      (new_user_row now (o_user_id o) (canonical_email data) (stripped data "full_name")
         (pbkdf2_hmac_sha256_hex (stripped data "password") fresh) fresh)).
    rewrite (proj1 (users_after_copy_old_sessions _ _)). reflexivity. }
  rewrite Hb in Harch.
  set (w1 := run (migrate_pin_user now fresh data) w) in *.
  unfold result, run. rewrite (migrate_pin_user_run now' fresh' data' w1 Hreq').
  rewrite Harch, Hpin, Hm, Hid. cbn [negb].
  destruct (registered w1 _); cbn [fst snd error status_of].
  - destruct (logs_fields (pin_events (stripped data "pin") old) w1) as (-> & -> & _). tauto.
  - rewrite Htaken. cbn [fst snd error status_of].
    destruct (logs_fields (pin_events (stripped data "pin") old ++
                [EvPbkdf2 (stripped data' "password") fresh';
                 EvInsertUser (o_user_id o) (canonical_email data')]) w1) as (-> & -> & _).
    tauto.
Qed.

(** ** /stats *)



Lemma auth_result_taken w e p u :
  auth_result w e p = Some u -> user_id_taken w (au_user_id u) = true.
Proof.
  unfold auth_result, user_id_taken.
  destruct (find _ (users w)) as [r|] eqn:Hfind; [|discriminate].
  destruct (String.eqb _ _); [|discriminate]. intros [= <-]. cbn [au_user_id].
  apply find_some in Hfind as (Hin & _).
  apply existsb_exists. exists r. split; [exact Hin|apply String.eqb_refl].
Qed.




(** ** The demo endpoints *)

Lemma auth_result_logs es w e p : auth_result (logs es w) e p = auth_result w e p.
Proof. unfold auth_result. now destruct (logs_fields es w) as (-> & _). Qed.

(** An UPDATE that leaves the columns authentication reads as they are. *)
Lemma auth_result_after_update (g : user_row -> user_row) w e p :
  (forall u, user_id (g u) = user_id u /\ email (g u) = email u /\
             full_name (g u) = full_name u /\ password_hash (g u) = password_hash u /\
             salt (g u) = salt u /\ created_at (g u) = created_at u) ->
  auth_result (set_users (map g) w) e p = auth_result w e p.
Proof.
  intros Hg. unfold auth_result. cbn [set_users users].
  induction (users w) as [|a l IH]; [reflexivity|].
  cbn [map find]. destruct (Hg a) as (H1 & H2 & H3 & H4 & H5 & H6).
  rewrite H2. destruct (String.eqb (email a) e); [|exact IH].
  now rewrite H1, H2, H3, H4, H5, H6.
Qed.

Lemma update_where_keeps (uid : string) (f : user_row -> user_row) :
  (forall u, user_id (f u) = user_id u /\ email (f u) = email u /\
             full_name (f u) = full_name u /\ password_hash (f u) = password_hash u /\
             salt (f u) = salt u /\ created_at (f u) = created_at u) ->
  forall u,
    let g := fun u => if String.eqb (user_id u) uid then f u else u in
    user_id (g u) = user_id u /\ email (g u) = email u /\
    full_name (g u) = full_name u /\ password_hash (g u) = password_hash u /\
    salt (g u) = salt u /\ created_at (g u) = created_at u.
Proof.
  intros Hf u. cbv beta zeta.
  destruct (String.eqb (user_id u) uid); [apply Hf|repeat split].
Qed.

Lemma create_demo_account_cases (isoformat : Z -> string) now fresh_id fresh_salt w :
  match auth_result w demo_email demo_password with
  | Some u =>
      status_of (result (create_demo_account isoformat now fresh_id fresh_salt) w) = 200
      /\ run (create_demo_account isoformat now fresh_id fresh_salt) w =
         set_users (map (fun r =>
           if String.eqb (user_id r) (au_user_id u)
           then mk_user (user_id r) (email r) (full_name r) (password_hash r) (salt r)
                  (created_at r) (last_login r) (Some "premium") 0
                  (Some (isoformat (now + 30 * one_day)))
           else r)) (logs (auth_events w demo_email demo_password) w)
  | None =>
      match result (create_user now fresh_id fresh_salt demo_name demo_email demo_password)
              (logs (auth_events w demo_email demo_password) w) with
      | inl uid =>
          status_of (result (create_demo_account isoformat now fresh_id fresh_salt) w) = 201
          /\ run (create_demo_account isoformat now fresh_id fresh_salt) w =
             set_users (map (fun r =>
               if String.eqb (user_id r) uid
               then with_subscription "premium" (Some (isoformat (now + 30 * one_day))) r
               else r))
               (run (create_user now fresh_id fresh_salt demo_name demo_email demo_password)
                  (logs (auth_events w demo_email demo_password) w))
      | inr msg =>
          status_of (result (create_demo_account isoformat now fresh_id fresh_salt) w) = 400
      end
  end.
Proof.
  unfold result, run, create_demo_account, update_users_where. cbv [bind ret modify].
  rewrite get_user_run.
  destruct (auth_result w demo_email demo_password) as [u|]; [split; reflexivity|].
  destruct (create_user _ _ _ _ _ _ _) as [[uid|msg] w1]; [split; reflexivity|reflexivity].
Qed.

(** Once /create_demo_account has answered 200 or 201, the reviewer
    account authenticates with the demo passcode and is on the premium
    tier, so that /storage_info reports the premium limit for it; a 200
    rewrites an account that was there, a 201 adds one. *)
Theorem demo_account_is_premium (isoformat : Z -> string) now fresh_id fresh_salt w :
  status_of (result (create_demo_account isoformat now fresh_id fresh_salt) w) = 200 \/
  status_of (result (create_demo_account isoformat now fresh_id fresh_salt) w) = 201 ->
  exists u,
    auth_result (run (create_demo_account isoformat now fresh_id fresh_salt) w)
      demo_email demo_password = Some u
    /\ tier_of (au_user_id u)
         (users (run (create_demo_account isoformat now fresh_id fresh_salt) w)) = "premium"
    /\ body_field "storage_limit"
         (result (get_storage_info u)
            (run (create_demo_account isoformat now fresh_id fresh_salt) w)) =
       Some (JInt 72000)
    /\ (auth_result w demo_email demo_password = Some u \/
        auth_result w demo_email demo_password = None /\ au_user_id u = fresh_id /\
        registered w demo_email = false).
Proof.
  intros Hstatus.
  assert (Hlimit : forall u w0, tier_of (au_user_id u) (users w0) = "premium" ->
    body_field "storage_limit" (result (get_storage_info u) w0) = Some (JInt 72000)).
  { intros u w0 Ht. rewrite storage_info_limit, Ht. reflexivity. }
  pose proof (create_demo_account_cases isoformat now fresh_id fresh_salt w) as Hcases.
  set (w0 := logs (auth_events w demo_email demo_password) w) in *.
  assert (Hu0 : users w0 = users w)
    by (unfold w0; now destruct (logs_fields (auth_events w demo_email demo_password) w)).
  destruct (auth_result w demo_email demo_password) as [u|] eqn:Hauth.
  - destruct Hcases as (_ & ->). exists u.
    set (f := fun r : user_row => mk_user (user_id r) (email r) (full_name r)
                (password_hash r) (salt r) (created_at r) (last_login r)
                (Some "premium") 0 (Some (isoformat (now + 30 * one_day)))).
    assert (Ht : tier_of (au_user_id u)
                   (users (set_users (map (fun r =>
                      if String.eqb (user_id r) (au_user_id u) then f r else r)) w0)) =
                 "premium").
    { cbn [set_users users]. apply tier_of_after_update; try reflexivity.
      rewrite Hu0. exact (auth_result_taken _ _ _ _ Hauth). }
    split; [|split; [exact Ht|split; [now apply Hlimit|now left]]].
    rewrite auth_result_after_update
      by (apply (update_where_keeps (au_user_id u) f); intros r; repeat split).
    unfold w0. now rewrite auth_result_logs.
  - destruct (result (create_user _ _ _ _ _ _) w0) as [uid|msg] eqn:Hc;
      [|rewrite Hcases in Hstatus; destruct Hstatus; discriminate].
    destruct Hcases as (_ & ->).
    apply create_user_inl in Hc as (-> & Hv & Hs & Hr & Htk).
    pose proof (users_after_create_user now fresh_id fresh_salt demo_name demo_email
                  demo_password w0 Hv Hs Hr Htk) as Hu.
    set (w1 := run (create_user _ _ _ _ _ _) w0) in *.
    set (f := with_subscription "premium" (Some (isoformat (now + 30 * one_day)))).
    set (row := new_user_row now fresh_id demo_email demo_name
                  (pbkdf2_hmac_sha256_hex demo_password fresh_salt) fresh_salt) in *.
    exists (mk_auth_user fresh_id demo_email demo_name now).
    assert (Ht : tier_of fresh_id
                   (users (set_users (map (fun r =>
                      if String.eqb (user_id r) fresh_id then f r else r)) w1)) = "premium").
    { cbn [set_users users]. apply tier_of_after_update; try reflexivity.
      exact (user_id_taken_after_insert w0 w1 row Hu). }
    split; [|split; [exact Ht|split; [now apply Hlimit|]]].
    + rewrite auth_result_after_update
        by (apply (update_where_keeps fresh_id f); intros r; repeat split).
      unfold auth_result. rewrite Hu, (find_email_new w0 demo_email row Hr eq_refl).
      cbn [row new_user_row salt password_hash user_id email full_name created_at].
      now rewrite String.eqb_refl.
    + right. split; [reflexivity|]. split; [reflexivity|].
      unfold registered in *. now rewrite <- Hu0.
Qed.

Lemma logs_app es1 es2 w : logs (es1 ++ es2) w = logs es2 (logs es1 w).
Proof. unfold logs. apply fold_left_app. Qed.

Lemma first_reviewer_run emails w :
  exists es,
    first_reviewer emails w =
    (find (fun e => is_some (auth_result w e demo_password)) emails, logs es w).
Proof.
  revert w. induction emails as [|e rest IH]; intros w.
  - exists []. reflexivity.
  - cbn [first_reviewer find]. unfold bind at 1. rewrite get_user_run.
    destruct (auth_result w e demo_password) as [u|] eqn:Hauth; cbn [is_some].
    + eexists. reflexivity.
    + destruct (IH (logs (auth_events w e demo_password) w)) as (es & ->).
      exists (auth_events w e demo_password ++ es). rewrite logs_app.
      f_equal. clear IH. induction rest as [|e' rest IH]; [reflexivity|].
      cbn [find]. now rewrite auth_result_logs, IH.
Qed.

Lemma demo_tier_valid data :
  In (demo_tier data) valid_tiers /\ str_nonempty (demo_tier data) = true.
Proof.
  unfold demo_tier.
  destruct (existsb _ valid_tiers) eqn:Hv; [|cbn; tauto].
  apply existsb_exists in Hv as (t & Hin & ->%String.eqb_eq).
  split; [exact Hin|].
  cbn in Hin. destruct Hin as [<-|[<-|[<-|[]]]]; reflexivity.
Qed.

Lemma set_demo_tier_run (isoformat : Z -> string) now tier uid w :
  exists expires,
    set_demo_tier isoformat now tier uid w =
    (tt, set_users (map (fun u =>
           if String.eqb (user_id u) uid then with_subscription tier expires u else u)) w).
Proof.
  unfold set_demo_tier.
  destruct (String.eqb_spec tier "free") as [->|_]; eexists; reflexivity.
Qed.

(** /demo_switch_tier changes an account only if the account
    authenticates with the demo passcode 123456: a 200 names such an
    account, sets its tier to the one asked for (premium when the body
    names none of free, premium, pro) and rewrites no row of another
    account; any other answer is a 404 that leaves the users table as it
    was, and that is the answer when the body names an account the demo
    passcode does not open. *)
Theorem demo_switch_tier_effect (isoformat : Z -> string) now data w :
  (status_of (result (demo_switch_tier isoformat now data) w) = 200 ->
   exists e u,
     auth_result w e demo_password = Some u
     /\ body_field "email" (result (demo_switch_tier isoformat now data) w) = Some (JStr e)
     /\ body_field "tier" (result (demo_switch_tier isoformat now data) w) =
        Some (JStr (demo_tier data))
     /\ In (demo_tier data) valid_tiers
     /\ tier_of (au_user_id u) (users (run (demo_switch_tier isoformat now data) w)) =
        demo_tier data
     /\ other_users (au_user_id u) (users (run (demo_switch_tier isoformat now data) w)) =
        other_users (au_user_id u) (users w))
  /\ (status_of (result (demo_switch_tier isoformat now data) w) <> 200 ->
      result (demo_switch_tier isoformat now data) w = error "Demo account not found" 404
      /\ users (run (demo_switch_tier isoformat now data) w) = users w)
  /\ (forall e,
        data ≫= (fun d => d !! "email") = Some e -> str_nonempty e = true ->
        auth_result w e demo_password = None ->
        result (demo_switch_tier isoformat now data) w = error "Demo account not found" 404).
Proof.
  assert (Hrun : exists es (named : option string),
    demo_switch_tier isoformat now data w =
    (let w0 := logs es w in
     match named with
     | Some e =>
         match auth_result w e demo_password with
         | Some u =>
             let (_, w1) := set_demo_tier isoformat now (demo_tier data) (au_user_id u)
                              (logs (auth_events w0 e demo_password) w0) in
             (Json (JObj [
                ("message", JStr ("Demo account switched to " +:+ demo_tier data +:+ " tier"));
                ("email", JStr e);
                ("tier", JStr (demo_tier data));
                ("note", JStr "Log out and log back in to see changes in the app")]) 200, w1)
         | None =>
             (error "Demo account not found" 404, logs (auth_events w0 e demo_password) w0)
         end
     | None => (error "Demo account not found" 404, w0)
     end)
    /\ forall e, data ≫= (fun d => d !! "email") = Some e -> str_nonempty e = true ->
         named = Some e).
  { unfold demo_switch_tier. fold (demo_tier data).
    destruct (data ≫= (fun d => d !! "email")) as [e|] eqn:Hgiven;
      cbn [is_some default andb]; unfold id.
    - destruct (str_nonempty e) eqn:He.
      + exists [], (Some e). split; [|intros e' [= <-] _; reflexivity].
        unfold bind at 1, ret. cbn [logs fold_left get_user_by_optional_email].
        unfold bind at 1. rewrite get_user_run.
        destruct (auth_result w e demo_password); [|reflexivity].
        unfold bind at 1. now destruct (set_demo_tier _ _ _ _ _).
      + destruct (first_reviewer_run reviewer_emails w) as (es & Hfirst).
        exists es, (match find (fun e => is_some (auth_result w e demo_password))
                            reviewer_emails with
                    | Some e' => Some e'
                    | None => Some e
                    end).
        split; [|intros e' [= <-] He'; congruence].
        unfold bind at 1. unfold bind at 1. rewrite Hfirst. unfold ret.
        set (named := match find _ reviewer_emails with Some e' => Some e' | None => Some e end).
        assert (exists e', named = Some e') as (e' & ->)
          by (unfold named; destruct (find _ _); eauto).
        cbn [get_user_by_optional_email]. unfold bind at 1. rewrite get_user_run.
        rewrite auth_result_logs.
        destruct (auth_result w e' demo_password); [|reflexivity].
        unfold bind at 1. now destruct (set_demo_tier _ _ _ _ _).
    - destruct (first_reviewer_run reviewer_emails w) as (es & Hfirst).
      exists es, (find (fun e => is_some (auth_result w e demo_password)) reviewer_emails).
      split; [|intros e' [=]].
      unfold bind at 1. unfold bind at 1. rewrite Hfirst. unfold ret.
      destruct (find _ reviewer_emails) as [e'|]; cbn [get_user_by_optional_email].
      + unfold bind at 1. rewrite get_user_run, auth_result_logs.
        destruct (auth_result w e' demo_password); [|reflexivity].
        unfold bind at 1. now destruct (set_demo_tier _ _ _ _ _).
      + reflexivity. }
  destruct Hrun as (es & named & Hrun & Hnamed).
  unfold result, run. rewrite Hrun. cbn zeta. clear Hrun.
  destruct (logs_fields es w) as (Hu0 & _).
  split; [|split].
  - destruct named as [e|]; [|discriminate].
    destruct (auth_result w e demo_password) as [u|] eqn:Hauth; [|discriminate].
    destruct (set_demo_tier_run isoformat now (demo_tier data) (au_user_id u)
                (logs (auth_events (logs es w) e demo_password) (logs es w)))
      as (expires & ->).
    intros _. exists e, u. cbn [fst snd set_users users].
    destruct (logs_fields (auth_events (logs es w) e demo_password) (logs es w)) as (-> & _).
    rewrite Hu0. destruct (demo_tier_valid data) as (Hin & Hne).
    split; [exact Hauth|]. split; [reflexivity|]. split; [reflexivity|].
    split; [exact Hin|]. split.
    + apply tier_of_after_update; try reflexivity; [|exact Hne].
      exact (auth_result_taken _ _ _ _ Hauth).
    + now apply other_users_after_update.
  - destruct named as [e|]; [|intros _; split; [reflexivity|exact Hu0]].
    destruct (auth_result w e demo_password) as [u|].
    + destruct (set_demo_tier _ _ _ _ _). intros H. now destruct H.
    + intros _. split; [reflexivity|]. cbn [snd].
      now destruct (logs_fields (auth_events (logs es w) e demo_password) (logs es w))
        as (-> & _).
  - intros e Hgiven He Hauth. rewrite (Hnamed e Hgiven He), Hauth. reflexivity.
Qed.

(** ** What a failed login costs *)




(** ** Uploads need credentials *)

(** /upload stores nothing for a request whose email and passcode match
    no stored digest: the answer is a 400 or a 401, and the upload folder
    and every table are as they were.  The failure is not recorded as a
    login attempt either. *)
Theorem upload_requires_credentials now ct form files o w :
  auth_result w (canonical_email (Some form)) (stripped (Some form) "password") = None ->
  (status_of (result (upload_video now ct form files o) w) = 400 \/
   status_of (result (upload_video now ct form files o) w) = 401)
  /\ upload_folder (run (upload_video now ct form files o) w) = upload_folder w
  /\ recording_sessions (run (upload_video now ct form files o) w) = recording_sessions w
  /\ users (run (upload_video now ct form files o) w) = users w
  /\ login_attempts (run (upload_video now ct form files o) w) = login_attempts w.
Proof.
  intros Hauth.
  assert (exists r es,
    upload_video now ct form files o w = (r, logs es w) /\
    (status_of r = 400 \/ status_of r = 401)) as (r & es & Hrun & Hstatus).
  { unfold upload_video.
    destruct (str_contains _ ct); cbn [negb];
      [|exists (error "Invalid content type" 400), []; split; [reflexivity|now left]].
    destruct (negb _ || negb _);
      [exists (error "Email and password required" 400), []; split; [reflexivity|now left]|].
    unfold bind at 1. rewrite get_user_run, Hauth.
    eexists _, _. split; [reflexivity|now right]. }
  unfold result, run. rewrite Hrun. cbn [fst snd].
  destruct (logs_fields es w) as (-> & -> & -> & _ & _ & -> & _).
  tauto.
Qed.

(** ** The email pattern *)

Lemma split_at_Some p l a b :
  split_at p l = Some (a, b) ->
  exists c, l = a ++ c :: b /\ p c = true /\ forallb (fun x => negb (p x)) a = true.
Proof.
  revert a. induction l as [|x l IH]; intros a; [discriminate|].
  cbn [split_at]. destruct (p x) eqn:Hx.
  - intros [= <- <-]. now exists x.
  - destruct (split_at p l) as [[a' b']|]; [|discriminate].
    intros [= <- <-]. destruct (IH a' eq_refl) as (c & -> & Hc & Ha).
    exists c. cbn [forallb app]. rewrite Hx. now repeat split.
Qed.

Lemma split_at_app p a c b :
  forallb (fun x => negb (p x)) a = true -> p c = true ->
  split_at p (a ++ c :: b) = Some (a, b).
Proof.
  intros Ha Hc. induction a as [|x a IH]; cbn [app split_at].
  - now rewrite Hc.
  - cbn [forallb] in Ha. apply andb_prop in Ha as (Hx & Ha).
    apply negb_true_iff in Hx. now rewrite Hx, (IH Ha).
Qed.

Lemma nonempty_all_iff p l : nonempty_all p l = true <-> l <> [] /\ forallb p l = true.
Proof.
  destruct l as [|x l]; cbn [nonempty_all]; [split; [discriminate|now intros []]|].
  split; [now split|now intros []].
Qed.

Lemma forallb_rev_true {A} (p : A -> bool) l : forallb p (rev l) = forallb p l.
Proof.
  induction l as [|x l IH]; [reflexivity|].
  cbn [rev forallb]. rewrite forallb_app, IH. cbn [forallb].
  rewrite andb_true_r. apply andb_comm.
Qed.

Lemma alpha_is_no_dot c : is_alpha c = true -> negb (Ascii.eqb "." c) = true.
Proof. destruct (Ascii.eqb_spec "." c) as [<-|_]; [discriminate|reflexivity]. Qed.

Lemma match_domain_iff l :
  match_domain l = true <->
  exists name tld,
    l = name ++ "."%char :: tld
    /\ name <> [] /\ forallb is_domain_char name = true
    /\ (2 <= length tld)%nat /\ forallb is_alpha tld = true.
Proof.
  unfold match_domain. split.
  - destruct (split_at _ (rev l)) as [[tld_rev name_rev]|] eqn:Hsplit; [|discriminate].
    intros [[Htld Hlen]%andb_prop Hname]%andb_prop.
    apply split_at_Some in Hsplit as (c & Hrev & Hc%Ascii.eqb_eq & _). subst c.
    apply nonempty_all_iff in Hname as (Hne & Hname).
    exists (rev name_rev), (rev tld_rev).
    split; [|split; [|split; [|split]]].
    + rewrite <- (rev_involutive l), Hrev, rev_app_distr. cbn [rev].
      now rewrite <- app_assoc.
    + intros Hnil. apply Hne. now rewrite <- (rev_involutive name_rev), Hnil.
    + now rewrite forallb_rev_true.
    + rewrite length_rev. now apply Nat.leb_le.
    + now rewrite forallb_rev_true.
  - intros (name & tld & -> & Hne & Hname & Hlen & Htld).
    rewrite rev_app_distr. cbn [rev]. rewrite <- app_assoc. cbn [app].
    rewrite split_at_app; [|clear -Htld|apply Ascii.eqb_refl].
    + rewrite forallb_rev_true, Htld, length_rev. cbn [andb].
      apply andb_true_intro. split; [now apply Nat.leb_le|].
      apply nonempty_all_iff. split; [|now rewrite forallb_rev_true].
      intros Hnil. apply Hne. now rewrite <- (rev_involutive name), Hnil.
    + rewrite forallb_rev_true. induction tld as [|c tld IH]; [reflexivity|].
      cbn [forallb] in *. apply andb_prop in Htld as (Hc & Htld).
      now rewrite (alpha_is_no_dot c Hc), (IH Htld).
Qed.

Lemma match_email_iff l :
  match_email l = true <->
  exists local_part rest,
    l = local_part ++ "@"%char :: rest
    /\ local_part <> [] /\ forallb is_local_char local_part = true
    /\ match_domain rest = true.
Proof.
  unfold match_email. split.
  - destruct (split_at _ l) as [[local_part rest]|] eqn:Hsplit; [|discriminate].
    apply split_at_Some in Hsplit as (c & -> & _ & _).
    intros [Hlocal Hrest]%andb_prop.
    apply nonempty_all_iff in Hlocal as (Hne & Hlocal).
    rewrite drop_app_length in Hrest.
    apply andb_prop in Hrest as (Hc%Ascii.eqb_eq & Hrest). subst c.
    now exists local_part, rest.
  - intros (local_part & rest & -> & Hne & Hlocal & Hrest).
    rewrite split_at_app; [|clear -Hlocal|reflexivity].
    + rewrite drop_app_length, Ascii.eqb_refl, Hrest.
      apply andb_true_intro. split; [|reflexivity]. now apply nonempty_all_iff.
    + induction local_part as [|c a IH]; [reflexivity|].
      cbn [forallb] in *. apply andb_prop in Hlocal as (-> & Hlocal). now rewrite (IH Hlocal).
Qed.

(** is_valid_email accepts exactly the texts the pattern
    ^[a-zA-Z0-9._%+-]+@[a-zA-Z0-9.-]+\.[a-zA-Z]{2,}$ describes: a non-empty
    local part of its characters, an at sign, a non-empty domain name of
    letters, digits, dots and hyphens, a dot, and a last label of two
    letters or more; then the end of the text, or one newline and the end
    (what $ matches). *)
Theorem is_valid_email_iff e :
  is_valid_email e = true <->
  exists local_part name tld tail,
    list_ascii_of_string e = local_part ++ "@"%char :: name ++ "."%char :: tld ++ tail
    /\ local_part <> [] /\ forallb is_local_char local_part = true
    /\ name <> [] /\ forallb is_domain_char name = true
    /\ (2 <= length tld)%nat /\ forallb is_alpha tld = true
    /\ (tail = [] \/ tail = ["010"%char]).
Proof.
  unfold is_valid_email. set (l := list_ascii_of_string e). clearbody l. split.
  - intros [Hm|Hm]%orb_prop.
    + apply match_email_iff in Hm as (local_part & rest & -> & Hne & Hlocal & Hrest).
      apply match_domain_iff in Hrest as (name & tld & -> & Hrest).
      exists local_part, name, tld, []. rewrite app_nil_r. tauto.
    + destruct (rev l) as [|c body_rev] eqn:Hrev; [discriminate|].
      apply andb_prop in Hm as (Hc%Ascii.eqb_eq & Hm). subst c.
      apply match_email_iff in Hm as (local_part & rest & Hbody & Hne & Hlocal & Hrest).
      apply match_domain_iff in Hrest as (name & tld & -> & Hrest).
      exists local_part, name, tld, ["010"%char].
      split; [|tauto].
      rewrite <- (rev_involutive l), Hrev. cbn [rev]. rewrite Hbody.
      rewrite <- !app_assoc. cbn [app]. now rewrite <- app_assoc.
  - intros (local_part & name & tld & tail & -> & Hne & Hlocal & Hname & Hdom & Hlen & Htld
            & [->| ->]).
    + rewrite app_nil_r. apply orb_true_intro. left.
      apply match_email_iff. exists local_part, (name ++ "."%char :: tld).
      repeat split; try assumption.
      apply match_domain_iff. now exists name, tld.
    + apply orb_true_intro. right.
      replace (local_part ++ "@"%char :: name ++ "."%char :: tld ++ ["010"%char])
        with ((local_part ++ "@"%char :: name ++ "."%char :: tld) ++ ["010"%char])
        by (rewrite <- !app_assoc; cbn [app]; now rewrite <- app_assoc).
      rewrite rev_app_distr. cbn [rev app]. rewrite Ascii.eqb_refl, rev_involutive.
      cbn [andb]. apply match_email_iff. exists local_part, (name ++ "."%char :: tld).
      repeat split; try assumption.
      apply match_domain_iff. now exists name, tld.
Qed.

(** ** /create_all_demo_accounts *)

Lemma auth_result_users w w' e p : users w' = users w -> auth_result w' e p = auth_result w e p.
Proof. unfold auth_result. now intros ->. Qed.

Lemma create_user_cases now fresh_id fresh_salt name e p w :
  exists r w',
    create_user now fresh_id fresh_salt name e p w = (r, w') /\
    match r with
    | inr _ => exists es, w' = logs es w
    | inl _ => True
    end.
Proof.
  unfold create_user.
  destruct (is_valid_email e); cbn [negb];
    [|eexists _, _; split; [reflexivity|now exists []]].
  destruct (six_digits p); cbn [negb];
    [|eexists _, _; split; [reflexivity|now exists []]].
  unfold bind at 1. unfold email_registered, gets.
  destruct (existsb _ (users w)); [eexists _, _; split; [reflexivity|now exists []]|].
  unfold bind at 1. rewrite hash_password_drawn. cbn [fst snd default].
  unfold bind at 1. rewrite insert_user_run.
  destruct (existsb _ _).
  - eexists _, _. split; [reflexivity|].
    now exists [EvPbkdf2 p fresh_salt; EvInsertUser fresh_id e].
  - run_handler. destruct (is_some _); eexists _, _; split; reflexivity || exact I.
Qed.

Lemma users_after_failed_create_user now fresh_id fresh_salt name e p w msg :
  result (create_user now fresh_id fresh_salt name e p) w = inr msg ->
  users (run (create_user now fresh_id fresh_salt name e p) w) = users w.
Proof.
  unfold result, run.
  destruct (create_user_cases now fresh_id fresh_salt name e p w) as (r & w' & -> & Hw).
  cbn [fst snd]. intros ->. destruct Hw as (es & ->). now destruct (logs_fields es w).
Qed.

Lemma auth_result_other_inserted w w' row e p :
  users w' = users w ++ [row] -> email row <> e ->
  auth_result w' e p = auth_result w e p.
Proof.
  intros Hu Hne. unfold auth_result. rewrite Hu. clear Hu.
  induction (users w) as [|a l IH]; cbn [app find].
  - apply String.eqb_neq in Hne. now rewrite Hne.
  - destruct (String.eqb (email a) e); [reflexivity|exact IH].
Qed.

(** One round: the account is listed exactly when it authenticates after
    the round, and no other email is affected. *)
Lemma ensure_demo_account_spec (isoformat : Z -> string) now fresh account w :
  ((result (ensure_demo_account isoformat now fresh account) w = Some (demo_ready account)
    /\ is_some (auth_result (run (ensure_demo_account isoformat now fresh account) w)
                  (da_email account) (da_password account)) = true)
   \/ (result (ensure_demo_account isoformat now fresh account) w = None
       /\ auth_result (run (ensure_demo_account isoformat now fresh account) w)
            (da_email account) (da_password account) = None))
  /\ forall e p, e <> da_email account ->
       auth_result (run (ensure_demo_account isoformat now fresh account) w) e p =
       auth_result w e p.
Proof.
  set (e0 := da_email account). set (p0 := da_password account).
  set (w0 := logs (auth_events w e0 p0) w).
  assert (Hkeep : forall tier uid w1 e p,
    auth_result (run (set_demo_tier isoformat now tier uid) w1) e p = auth_result w1 e p).
  { intros tier uid w1 e p. unfold run.
    destruct (set_demo_tier_run isoformat now tier uid w1) as (expires & ->). cbn [snd].
    apply auth_result_after_update.
    apply (update_where_keeps uid (with_subscription tier expires)). intros r. repeat split. }
  destruct (auth_result w e0 p0) as [u|] eqn:Hauth.
  - assert (Hrun : ensure_demo_account isoformat now fresh account w =
                   (Some (demo_ready account),
                    run (set_demo_tier isoformat now (da_tier account) (au_user_id u)) w0)).
    { unfold ensure_demo_account. fold e0 p0. unfold bind at 1. rewrite get_user_run, Hauth.
      unfold bind at 1, ret. unfold bind at 1, run. fold w0.
      now destruct (set_demo_tier _ _ _ _ w0). }
    unfold result, run at 1 2 3. rewrite Hrun. cbn [fst snd]. split.
    + left. split; [reflexivity|]. rewrite Hkeep. unfold w0.
      now rewrite auth_result_logs, Hauth.
    + intros e p _. rewrite Hkeep. unfold w0. apply auth_result_logs.
  - destruct (create_user now (fst fresh) (snd fresh) (da_name account) e0 p0 w0)
      as [[uid|msg] w1] eqn:Hc.
    + assert (Hrun : ensure_demo_account isoformat now fresh account w =
                     (Some (demo_ready account),
                      run (set_demo_tier isoformat now (da_tier account) uid) w1)).
      { unfold ensure_demo_account. fold e0 p0. unfold bind at 1. rewrite get_user_run, Hauth.
        unfold bind at 1. fold w0. rewrite Hc. unfold bind at 1, run.
        now destruct (set_demo_tier _ _ _ _ w1). }
      pose proof (f_equal fst Hc) as Hres. cbn [fst] in Hres.
      apply (create_user_inl now (fst fresh) (snd fresh) (da_name account) e0 p0 w0 uid)
        in Hres as (-> & Hv & Hs & Hr & Htk).
      pose proof (users_after_create_user now (fst fresh) (snd fresh) (da_name account) e0 p0
                    w0 Hv Hs Hr Htk) as Hu.
      unfold run in Hu. rewrite Hc in Hu. cbn [snd] in Hu.
      unfold result, run at 1 2 3. rewrite Hrun. cbn [fst snd]. split.
      * left. split; [reflexivity|]. rewrite Hkeep. unfold auth_result.
        rewrite Hu, (find_email_new w0 e0
          (new_user_row now (fst fresh) e0 (da_name account)
             (pbkdf2_hmac_sha256_hex p0 (snd fresh)) (snd fresh)) Hr eq_refl).
        cbn [new_user_row salt password_hash]. now rewrite String.eqb_refl.
      * intros e p Hne. rewrite Hkeep.
        rewrite (auth_result_other_inserted w0 w1
          (new_user_row now (fst fresh) e0 (da_name account)
             (pbkdf2_hmac_sha256_hex p0 (snd fresh)) (snd fresh)) e p Hu)
          by (cbn; congruence).
        unfold w0. apply auth_result_logs.
    + assert (Hrun : ensure_demo_account isoformat now fresh account w = (None, w1)).
      { unfold ensure_demo_account. fold e0 p0. unfold bind at 1. rewrite get_user_run, Hauth.
        unfold bind at 1. fold w0. now rewrite Hc. }
      pose proof (users_after_failed_create_user now (fst fresh) (snd fresh)
                    (da_name account) e0 p0 w0 msg) as Hu.
      unfold result, run in Hu. rewrite Hc in Hu. specialize (Hu eq_refl). cbn [snd] in Hu.
      assert (Hsame : forall e p, auth_result w1 e p = auth_result w e p).
      { intros e p. rewrite (auth_result_users w0 w1 e p Hu). unfold w0.
        apply auth_result_logs. }
      unfold result, run. rewrite Hrun. cbn [fst snd]. split.
      * right. split; [reflexivity|]. now rewrite Hsame.
      * intros e p _. apply Hsame.
Qed.

Lemma ensure_demo_accounts_spec (isoformat : Z -> string) now accounts :
  NoDup (map da_email accounts) ->
  forall fresh w,
    (forall a, In a accounts ->
       (In (demo_ready a) (result (ensure_demo_accounts isoformat now fresh accounts) w) <->
        is_some (auth_result (run (ensure_demo_accounts isoformat now fresh accounts) w)
                   (da_email a) (da_password a)) = true))
    /\ (forall j, In j (result (ensure_demo_accounts isoformat now fresh accounts) w) ->
          exists a, In a accounts /\ j = demo_ready a)
    /\ (forall e p, ~ In e (map da_email accounts) ->
          auth_result (run (ensure_demo_accounts isoformat now fresh accounts) w) e p =
          auth_result w e p).
Proof.
  induction accounts as [|a rest IH]; intros Hnd fresh w.
  - split; [intros a []|]. split; [intros j []|reflexivity].
  - cbn [map] in Hnd. apply NoDup_cons in Hnd as (Hnotin & Hnd).
    rewrite list_elem_of_In in Hnotin.
    destruct (ensure_demo_account_spec isoformat now (fresh O) a w) as (Hfirst & Hother).
    set (w1 := run (ensure_demo_account isoformat now (fresh O) a) w) in *.
    destruct (IH Hnd (fun i => fresh (S i)) w1) as (Hlisted & Hfrom & Hframe).
    assert (Hrun : ensure_demo_accounts isoformat now fresh (a :: rest) w =
      (match result (ensure_demo_account isoformat now (fresh O) a) w with
       | Some j => j :: result (ensure_demo_accounts isoformat now (fun i => fresh (S i)) rest) w1
       | None => result (ensure_demo_accounts isoformat now (fun i => fresh (S i)) rest) w1
       end,
       run (ensure_demo_accounts isoformat now (fun i => fresh (S i)) rest) w1)).
    { cbn [ensure_demo_accounts]. unfold bind at 1. unfold result, run, w1, run.
      destruct (ensure_demo_account _ _ _ _ w) as [r w']. cbn [fst snd].
      unfold bind at 1. now destruct (ensure_demo_accounts _ _ _ _ w'). }
    pose proof (f_equal fst Hrun) as Hres. pose proof (f_equal snd Hrun) as Hw.
    cbn [fst snd] in Hres, Hw.
    fold (result (ensure_demo_accounts isoformat now fresh (a :: rest)) w) in Hres.
    fold (run (ensure_demo_accounts isoformat now fresh (a :: rest)) w) in Hw.
    rewrite Hres, Hw. clear Hrun Hres Hw.
    set (rs := result (ensure_demo_accounts isoformat now (fun i => fresh (S i)) rest) w1)
      in *.
    set (w2 := run (ensure_demo_accounts isoformat now (fun i => fresh (S i)) rest) w1) in *.
    assert (Hnot : ~ In (demo_ready a) rs).
    { intros (b & Hb & Heq)%Hfrom. apply Hnotin. apply in_map_iff. exists b.
      split; [|exact Hb]. now injection Heq. }
    split; [|split].
    + intros b [<-|Hb].
      * rewrite (Hframe (da_email a) (da_password a) Hnotin).
        destruct Hfirst as [(-> & Hok)|(-> & Hno)].
        -- split; [intros _; exact Hok|intros _; now left].
        -- rewrite Hno. cbn [is_some]. split; [intros H; now destruct Hnot|discriminate].
      * rewrite <- (Hlisted b Hb).
        assert (Hne : demo_ready a <> demo_ready b).
        { intros Heq. apply Hnotin. apply in_map_iff. exists b.
          split; [|exact Hb]. now injection Heq. }
        destruct (result _ w) as [j|]; [|reflexivity].
        destruct Hfirst as [([= ->] & _)|(Hj & _)]; [|discriminate Hj].
        cbn [In]. split; [intros [H|H]; [now destruct Hne|exact H]|now right].
    + intros j Hj.
      assert (Hcases : j = demo_ready a \/ In j rs).
      { destruct (result _ w) as [j'|]; [|now right].
        destruct Hfirst as [([= ->] & _)|(Hj' & _)]; [|discriminate Hj'].
        destruct Hj as [<-|Hj]; [now left|now right]. }
      destruct Hcases as [->|Hin]; [exists a; split; [now left|reflexivity]|].
      destruct (Hfrom j Hin) as (b & Hb & ->). exists b. split; [now right|reflexivity].
    + intros e p Hne. cbn [map In] in Hne.
      rewrite (Hframe e p) by tauto. apply Hother. intros ->. tauto.
Qed.

(** /create_all_demo_accounts answers 201 whatever happens, and lists an
    account of its three as ready exactly when, afterwards, that account
    authenticates with the demo passcode: an account that was there under
    another passcode, or whose creation failed, is left out of the list
    and still does not authenticate.  Nothing else is listed, and no other
    email's authentication changes. *)
Theorem create_all_demo_accounts_lists_working (isoformat : Z -> string) now fresh w :
  status_of (result (create_all_demo_accounts isoformat now fresh) w) = 201
  /\ (forall a, In a demo_accounts ->
        (In (demo_ready a)
           (body_items "accounts" (result (create_all_demo_accounts isoformat now fresh) w)) <->
         is_some (auth_result (run (create_all_demo_accounts isoformat now fresh) w)
                    (da_email a) (da_password a)) = true))
  /\ (forall j,
        In j (body_items "accounts" (result (create_all_demo_accounts isoformat now fresh) w)) ->
        exists a, In a demo_accounts /\ j = demo_ready a)
  /\ (forall e p, ~ In e (map da_email demo_accounts) ->
        auth_result (run (create_all_demo_accounts isoformat now fresh) w) e p =
        auth_result w e p).
Proof.
  assert (Hnd : NoDup (map da_email demo_accounts)).
  { cbn. repeat (apply NoDup_cons; split; [rewrite list_elem_of_In; cbn; intuition discriminate|]).
    apply NoDup_nil_2. }
  destruct (ensure_demo_accounts_spec isoformat now demo_accounts Hnd fresh w)
    as (Hlisted & Hfrom & Hframe).
  assert (Hrun : create_all_demo_accounts isoformat now fresh w =
    (Json (JObj [("message", JStr "All demo accounts created successfully");
                 ("accounts",
                  JArr (result (ensure_demo_accounts isoformat now fresh demo_accounts) w))])
       201,
     run (ensure_demo_accounts isoformat now fresh demo_accounts) w)).
  { unfold create_all_demo_accounts, result, run. unfold bind at 1.
    now destruct (ensure_demo_accounts _ _ _ _ w). }
  pose proof (f_equal fst Hrun) as Hres. pose proof (f_equal snd Hrun) as Hw.
  cbn [fst snd] in Hres, Hw.
  fold (result (create_all_demo_accounts isoformat now fresh) w) in Hres.
  fold (run (create_all_demo_accounts isoformat now fresh) w) in Hw.
  rewrite Hres, Hw.
  change (body_items "accounts" (Json (JObj [
            ("message", JStr "All demo accounts created successfully");
            ("accounts",
             JArr (result (ensure_demo_accounts isoformat now fresh demo_accounts) w))]) 201))
    with (result (ensure_demo_accounts isoformat now fresh demo_accounts) w).
  split; [reflexivity|]. split; [exact Hlisted|]. split; [exact Hfrom|exact Hframe].
Qed.

End Properties.

(** * The properties on the examples *)

Section Examples.
#[local] Existing Instance ascii_runtime.

Lemma verify_password_iff_digest_witness :
  result (verify_password "123456"
            (fst (result (hash_password "5a17" "123456" None) fresh_world)) "5a17")
    fresh_world = true
  /\ result (verify_password "123456" "0badc0de" "5a17") fresh_world = false
  /\ result (verify_password "123456"
               (fst (result (hash_password "5a17" "123456" (Some "ffff")) fresh_world)) "5a17")
       fresh_world = false.
Proof.
  destruct (verify_password_iff_digest "5a17" "123456" None fresh_world fresh_world)
    as (Hok & Htampered & Hsalt).
  split; [exact Hok|]. split.
  - apply Htampered. vm_compute. discriminate.
  - apply Hsalt. vm_compute. discriminate.
Defined.


Lemma login_failure_hides_account_witness :
  unknown_account registered_world (canonical_email stranger_guess)
  /\ wrong_passcode registered_world (canonical_email wrong_guess)
       (stripped wrong_guess "password")
  /\ result (login_user 2000 "10.0.0.9" stranger_guess) registered_world =
     result (login_user 2000 "10.0.0.7" wrong_guess) registered_world.
Proof.
  assert (Hu : unknown_account registered_world (canonical_email stranger_guess))
    by (vm_compute; reflexivity).
  assert (Hw : wrong_passcode registered_world (canonical_email wrong_guess)
                 (stripped wrong_guess "password")).
  { eexists. split; [vm_compute; reflexivity|]. vm_compute. discriminate. }
  split; [exact Hu|]. split; [exact Hw|].
  apply (login_failure_hides_account 2000 "10.0.0.9" "10.0.0.7" stranger_guess wrong_guess
           registered_world registered_world);
    [repeat split; vm_compute; reflexivity | repeat split; vm_compute; reflexivity
    | exact Hu | exact Hw | vm_compute; reflexivity].
Defined.


(** The counterexample to C4 as it is written: Ann's upload of chunk number
    9223372036854775808 = 2^63 to her session S1 succeeds, and the row of
    S1 keeps chunk_count 0 where the sentence asks for max(0, 2^63). *)
Lemma chunk_count_not_max_beyond_int64 :
  ~ chunk_count_becomes_max 3500 "multipart/form-data; boundary=x"
      (chunk_form "S1" "9223372036854775808") {[ "video" := clip ]} Saved
      ann_user one_chunk_world.
Proof.
  intros H.
  specialize (H ltac:(vm_compute; reflexivity) (2 ^ 63) ltac:(vm_compute; reflexivity)).
  vm_compute in H. discriminate H.
Qed.

Lemma upload_chunk_count_is_max_witness :
  upload_ready registered_world "multipart/form-data; boundary=x"
    (chunk_form "S1" "7") {[ "video" := clip ]} ann_user clip
  /\ status_of (result (chunk_upload 3000 "S1" "7" Saved) registered_world) = 200
  /\ recording_sessions (run (chunk_upload 3000 "S1" "7" Saved) registered_world) =
     [mk_session "U1" "S1" 3000 7]
  /\ result (chunk_upload 3000 "S1" "7" (SaveFailed None)) registered_world =
     error "Failed to save file" 500.
Proof.
  assert (Hready : upload_ready registered_world "multipart/form-data; boundary=x"
                     (chunk_form "S1" "7") {[ "video" := clip ]} ann_user clip)
    by (repeat split; vm_compute; reflexivity).
  destruct (upload_chunk_count_is_max 3000 _ _ _ _ _ _ Hready)
    as ((Hok & Hmax & _) & Hfail).
  split; [exact Hready|]. split; [exact Hok|]. split.
  - destruct (Hmax 7 ltac:(vm_compute; reflexivity) ltac:(vm_compute; reflexivity))
      as (Hrows & _).
    unfold chunk_upload. rewrite Hrows. vm_compute. reflexivity.
  - exact (proj1 (Hfail None)).
Defined.


Lemma delete_video_files_then_row_witness :
  is_some (session_folder one_chunk_world "U1" "S1") = true
  /\ status_of (result (delete_video Removed (Some (delete_request "S1")) ann_user)
                  one_chunk_world) = 200
  /\ session_rows (run (delete_video Removed (Some (delete_request "S1")) ann_user)
                     one_chunk_world) "U1" "S1" = []
  /\ result (delete_video Removed (Some (delete_request "S1")) ann_user)
       (run (delete_video Removed (Some (delete_request "S1")) ann_user) one_chunk_world)
     = error "Video not found" 404
  /\ recording_sessions
       (run (delete_video (RmFailed [] "Permission denied") (Some (delete_request "S1"))
               ann_user) one_chunk_world) =
     recording_sessions one_chunk_world.
Proof.
  assert (Hdir : is_some (session_folder one_chunk_world (au_user_id ann_user)
                            (dict_get (delete_request "S1") "session_id" "")) = true)
    by (vm_compute; reflexivity).
  destruct (delete_video_files_then_row (delete_request "S1") ann_user one_chunk_world
              ltac:(vm_compute; reflexivity) Hdir)
    as ((Hok & _ & _ & Hrows & Hagain) & Hfail).
  split; [exact Hdir|]. split; [exact Hok|]. split; [exact Hrows|].
  split; [exact (Hagain Removed)|].
  exact (proj1 (proj2 (proj2 (Hfail [] "Permission denied")))).
Defined.

Lemma migrate_pin_user_outcomes_witness :
  migrate_request (migration "4321" "cat@example.com")
  /\ status_of (result (migrate_pin_user 50 "c0de" (migration "1111" "cat@example.com"))
                  legacy_world) = 404
  /\ status_of (result (migrate_pin_user 50 "c0de" (migration "4321" "cat@example.com"))
                  legacy_world) = 201
  /\ map user_id (users (run (migrate_pin_user 50 "c0de"
                                (migration "4321" "cat@example.com")) legacy_world)) = ["7"]
  /\ recording_sessions (run (migrate_pin_user 50 "c0de"
                                (migration "4321" "cat@example.com")) legacy_world) =
     [mk_session "7" "L1" 10 3]
  /\ result (migrate_pin_user 60 "c0de" (migration "4321" "cat@example.com"))
       (run (migrate_pin_user 50 "c0de" (migration "4321" "cat@example.com")) legacy_world)
     = error "Email already registered" 400.
Proof.
  assert (Hreq : migrate_request (migration "4321" "cat@example.com"))
    by (split; vm_compute; reflexivity).
  assert (Hreq' : migrate_request (migration "1111" "cat@example.com"))
    by (split; vm_compute; reflexivity).
  destruct (migrate_pin_user_outcomes 50 "c0de" _ legacy_world Hreq') as (Hnone & _).
  destruct (migrate_pin_user_outcomes 50 "c0de" _ legacy_world Hreq) as (_ & Hfound).
  destruct (Hfound [legacy_account] legacy_account eq_refl
              ltac:(vm_compute; reflexivity) ltac:(vm_compute; reflexivity))
    as (_ & Hgo).
  destruct (Hgo ltac:(vm_compute; reflexivity) ltac:(vm_compute; reflexivity))
    as (Hok & Husers & Hrows & _).
  destruct (migrate_pin_user_outcomes 60 "c0de" _
              (run (migrate_pin_user 50 "c0de" (migration "4321" "cat@example.com"))
                 legacy_world) Hreq) as (_ & Hfound').
  destruct (Hfound' [legacy_account] legacy_account
              ltac:(vm_compute; reflexivity) ltac:(vm_compute; reflexivity)
              ltac:(vm_compute; reflexivity))
    as (Hconflict & _).
  split; [exact Hreq|].
  split; [apply Hnone; intros old [= <-]; vm_compute; reflexivity|].
  split; [exact Hok|].
  split; [rewrite Husers; vm_compute; reflexivity|].
  split; [rewrite Hrows; vm_compute; reflexivity|].
  exact (proj1 (Hconflict ltac:(vm_compute; reflexivity))).
Defined.

Lemma download_chunk_unauthenticated_witness :
  stored_file one_chunk_world "U1" "S1" "chunk_000_19700101_005000.mov" =
    Some [Byte.x00; Byte.x01; Byte.x02]
  /\ result (download_chunk "U1" "S1" "chunk_000_19700101_005000.mov") one_chunk_world =
     Stream [Byte.x00; Byte.x01; Byte.x02]
       (chunk_headers "chunk_000_19700101_005000.mov" [Byte.x00; Byte.x01; Byte.x02])
  /\ result (download_chunk "U1" "S1" "chunk_000_19700101_005000.mov")
       (set_users (fun _ => []) one_chunk_world) =
     Stream [Byte.x00; Byte.x01; Byte.x02]
       (chunk_headers "chunk_000_19700101_005000.mov" [Byte.x00; Byte.x01; Byte.x02]).
Proof.
  assert (Hf : stored_file one_chunk_world "U1" "S1" "chunk_000_19700101_005000.mov" =
               Some [Byte.x00; Byte.x01; Byte.x02]) by (vm_compute; reflexivity).
  destruct (download_chunk_unauthenticated _ _ _ _ _ Hf) as (Hrun & Hany).
  split; [exact Hf|]. split; [|exact (Hany [])].
  unfold result. rewrite Hrun. reflexivity.
Defined.

Lemma upload_adds_row_with_folder_witness :
  upload_ready registered_world "multipart/form-data; boundary=x"
    (chunk_form "S1" "0") {[ "video" := clip ]} ann_user clip
  /\ length (session_rows one_chunk_world "U1" "S1") = 1%nat
  /\ new_session_rows one_chunk_world 3001 "U1" "S1" = [].
Proof.
  assert (Hready : upload_ready registered_world "multipart/form-data; boundary=x"
                     (chunk_form "S1" "0") {[ "video" := clip ]} ann_user clip)
    by (repeat split; vm_compute; reflexivity).
  destruct (upload_adds_row_with_folder 3000 3001 _ _ _ _ _ Saved _ Hready) as (Hlen & Hnone).
  split; [exact Hready|]. split; [|exact Hnone].
  unfold one_chunk_world, chunk_upload.
  etransitivity; [exact Hlen|]. vm_compute. reflexivity.
Defined.


Lemma created_user_authenticates_witness :
  is_valid_email "ann@example.com" = true
  /\ six_digits "123456" = true
  /\ result (get_user_by_email_password "ann@example.com" "123456")
       (run (create_user 1000 "U1" "5a17" "Ann" "ann@example.com" "123456") fresh_world)
     = Some ann_user
  /\ result (get_user_by_email_password "ann@example.com" "000000")
       (run (create_user 1000 "U1" "5a17" "Ann" "ann@example.com" "123456") fresh_world)
     = None.
Proof.
  assert (Hv : is_valid_email "ann@example.com" = true) by (vm_compute; reflexivity).
  assert (Hd : six_digits "123456" = true) by (vm_compute; reflexivity).
  destruct (created_user_authenticates 1000 "U1" "5a17" "Ann" "ann@example.com" "123456"
              fresh_world Hv Hd eq_refl eq_refl) as (Hok & Hno).
  split; [exact Hv|]. split; [exact Hd|]. split; [exact Hok|].
  apply Hno. vm_compute. discriminate.
Defined.

(** The run behind C3: Ann uploads a chunk to session S1, deletes the
    session under the name "S1/" (the same folder, no row of that name) and
    uploads to S1 again; the deletion is answered 200, and the table ends
    with two rows for (U1, S1). *)
Lemma aliased_delete_leaves_two_rows :
  status_of (result (delete_endpoint 4000 (Some (delete_request "S1/")) Removed)
               one_chunk_world) = 200
  /\ session_rows one_chunk_world "U1" "S1" = [mk_session "U1" "S1" 3000 0]
  /\ session_rows (after aliased_delete fresh_world) "U1" "S1" =
     [mk_session "U1" "S1" 3000 0; mk_session "U1" "S1" 5000 0].
Proof. repeat split; vm_compute; reflexivity. Qed.




Lemma require_auth_guards_witness :
  auth_result registered_world (stripped wrong_guess "email")
    (stripped wrong_guess "password") = None
  /\ login_attempts (run (require_auth 2000 wrong_guess get_storage_info) registered_world) =
     login_attempts registered_world
  /\ (forall g : auth_user -> M response,
        require_auth 2000 wrong_guess g registered_world =
        require_auth 2000 wrong_guess get_storage_info registered_world).
Proof.
  assert (Hauth : auth_result registered_world (stripped wrong_guess "email")
                    (stripped wrong_guess "password") = None) by (vm_compute; reflexivity).
  destruct (proj1 (require_auth_guards 2000 wrong_guess get_storage_info registered_world)
              (or_intror (or_intror Hauth))) as (Hany & _ & _ & Hatt & _).
  split; [exact Hauth|]. split; [exact Hatt|exact Hany].
Defined.

Lemma update_subscription_stores_valid_tier_witness :
  no_data premium_request = false
  /\ tier_of "U1" (users (run (update_subscription premium_request ann_user)
                            registered_world)) = "premium"
  /\ body_field "storage_limit"
       (result (get_storage_info ann_user)
          (run (update_subscription premium_request ann_user) registered_world)) =
     Some (JInt 72000).
Proof.
  assert (Hd : no_data premium_request = false) by (vm_compute; reflexivity).
  destruct (update_subscription_stores_valid_tier premium_request ann_user registered_world Hd)
    as (Hok & _).
  destruct Hok as (_ & _ & _ & _ & Hstored);
    [intros H; vm_compute in H; discriminate H|].
  destruct (Hstored ltac:(vm_compute; reflexivity)) as (Htier & Hlimit).
  split; [exact Hd|]. split.
  - change "U1" with (au_user_id ann_user). rewrite Htier. vm_compute. reflexivity.
  - rewrite Hlimit. vm_compute. reflexivity.
Defined.

Lemma uploaded_chunk_downloads_witness :
  upload_ready registered_world "multipart/form-data; boundary=x"
    (chunk_form "S1" "0") {[ "video" := clip ]} ann_user clip
  /\ chunk_filename 3000 "0" = "chunk_000_19700101_005000.mov"
  /\ result (download_chunk "U1" "S1" "chunk_000_19700101_005000.mov") one_chunk_world =
     Stream (content clip) (chunk_headers "chunk_000_19700101_005000.mov" (content clip)).
Proof.
  assert (Hready : upload_ready registered_world "multipart/form-data; boundary=x"
                     (chunk_form "S1" "0") {[ "video" := clip ]} ann_user clip)
    by (repeat split; vm_compute; reflexivity).
  destruct (uploaded_chunk_downloads 3000 _ _ _ _ _ _ Hready) as (_ & Hget & _).
  split; [exact Hready|]. split; [vm_compute; reflexivity|].
  vm_compute in Hget. vm_compute. exact Hget.
Defined.

Lemma deleted_session_not_served_witness :
  is_some (session_folder one_chunk_world "U1" "S1/") = true
  /\ dir_name "S1" = dir_name "S1/"
  /\ result (download_chunk "U1" "S1" "chunk_000_19700101_005000.mov")
       (run (delete_video Removed (Some (delete_request "S1/")) ann_user) one_chunk_world) =
     Text "Chunk not found" 404.
Proof.
  assert (Hdir : is_some (session_folder one_chunk_world (au_user_id ann_user)
                            (dict_get (delete_request "S1/") "session_id" "")) = true)
    by (vm_compute; reflexivity).
  assert (Halias : dir_name "S1" = dir_name (dict_get (delete_request "S1/") "session_id" ""))
    by (vm_compute; reflexivity).
  destruct (deleted_session_not_served (delete_request "S1/") ann_user one_chunk_world
              ltac:(vm_compute; reflexivity) Hdir "S1" Halias) as (Hchunk & _).
  split; [exact Hdir|]. split; [exact Halias|].
  exact (Hchunk "chunk_000_19700101_005000.mov").
Defined.

Lemma download_video_lists_served_chunks_witness :
  exists files,
    session_folder three_sessions_world "U1" "S1" = Some files
    /\ count_mov files = 4
    /\ body_field "total_chunks"
         (result (download_video "http://host" "S1" ann_user) three_sessions_world) =
       Some (JInt 4)
    /\ mov_files files =
       ["chunk_000_19700101_005000.mov"; "chunk_001_19700101_005001.mov";
        "chunk_002_19700101_005002.mov"; "chunk_003_19700101_005003.mov"].
Proof.
  destruct (session_folder three_sessions_world "U1" "S1") as [files|] eqn:Hdir;
    [|vm_compute in Hdir; discriminate Hdir].
  assert (Hcount : count_mov files = 4).
  { assert (H : (count_mov <$> session_folder three_sessions_world "U1" "S1") = Some 4)
      by (vm_compute; reflexivity).
    rewrite Hdir in H. now injection H. }
  assert (Hnames : mov_files files =
       ["chunk_000_19700101_005000.mov"; "chunk_001_19700101_005001.mov";
        "chunk_002_19700101_005002.mov"; "chunk_003_19700101_005003.mov"]).
  { assert (H : (mov_files <$> session_folder three_sessions_world "U1" "S1") =
       Some ["chunk_000_19700101_005000.mov"; "chunk_001_19700101_005001.mov";
             "chunk_002_19700101_005002.mov"; "chunk_003_19700101_005003.mov"])
      by (vm_compute; reflexivity).
    rewrite Hdir in H. now injection H. }
  destruct (download_video_lists_served_chunks "http://host" "S1" ann_user
              three_sessions_world files Hdir) as (_ & Hlist & _).
  exists files. split; [reflexivity|]. split; [exact Hcount|]. split; [|exact Hnames].
  rewrite Hlist by (rewrite Hcount; discriminate). rewrite Hcount. reflexivity.
Defined.

Lemma videos_match_storage_info_witness :
  (forall l, newest_first l ≡ₚ l)
  /\ body_field "storage_used" (result (get_storage_info ann_user) three_sessions_world) =
     Some (JInt 90)
  /\ omap (json_int "chunk_count")
       (body_items "videos"
          (result (list_videos newest_first ascii_format_created ann_user)
             three_sessions_world)) = [0; 2; 4].
Proof.
  assert (Hperm : forall l, newest_first l ≡ₚ l)
    by (intros l; apply merge_sort_Permutation).
  destruct (videos_match_storage_info newest_first ascii_format_created ann_user
              three_sessions_world Hperm) as (Hused & _).
  split; [exact Hperm|]. split; [|vm_compute; reflexivity].
  rewrite Hused. vm_compute. reflexivity.
Defined.

Lemma no_migration_when_unavailable_witness :
  body_field "migration_available" (result check_migration_available registered_world) =
    Some (JBool false)
  /\ users (run (migrate_pin_user 50 "c0de" (migration "4321" "cat@example.com"))
              registered_world) = users registered_world.
Proof.
  assert (Hno : body_field "migration_available"
                  (result check_migration_available registered_world) = Some (JBool false))
    by (vm_compute; reflexivity).
  destruct (proj1 (no_migration_when_unavailable 50 "c0de"
                     (migration "4321" "cat@example.com") registered_world) Hno)
    as (_ & Hu & _).
  split; [exact Hno|exact Hu].
Defined.

Lemma migration_happens_once_witness :
  migrate_request (migration "4321" "cat@example.com")
  /\ migrate_request (migration "4321" "dog@example.com")
  /\ status_of (result (migrate_pin_user 50 "c0de" (migration "4321" "cat@example.com"))
                  legacy_world) = 201
  /\ status_of (result (migrate_pin_user 60 "beef" (migration "4321" "dog@example.com"))
                  migrated_world) = 500
  /\ users (run (migrate_pin_user 60 "beef" (migration "4321" "dog@example.com"))
              migrated_world) = users migrated_world.
Proof.
  assert (Hreq : migrate_request (migration "4321" "cat@example.com"))
    by (split; vm_compute; reflexivity).
  assert (Hreq' : migrate_request (migration "4321" "dog@example.com"))
    by (split; vm_compute; reflexivity).
  assert (H201 : status_of (result (migrate_pin_user 50 "c0de"
                    (migration "4321" "cat@example.com")) legacy_world) = 201)
    by (vm_compute; reflexivity).
  destruct (migration_happens_once 50 "c0de" (migration "4321" "cat@example.com")
              60 "beef" (migration "4321" "dog@example.com") legacy_world
              Hreq Hreq' ltac:(vm_compute; reflexivity) H201) as (_ & Hu & _).
  split; [exact Hreq|]. split; [exact Hreq'|]. split; [exact H201|].
  split; [vm_compute; reflexivity|exact Hu].
Defined.


Lemma demo_account_is_premium_witness :
  status_of (result (create_demo_account ascii_isoformat 1000 "D1" "abcd") fresh_world) = 201
  /\ exists u,
       auth_result (run (create_demo_account ascii_isoformat 1000 "D1" "abcd") fresh_world)
         demo_email demo_password = Some u
       /\ tier_of (au_user_id u)
            (users (run (create_demo_account ascii_isoformat 1000 "D1" "abcd") fresh_world)) =
          "premium".
Proof.
  assert (H201 : status_of (result (create_demo_account ascii_isoformat 1000 "D1" "abcd")
                              fresh_world) = 201) by (vm_compute; reflexivity).
  destruct (demo_account_is_premium ascii_isoformat 1000 "D1" "abcd" fresh_world
              (or_intror H201)) as (u & Hauth & Htier & _).
  split; [exact H201|]. exists u. split; [exact Hauth|exact Htier].
Defined.

Lemma demo_switch_tier_effect_witness :
  auth_result migrated_world "cat@example.com" demo_password = None
  /\ result (demo_switch_tier ascii_isoformat 100
               (Some (dict [("email", "cat@example.com"); ("tier", "pro")]))) migrated_world =
     error "Demo account not found" 404
  /\ status_of (result (demo_switch_tier ascii_isoformat 100
                  (Some (dict [("email", "ann@example.com"); ("tier", "pro")])))
                  registered_world) = 200.
Proof.
  assert (Hauth : auth_result migrated_world "cat@example.com" demo_password = None)
    by (vm_compute; reflexivity).
  destruct (demo_switch_tier_effect ascii_isoformat 100
              (Some (dict [("email", "cat@example.com"); ("tier", "pro")])) migrated_world)
    as (_ & _ & Hnamed).
  split; [exact Hauth|]. split; [|vm_compute; reflexivity].
  apply (Hnamed "cat@example.com"); [vm_compute; reflexivity..|exact Hauth].
Defined.


Lemma upload_requires_credentials_witness :
  auth_result registered_world (canonical_email (Some forged_form))
    (stripped (Some forged_form) "password") = None
  /\ upload_folder (run (upload_video 3000 "multipart/form-data; boundary=x" forged_form
                           {[ "video" := clip ]} Saved) registered_world) =
     upload_folder registered_world
  /\ status_of (result (upload_video 3000 "multipart/form-data; boundary=x" forged_form
                          {[ "video" := clip ]} Saved) registered_world) = 401.
Proof.
  assert (Hauth : auth_result registered_world (canonical_email (Some forged_form))
                    (stripped (Some forged_form) "password") = None)
    by (vm_compute; reflexivity).
  destruct (upload_requires_credentials 3000 "multipart/form-data; boundary=x" forged_form
              {[ "video" := clip ]} Saved registered_world Hauth) as (_ & Hfolder & _).
  split; [exact Hauth|]. split; [exact Hfolder|vm_compute; reflexivity].
Defined.

Lemma create_all_demo_accounts_lists_working_witness :
  body_items "accounts"
    (result (create_all_demo_accounts ascii_isoformat 1000 demo_tokens) fresh_world) =
  map demo_ready demo_accounts
  /\ is_some (auth_result
                (run (create_all_demo_accounts ascii_isoformat 1000 demo_tokens) fresh_world)
                "reviewer-pro@righttorecord.com" "123456") = true.
Proof.
  assert (Hlist : body_items "accounts"
            (result (create_all_demo_accounts ascii_isoformat 1000 demo_tokens) fresh_world) =
          map demo_ready demo_accounts) by (vm_compute; reflexivity).
  destruct (create_all_demo_accounts_lists_working ascii_isoformat 1000 demo_tokens
              fresh_world) as (_ & Hlisted & _).
  split; [exact Hlist|].
  apply (Hlisted (mk_demo_account "reviewer-pro@righttorecord.com" "123456"
                    "Apple Reviewer Pro" "pro")).
  - cbn. tauto.
  - rewrite Hlist. cbn. tauto.
Defined.

End Examples.
